(** * CargoMax / SenaShipping loading-condition planner

    A shallow embedding of the Python sources of the livestock-carrier
    loading planner, and the properties of its specification proved (or
    refuted) against that embedding.

    Conventions of the embedding.

    - A Python [int] is a [Z].
    - A Python [float] is modelled by its exact value: a rational [Q], or
      one of the non-finite values [inf], [-inf], [nan].  Arithmetic on
      finite values is exact (binary64 rounding and the sign of zero are
      not modelled); the rules for non-finite operands follow IEEE 754 as
      Python applies them.  [float(text)] returns the binary64 float
      nearest to the decimal it reads.  Reference data read from the database (tank
      capacities, pen areas, positions) and the literals of the source are
      finite and have type [Q]; values computed from operator text have
      type [pyfloat].
    - A Python [str] is a Rocq [string]; characters are code points below
      256.
    - A Python [dict] keeps insertion order, and the order is observable
      (it is the order of the members of the JSON file), so a dict is an
      association list with unique keys, updated in place.
    - Exceptions are values of [exn], carried by the [result] monad. *)

From Stdlib Require Import ZArith QArith Qround Qabs String Ascii List Bool.
From Stdlib Require Import Sorted Permutation.
From Stdlib Require Import Lia Lqa DecimalString DecimalZ DecimalPos.
Import ListNotations.

Set Implicit Arguments.
Set Warnings "-register-all".

(* ------------------------------------------------------------------ *)
(** ** Python run-time values                                          *)
(* ------------------------------------------------------------------ *)

Module Py.

(** *** Exceptions *)

Inductive exn : Type :=
| TypeError
| ValueError
| OverflowError
| AttributeError
| FileNotFoundError
| JSONDecodeError
| UnicodeDecodeError.

Inductive result (A : Type) : Type :=
| Ok (a : A)
| Raise (e : exn).

Arguments Ok {A} a.
Arguments Raise {A} e.

Definition bind {A B} (m : result A) (k : A -> result B) : result B :=
  match m with
  | Ok a => k a
  | Raise e => Raise e
  end.

(** [try: m except ValueError/TypeError: d] *)
Definition except_value_type {A} (m : result A) (d : A) : result A :=
  match m with
  | Raise ValueError | Raise TypeError => Ok d
  | other => other
  end.

(** *** Floats *)

Inductive pyfloat : Type :=
| Fin (q : Q)
| Inf (negative : bool)
| NaN.

(** [x < y], [x > y], [x == y] on floats: every comparison with [nan]
    is false. *)
Definition flt (x y : pyfloat) : bool :=
  match x, y with
  | NaN, _ | _, NaN => false
  | Fin a, Fin b => negb (Qle_bool b a)
  | Fin _, Inf neg => negb neg
  | Inf neg, Fin _ => neg
  | Inf n1, Inf n2 => n1 && negb n2
  end.

Definition fgt (x y : pyfloat) : bool := flt y x.

Definition feqb (x y : pyfloat) : bool :=
  match x, y with
  | Fin a, Fin b => Qeq_bool a b
  | Inf n1, Inf n2 => Bool.eqb n1 n2
  | _, _ => false
  end.

(** The builtins [min(a, b)] and [max(a, b)]: the first argument is kept
    unless the second is strictly smaller (greater). *)
Definition py_min (a b : pyfloat) : pyfloat := if flt b a then b else a.
Definition py_max (a b : pyfloat) : pyfloat := if fgt b a then b else a.

Definition Qsign_neg (q : Q) : bool := negb (Qle_bool 0 q).
Definition Qis_zero (q : Q) : bool := Qeq_bool q 0.

Definition fmul (x y : pyfloat) : pyfloat :=
  match x, y with
  | NaN, _ | _, NaN => NaN
  | Fin a, Fin b => Fin (a * b)
  | Fin a, Inf n | Inf n, Fin a =>
      if Qis_zero a then NaN else Inf (xorb n (Qsign_neg a))
  | Inf n1, Inf n2 => Inf (xorb n1 n2)
  end.

Definition fadd (x y : pyfloat) : pyfloat :=
  match x, y with
  | NaN, _ | _, NaN => NaN
  | Fin a, Fin b => Fin (a + b)
  | Fin _, Inf n | Inf n, Fin _ => Inf n
  | Inf n1, Inf n2 => if Bool.eqb n1 n2 then Inf n1 else NaN
  end.

Definition fneg (x : pyfloat) : pyfloat :=
  match x with
  | Fin a => Fin (- a)
  | Inf n => Inf (negb n)
  | NaN => NaN
  end.

Definition fsub (x y : pyfloat) : pyfloat := fadd x (fneg y).

(** True division [x / y].  Python raises [ZeroDivisionError] for a zero
    divisor; every division of the embedded code divides by a non-zero
    literal or sits under a [> 0] guard on its divisor, so the value at a
    zero divisor is never used (it is [nan] here). *)
Definition fdiv (x y : pyfloat) : pyfloat :=
  match x, y with
  | NaN, _ | _, NaN => NaN
  | Fin a, Fin b => if Qis_zero b then NaN else Fin (a / b)
  | Fin _, Inf _ => Fin 0
  | Inf n, Fin b => Inf (xorb n (Qsign_neg b))
  | Inf _, Inf _ => NaN
  end.

(** *** Strings *)

Definition chars (s : string) : list ascii := list_ascii_of_string s.
Definition str (l : list ascii) : string := string_of_list_ascii l.

(** [str(n)] for an [int]. *)
Definition str_of_int (n : Z) : string :=
  NilZero.string_of_int (Z.to_int n).

(** The characters [str.strip()] removes: the white space of
    [str.isspace] below code point 256. *)
Definition is_space (c : ascii) : bool :=
  let n := N_of_ascii c in
  ((9 <=? n) && (n <=? 13) || (28 <=? n) && (n <=? 32)
   || (n =? 133) || (n =? 160))%N.

Fixpoint lstrip (l : list ascii) : list ascii :=
  match l with
  | c :: l' => if is_space c then lstrip l' else l
  | [] => []
  end.

Definition strip (s : string) : string :=
  str (rev (lstrip (rev (lstrip (chars s))))).

(** [str.upper()] on the letters [a]..[z]; the other characters are
    kept. *)
Definition upper_char (c : ascii) : ascii :=
  let n := N_of_ascii c in
  if ((97 <=? n) && (n <=? 122))%N then ascii_of_N (n - 32) else c.

Definition upper (s : string) : string := str (map upper_char (chars s)).

Definition lower_char (c : ascii) : ascii :=
  let n := N_of_ascii c in
  if ((65 <=? n) && (n <=? 90))%N then ascii_of_N (n + 32) else c.

(** Truth value of a string: the empty string is false. *)
Definition str_or (s d : string) : string :=
  match s with
  | EmptyString => d
  | _ => s
  end.

(** *** [float(text)]

    The grammar of the builtin:
<<
    floatvalue  ::= [sign] (floatnumber | "inf" | "infinity" | "nan")
    floatnumber ::= number [exponent]
    number      ::= [digitpart] "." digitpart | digitpart ["."]
    digitpart   ::= digit (["_"] digit)*
    exponent    ::= ("e" | "E") [sign] digitpart
>>
    with surrounding white space removed and the keywords in any case.
    The white space [float] removes is not that of [str.strip]: the
    separators 0x1c..0x1f stay, and make the text invalid. *)

Definition is_float_space (c : ascii) : bool :=
  let n := N_of_ascii c in
  ((9 <=? n) && (n <=? 13) || (n =? 32) || (n =? 133) || (n =? 160))%N.

Fixpoint float_lstrip (l : list ascii) : list ascii :=
  match l with
  | c :: l' => if is_float_space c then float_lstrip l' else l
  | [] => []
  end.

Definition float_strip (l : list ascii) : list ascii :=
  rev (float_lstrip (rev (float_lstrip l))).

Definition digit_val (c : ascii) : option Z :=
  let n := N_of_ascii c in
  if ((48 <=? n) && (n <=? 57))%N then Some (Z.of_N (n - 48)) else None.

Definition is_underscore (c : ascii) : bool := (N_of_ascii c =? 95)%N.

(** The rest of a [digitpart] after its first digit: the value read so
    far, the number of digits read so far, and the input. *)
Fixpoint digits_tail (acc : Z) (cnt : nat) (l : list ascii)
  : Z * nat * list ascii :=
  match l with
  | c :: l' =>
      match digit_val c with
      | Some d => digits_tail (10 * acc + d) (S cnt) l'
      | None =>
          if is_underscore c then
            match l' with
            | c2 :: l'' =>
                match digit_val c2 with
                | Some d => digits_tail (10 * acc + d) (S cnt) l''
                | None => (acc, cnt, l)
                end
            | [] => (acc, cnt, l)
            end
          else (acc, cnt, l)
      end
  | [] => (acc, cnt, l)
  end.

(** A [digitpart] continuing the value [acc]. *)
Definition digitpart (acc : Z) (l : list ascii)
  : option (Z * nat * list ascii) :=
  match l with
  | c :: l' =>
      match digit_val c with
      | Some d => Some (digits_tail (10 * acc + d) 1 l')
      | None => None
      end
  | [] => None
  end.

Definition is_char (n : N) (c : ascii) : bool := (N_of_ascii c =? n)%N.

(** [number]: the digits as one integer, the number of digits after the
    point, and the rest of the input. *)
Definition number (l : list ascii) : option (Z * nat * list ascii) :=
  match digitpart 0 l with
  | Some (ip, _, rest) =>
      match rest with
      | c :: rest' =>
          if is_char 46 c then
            match digitpart ip rest' with
            | Some (m, fd, rest'') => Some (m, fd, rest'')
            | None => Some (ip, O, rest')
            end
          else Some (ip, O, rest)
      | [] => Some (ip, O, [])
      end
  | None =>
      match l with
      | c :: rest' =>
          if is_char 46 c then digitpart 0 rest' else None
      | [] => None
      end
  end.

(** An optional sign: [true] for [-]. *)
Definition sign (l : list ascii) : bool * list ascii :=
  match l with
  | c :: l' =>
      if is_char 45 c then (true, l')
      else if is_char 43 c then (false, l')
      else (false, l)
  | [] => (false, l)
  end.

(** [exponent], which must end the input. *)
Definition exponent (l : list ascii) : option Z :=
  match l with
  | [] => Some 0%Z
  | c :: l' =>
      if is_char 101 c || is_char 69 c then
        let (neg, l'') := sign l' in
        match digitpart 0 l'' with
        | Some (e, _, []) => Some (if neg then (- e)%Z else e)
        | _ => None
        end
      else None
  end.

(** [m * 10 ^ k] *)
Definition scale10 (m k : Z) : Q :=
  if (0 <=? k)%Z then inject_Z (m * 10 ^ k)
  else Qmake m (Z.to_pos (10 ^ (- k))).

(** The least magnitude that rounds to infinity in binary64. *)
Definition float_overflow : Q := inject_Z (2 ^ 1024 - 2 ^ 970).

(** The integer nearest to [n / d], for [0 <= n] and [0 < d]; of two
    nearest ones the even one. *)
Definition nearest_even (n d : Z) : Z :=
  let q := (n / d)%Z in
  match (2 * (n mod d) ?= d)%Z with
  | Lt => q
  | Gt => (q + 1)%Z
  | Eq => if Z.even q then q else (q + 1)%Z
  end.

(** [m * 2 ^ e] *)
Definition scale2 (m e : Z) : Q :=
  if (0 <=? e)%Z then inject_Z (m * 2 ^ e)
  else Qmake m (Z.to_pos (2 ^ (- e))).

(** The binary64 floats around [n / d], for [0 < n] and [0 < d], are the
    multiples of [2 ^ e] for this [e]: it leaves 53 bits to the
    multiplier, and it is not below -1074, the exponent of the least
    subnormal float. *)
Definition ulp_exponent (n d : Z) : Z :=
  let l := (Z.log2 n - Z.log2 d)%Z in
  let below :=
    if (0 <=? l)%Z then (n <? d * 2 ^ l)%Z else (n * 2 ^ (- l) <? d)%Z in
  Z.max ((if below then l - 1 else l) - 52) (-1074).

(** The binary64 float nearest to a rational whose magnitude is below
    [float_overflow], of two nearest ones the one with the even
    multiplier: the float that [float] returns for a decimal text. *)
Definition nearest_binary64 (q : Q) : Q :=
  let n := Z.abs (Qnum q) in
  let d := Zpos (Qden q) in
  if (n =? 0)%Z then 0
  else
    let e := ulp_exponent n d in
    let m :=
      if (0 <=? e)%Z then nearest_even n (d * 2 ^ e)
      else nearest_even (n * 2 ^ (- e)) d in
    if (Qnum q <? 0)%Z then - scale2 m e else scale2 m e.

(** A rational that is a binary64 float is kept as it is written. *)
Definition finite_or_inf (q : Q) : pyfloat :=
  if Qle_bool float_overflow (Qabs q) then Inf (Qsign_neg q)
  else
    let r := nearest_binary64 q in
    if Qeq_bool r q then Fin q else Fin r.

Definition keyword (l : list ascii) : list ascii := map lower_char l.

Definition float_of_str (s : string) : result pyfloat :=
  let (neg, body) := sign (float_strip (chars s)) in
  let k := str (keyword body) in
  if String.eqb k "inf" || String.eqb k "infinity" then Ok (Inf neg)
  else if String.eqb k "nan" then Ok NaN
  else
    match number body with
    | Some (m, fd, rest) =>
        match exponent rest with
        | Some e =>
            let q := scale10 m (e - Z.of_nat fd) in
            Ok (finite_or_inf (if neg then - q else q))
        | None => Raise ValueError
        end
    | None => Raise ValueError
    end.

(** [int(x)] for a float: truncation towards zero. *)
Definition int_of_float (x : pyfloat) : result Z :=
  match x with
  | Fin q => Ok (Z.quot (Qnum q) (Zpos (Qden q)))
  | Inf _ => Raise OverflowError
  | NaN => Raise ValueError
  end.

(** *** Dictionaries: insertion-ordered association lists *)

Section Dict.
Variables (K V : Type) (eqb : K -> K -> bool).

Definition dict : Type := list (K * V).

Fixpoint dict_get (k : K) (d : dict) : option V :=
  match d with
  | (k', v) :: d' => if eqb k k' then Some v else dict_get k d'
  | [] => None
  end.

(** [d[k] = v]: an existing key keeps its place. *)
Fixpoint dict_set (k : K) (v : V) (d : dict) : dict :=
  match d with
  | (k', v') :: d' =>
      if eqb k k' then (k', v) :: d' else (k', v') :: dict_set k v d'
  | [] => [(k, v)]
  end.

(** [d.get(k, default)] *)
Definition dict_get_default (k : K) (default : V) (d : dict) : V :=
  match dict_get k d with
  | Some v => v
  | None => default
  end.

(** [dict(pairs)]: later pairs overwrite earlier ones. *)
Definition dict_of_pairs (l : list (K * V)) : dict :=
  fold_left (fun d kv => dict_set (fst kv) (snd kv) d) l [].

End Dict.

End Py.

Import Py.

Declare Scope py_scope.
Notation "x <- m ;; k" := (Py.bind m (fun x => k))
  (at level 61, m at next level, right associativity) : py_scope.
Open Scope py_scope.

(** *** Dynamically typed values *)

Module Value.

Inductive pykey : Type :=
| KInt (n : Z)
| KStr (s : string).

Inductive pyval : Type :=
| VNone
| VBool (b : bool)
| VInt (n : Z)
| VFloat (x : pyfloat)
| VStr (s : string)
| VList (l : list pyval)
| VDict (d : list (pykey * pyval)).

(** Key equality as the dict sees it: an [int] never equals a [str]. *)
Definition pykey_eqb (a b : pykey) : bool :=
  match a, b with
  | KInt m, KInt n => (m =? n)%Z
  | KStr s, KStr t => String.eqb s t
  | _, _ => false
  end.

Definition pydict : Type := dict pykey pyval.

Definition get (k : pykey) (d : pydict) : option pyval :=
  dict_get pykey_eqb k d.
Definition get_default (k : pykey) (default : pyval) (d : pydict) : pyval :=
  dict_get_default pykey_eqb k default d.

(** Truth value testing. *)
Definition truthy (v : pyval) : bool :=
  match v with
  | VNone => false
  | VBool b => b
  | VInt n => negb (n =? 0)%Z
  | VFloat x => negb (feqb x (Fin 0))
  | VStr s => negb (String.eqb s "")
  | VList l => match l with [] => false | _ => true end
  | VDict d => match d with [] => false | _ => true end
  end.

(** [a or b] *)
Definition py_or (a b : pyval) : pyval := if truthy a then a else b.

(** A [Dict[int, float]] and a [Dict[int, int]] as objects. *)
Definition of_volumes (d : dict Z pyfloat) : pyval :=
  VDict (map (fun kv => (KInt (fst kv), VFloat (snd kv))) d).
Definition of_loadings (d : dict Z Z) : pyval :=
  VDict (map (fun kv => (KInt (fst kv), VInt (snd kv))) d).

(** The items of a dict object. *)
Definition items (v : pyval) : pydict :=
  match v with
  | VDict d => d
  | _ => []
  end.

(** [Optional[int]] as an object. *)
Definition of_opt_int (o : option Z) : pyval :=
  match o with
  | Some n => VInt n
  | None => VNone
  end.

End Value.

Import Value.

(* ------------------------------------------------------------------ *)
(** ** config/limits.py                                                *)
(* ------------------------------------------------------------------ *)

Module Limits.
Local Open Scope Q_scope.

(** Minimum acceptable GM (m) *)
Definition MIN_GM_M : Q := 0.15.
(** Livestock: stricter GM *)
Definition MIN_GM_LIVESTOCK_M : Q := 0.20.
(** Livestock: max roll period (s) *)
Definition MAX_ROLL_PERIOD_S : Q := 15.0.
(** Livestock: min freeboard (m) *)
Definition MIN_FREEBORD_M : Q := 0.3.
(** Livestock: default mass per head (t) *)
Definition MASS_PER_HEAD_T : Q := 0.5.
(** Maximum acceptable trim as fraction of LOA *)
Definition MAX_TRIM_FRACTION : Q := 0.02.
(** Maximum draft as fraction of design draft *)
Definition MAX_DRAFT_FRACTION : Q := 1.05.
(** Max SWBM as fraction of design *)
Definition MAX_SWBM_FRACTION : Q := 1.0.
(** Propeller immersion minimum (%) *)
Definition MIN_PROP_IMMERSION_PCT : Q := 60.0.
(** Minimum visibility (m) *)
Definition MIN_VISIBILITY_M : Q := 1.0.
(** Minimum air draft (m) *)
Definition MIN_AIR_DRAFT_M : Q := 5.0.
(** Free surface correction factor for slack tanks *)
Definition FREE_SURFACE_FACTOR : Q := 0.5.
(** Floating-point tolerance *)
Definition EPS : Q := 1e-9.

(** The names the module binds, in the order of the file. *)
Definition namespace : list (string * Q) :=
  [ ("MIN_GM_M", MIN_GM_M);
    ("MIN_GM_LIVESTOCK_M", MIN_GM_LIVESTOCK_M);
    ("MAX_ROLL_PERIOD_S", MAX_ROLL_PERIOD_S);
    ("MIN_FREEBORD_M", MIN_FREEBORD_M);
    ("MASS_PER_HEAD_T", MASS_PER_HEAD_T);
    ("MAX_TRIM_FRACTION", MAX_TRIM_FRACTION);
    ("MAX_DRAFT_FRACTION", MAX_DRAFT_FRACTION);
    ("MAX_SWBM_FRACTION", MAX_SWBM_FRACTION);
    ("MIN_PROP_IMMERSION_PCT", MIN_PROP_IMMERSION_PCT);
    ("MIN_VISIBILITY_M", MIN_VISIBILITY_M);
    ("MIN_AIR_DRAFT_M", MIN_AIR_DRAFT_M);
    ("FREE_SURFACE_FACTOR", FREE_SURFACE_FACTOR);
    ("EPS", EPS) ]%string.

(** Attribute access [limits.NAME]. *)
Definition getattr (name : string) : option Q :=
  dict_get String.eqb name namespace.

End Limits.

(* ------------------------------------------------------------------ *)
(** ** models                                                          *)
(* ------------------------------------------------------------------ *)

(** models/cargo.py *)
Module Cargo.
Record t : Type := mk
  { id : option Z;
    name : string;
    cargo_type : string;
    density_t_per_m3 : Q }.

(** The dataclass defaults. *)
Definition default : t :=
  {| id := None; name := ""; cargo_type := ""; density_t_per_m3 := 1.0 |}.
End Cargo.

(** models/livestock_pen.py *)
Module LivestockPen.
Record t : Type := mk
  { id : option Z;
    ship_id : option Z;
    name : string;
    deck : string;
    vcg_m : Q;
    lcg_m : Q;
    tcg_m : Q;
    area_m2 : Q;
    capacity_head : Z }.

Definition default : t :=
  {| id := None; ship_id := None; name := ""; deck := "";
     vcg_m := 0.0; lcg_m := 0.0; tcg_m := 0.0;
     area_m2 := 0.0; capacity_head := 0 |}.
End LivestockPen.

(** The [Tank] dataclass, with the fields [TankRepository] reads and
    writes; [tank_type] is the name of the [TankType] member. *)
Module Tank.
Record t : Type := mk
  { id : option Z;
    ship_id : option Z;
    name : string;
    tank_type : string;
    capacity_m3 : Q;
    longitudinal_pos : Q;
    kg_m : Q;
    tcg_m : Q;
    lcg_m : Q }.
End Tank.

(** The [LoadingCondition] dataclass, with the fields the file service and
    the editor use.  The fields hold objects: what a file stores there is
    not checked when it is loaded. *)
Module LoadingCondition.
Record t : Type := mk
  { id : pyval;
    voyage_id : pyval;
    name : pyval;
    tank_volumes_m3 : pyval;
    pen_loadings : pyval;
    displacement_t : pyval;
    draft_m : pyval;
    trim_m : pyval;
    gm_m : pyval }.
End LoadingCondition.

(* ------------------------------------------------------------------ *)
(** ** The [json] module of the Python library                         *)
(* ------------------------------------------------------------------ *)

Module Json.

(** A JSON document.  The text of a file written by [json.dump] is
    modelled by the document it denotes: the writer and the reader of
    the library agree on the text of every document (floats are
    written with [repr], which reads back to the same float). *)
Inductive json : Type :=
| JNull
| JBool (b : bool)
| JInt (n : Z)
| JFloat (x : pyfloat)
| JString (s : string)
| JArray (l : list json)
| JObject (members : list (string * json)).

(** The encoder writes every key of a dict as a string: an [int] key
    becomes its decimal text. *)
Definition key_text (k : pykey) : string :=
  match k with
  | KInt n => str_of_int n
  | KStr s => s
  end.

(** [json.dump]: the document written for an object. *)
Fixpoint dump (v : pyval) : json :=
  match v with
  | VNone => JNull
  | VBool b => JBool b
  | VInt n => JInt n
  | VFloat x => JFloat x
  | VStr s => JString s
  | VList l => JArray (map dump l)
  | VDict d => JObject (map (fun kv => (key_text (fst kv), dump (snd kv))) d)
  end.

(** [json.load]: the object read from a document.  The members of an
    object are stored under [str] keys, a repeated name keeping its
    last value. *)
Fixpoint load (j : json) : pyval :=
  match j with
  | JNull => VNone
  | JBool b => VBool b
  | JInt n => VInt n
  | JFloat x => VFloat x
  | JString s => VStr s
  | JArray l => VList (map load l)
  | JObject m =>
      VDict (dict_of_pairs pykey_eqb
               (map (fun kv => (KStr (fst kv), load (snd kv))) m))
  end.

End Json.

(* ------------------------------------------------------------------ *)
(** ** services/file_service.py                                        *)
(* ------------------------------------------------------------------ *)

Module FileService.
Import Json.

(** What a regular file holds: the text of a JSON document, another text
    in UTF-8, or bytes that are not UTF-8. *)
Inductive file : Type :=
| JsonText (doc : json)
| OtherText
| NotUtf8.

(** The regular files of the disk that the process may read and write.
    The key is the file a path resolves to, not the spelling of the path:
    two paths that name one file are one key. *)
Definition filesystem : Type := string -> option file.

Definition empty_fs : filesystem := fun _ => None.

Definition write (path : string) (f : file) (fs : filesystem) : filesystem :=
  fun p => if String.eqb p path then Some f else fs p.

Definition save_condition_to_file
    (filepath : string) (condition : LoadingCondition.t)
    (fs : filesystem) : filesystem :=
  let data :=
    VDict
      [ (KStr "name", LoadingCondition.name condition);
        (KStr "voyage_id", LoadingCondition.voyage_id condition);
        (KStr "tank_volumes_m3", LoadingCondition.tank_volumes_m3 condition);
        (KStr "pen_loadings",
          py_or (LoadingCondition.pen_loadings condition) (VDict []));
        (KStr "displacement_t", LoadingCondition.displacement_t condition);
        (KStr "draft_m", LoadingCondition.draft_m condition);
        (KStr "trim_m", LoadingCondition.trim_m condition);
        (KStr "gm_m", LoadingCondition.gm_m condition) ] in
  write filepath (JsonText (dump data)) fs.

Definition load_condition_from_file
    (filepath : string) (fs : filesystem) : result LoadingCondition.t :=
  match fs filepath with
  | None => Raise FileNotFoundError
  | Some NotUtf8 => Raise UnicodeDecodeError
  | Some OtherText => Raise JSONDecodeError
  | Some (JsonText doc) =>
      match load doc with
      | VDict data =>
          Ok {| LoadingCondition.id := VNone;
                LoadingCondition.voyage_id :=
                  get_default (KStr "voyage_id") VNone data;
                LoadingCondition.name :=
                  get_default (KStr "name") (VStr "Loaded Condition") data;
                LoadingCondition.tank_volumes_m3 :=
                  get_default (KStr "tank_volumes_m3") (VDict []) data;
                LoadingCondition.pen_loadings :=
                  get_default (KStr "pen_loadings") (VDict []) data;
                LoadingCondition.displacement_t :=
                  get_default (KStr "displacement_t") (VFloat (Fin 0.0)) data;
                LoadingCondition.draft_m :=
                  get_default (KStr "draft_m") (VFloat (Fin 0.0)) data;
                LoadingCondition.trim_m :=
                  get_default (KStr "trim_m") (VFloat (Fin 0.0)) data;
                LoadingCondition.gm_m :=
                  get_default (KStr "gm_m") (VFloat (Fin 0.0)) data |}
      | _ => Raise AttributeError
      end
  end.

End FileService.

(* ------------------------------------------------------------------ *)
(** ** views/condition_table_widget.py                                 *)
(* ------------------------------------------------------------------ *)

Module ConditionTable.
Local Open Scope Q_scope.

(** The content of a table item: a text, or a float rendered with a
    fixed number of decimals ([f"{x:.2f}"] is [Fixed 2 x]); the decimal
    rendering itself is not modelled. *)
Inductive cell : Type :=
| Text (s : string)
| Fixed (places : nat) (x : pyfloat).

Definition row : Type := list cell.
Definition table : Type := list row.

(** Average mass per head in tonnes *)
Definition MASS_PER_HEAD_T : Q := 0.5.

(** [x or -1] for an optional id: [None] and [0] are false. *)
Definition id_or_minus1 (i : option Z) : Z :=
  match i with
  | Some n => if (n =? 0)%Z then (-1)%Z else n
  | None => (-1)%Z
  end.

(** The tables of the widget by tab name, in the order [_create_tabs]
    adds them. *)
Definition tab_names : list string :=
  (map (fun n => ("Livestock-DK" ++ str_of_int n)%string)
       [1; 2; 3; 4; 5; 6; 7; 8]%Z
   ++ [ "Water Ballast"; "Fresh Water"; "Heavy Fuel Oil"; "Diesel Oil";
        "Lube Oil"; "Gray Water"; "Misc. Tanks"; "Dung"; "Fodder Hold" ]%string
   ++ [ "Misc. Weights"; "Spaces"; "All"; "Selected" ]%string)%list.

Definition widgets : Type := dict string table.

Definition _create_tabs : widgets := map (fun n => (n, [])) tab_names.

Definition table_of (tab_name : string) (w : widgets) : option table :=
  dict_get String.eqb tab_name w.

(** *** [_populate_livestock_tab] *)

Definition on_deck (deck_letter : string) (p : LivestockPen.t) : bool :=
  String.eqb (upper (strip (str_or (LivestockPen.deck p) "")))
             (upper deck_letter).

Definition heads_of (pen_loadings : dict Z Z) (pen : LivestockPen.t) : Z :=
  dict_get_default Z.eqb (id_or_minus1 (LivestockPen.id pen)) 0%Z pen_loadings.

Definition pen_weight_mt (heads : Z) : Q := inject_Z heads * MASS_PER_HEAD_T.

Definition pen_area_used (pen : LivestockPen.t) (heads : Z) : Q :=
  if (0 <? heads)%Z then LivestockPen.area_m2 pen else 0.0.

Definition pen_head_pct (pen : LivestockPen.t) (heads : Z) : Q :=
  if (0 <? LivestockPen.capacity_head pen)%Z
  then inject_Z heads / inject_Z (LivestockPen.capacity_head pen) * 100.0
  else 0.0.

Definition pen_area_per_head (pen : LivestockPen.t) (heads : Z) : Q :=
  if (0 <? heads)%Z then LivestockPen.area_m2 pen / inject_Z heads else 0.0.

Definition fixed (places : nat) (q : Q) : cell := Fixed places (Fin q).

Definition livestock_row (pen_loadings : dict Z Z) (pen : LivestockPen.t)
  : row :=
  let heads := heads_of pen_loadings pen in
  let weight_mt := pen_weight_mt heads in
  let area_used := pen_area_used pen heads in
  let head_pct := pen_head_pct pen heads in
  let area_per_head := pen_area_per_head pen heads in
  let lcg_moment := weight_mt * LivestockPen.lcg_m pen in
  [ Text (LivestockPen.name pen);
    Text "Livestock";
    Text (str_of_int heads);
    fixed 1 head_pct;
    Text (str_of_int (LivestockPen.capacity_head pen));
    fixed 2 area_used;
    fixed 2 (LivestockPen.area_m2 pen);
    fixed 2 area_per_head;
    fixed 2 MASS_PER_HEAD_T;
    fixed 2 weight_mt;
    fixed 3 (LivestockPen.vcg_m pen);
    fixed 3 (LivestockPen.lcg_m pen);
    fixed 3 (LivestockPen.tcg_m pen);
    fixed 2 lcg_moment ].

(** The running totals of the loop: weight, area used, area. *)
Definition deck_totals (pen_loadings : dict Z Z)
    (deck_pens : list LivestockPen.t) : Q * Q * Q :=
  fold_left
    (fun tot pen =>
       let '(total_weight, total_area_used, total_area) := tot in
       let heads := heads_of pen_loadings pen in
       (total_weight + pen_weight_mt heads,
        total_area_used + pen_area_used pen heads,
        total_area + LivestockPen.area_m2 pen))
    deck_pens (0.0, 0.0, 0.0).

Definition totals_row (deck_letter : string) (tot : Q * Q * Q) : row :=
  let '(total_weight, total_area_used, total_area) := tot in
  [ Text ("Livestock-DK" ++ deck_letter ++ " Totals")%string;
    Text ""; Text ""; Text ""; Text "";
    fixed 2 total_area_used;
    fixed 2 total_area;
    Text ""; Text "";
    fixed 2 total_weight;
    Text ""; Text ""; Text ""; Text "" ].

Definition deck_pens_of (pens : list LivestockPen.t) (deck_letter : string)
  : list LivestockPen.t :=
  filter (on_deck deck_letter) pens.

(** The rows the call appends to the table of the tab. *)
Definition livestock_rows (pens : list LivestockPen.t)
    (pen_loadings : dict Z Z) (deck_letter : string) : table :=
  let deck_pens := deck_pens_of pens deck_letter in
  (map (livestock_row pen_loadings) deck_pens
   ++ match deck_pens with
      | [] => []
      | _ => [totals_row deck_letter (deck_totals pen_loadings deck_pens)]
      end)%list.

Definition append_rows (tab_name : string) (rows : table) (w : widgets)
  : widgets :=
  match table_of tab_name w with
  | Some t => dict_set String.eqb tab_name (t ++ rows)%list w
  | None => w
  end.

Definition _populate_livestock_tab (tab_name : string)
    (pens : list LivestockPen.t) (pen_loadings : dict Z Z)
    (deck_letter : string) (w : widgets) : widgets :=
  append_rows tab_name (livestock_rows pens pen_loadings deck_letter) w.

(** *** [_populate_tank_tabs] *)

Definition volume_of (tank_volumes : dict Z pyfloat) (tank : Tank.t)
  : pyfloat :=
  dict_get_default Z.eqb (id_or_minus1 (Tank.id tank)) (Fin 0.0) tank_volumes.

Definition tank_fill_pct (tank : Tank.t) (vol : pyfloat) : pyfloat :=
  if negb (Qle_bool (Tank.capacity_m3 tank) 0)
  then fmul (fdiv vol (Fin (Tank.capacity_m3 tank))) (Fin 100.0)
  else Fin 0.0.

(** Simplified: assume water density *)
Definition tank_weight_mt (vol : pyfloat) : pyfloat := fmul vol (Fin 1.025).

Definition tank_row (tank_volumes : dict Z pyfloat) (tank : Tank.t) : row :=
  let vol := volume_of tank_volumes tank in
  let fill_pct := tank_fill_pct tank vol in
  let weight_mt := tank_weight_mt vol in
  [ Text (Tank.name tank);
    Text "Tank";
    Text "";
    Fixed 1 fill_pct;
    fixed 2 (Tank.capacity_m3 tank);
    Text ""; Text ""; Text ""; Text "";
    Fixed 2 weight_mt;
    Text "";
    fixed 3 (Tank.longitudinal_pos tank);
    Text ""; Text "" ].

Definition _populate_tank_tabs (tanks : list Tank.t)
    (tank_volumes : dict Z pyfloat) (w : widgets) : widgets :=
  append_rows "Misc. Tanks" (map (tank_row tank_volumes) tanks) w.

(** *** [_populate_all_tab] *)

Definition all_pen_row (pen_loadings : dict Z Z) (pen : LivestockPen.t)
  : row :=
  let heads := heads_of pen_loadings pen in
  let weight_mt := pen_weight_mt heads in
  let head_pct := pen_head_pct pen heads in
  let area_per_head := pen_area_per_head pen heads in
  let lcg_moment := weight_mt * LivestockPen.lcg_m pen in
  [ Text (LivestockPen.name pen);
    Text "Livestock";
    Text (str_of_int heads);
    fixed 1 head_pct;
    Text (str_of_int (LivestockPen.capacity_head pen));
    fixed 2 (LivestockPen.area_m2 pen);
    fixed 2 (LivestockPen.area_m2 pen);
    fixed 2 area_per_head;
    fixed 2 MASS_PER_HEAD_T;
    fixed 2 weight_mt;
    fixed 3 (LivestockPen.vcg_m pen);
    fixed 3 (LivestockPen.lcg_m pen);
    fixed 3 (LivestockPen.tcg_m pen);
    fixed 2 lcg_moment ].

Definition all_rows (pens : list LivestockPen.t) (tanks : list Tank.t)
    (pen_loadings : dict Z Z) (tank_volumes : dict Z pyfloat) : table :=
  (map (all_pen_row pen_loadings)
       (filter (fun pen => negb (heads_of pen_loadings pen =? 0)%Z) pens)
   ++ map (tank_row tank_volumes)
       (filter (fun tank => negb (feqb (volume_of tank_volumes tank) (Fin 0.0)))
               tanks))%list.

Definition _populate_all_tab (pens : list LivestockPen.t)
    (tanks : list Tank.t) (pen_loadings : dict Z Z)
    (tank_volumes : dict Z pyfloat) (w : widgets) : widgets :=
  append_rows "All" (all_rows pens tanks pen_loadings tank_volumes) w.

(** *** [update_data] *)

(** [chr(ord('A') + deck_num - 1)] *)
Definition deck_letter_of (deck_num : Z) : string :=
  String (ascii_of_N (Z.to_N (65 + deck_num - 1))) EmptyString.

Definition update_data (pens : list LivestockPen.t) (tanks : list Tank.t)
    (pen_loadings : dict Z Z) (tank_volumes : dict Z pyfloat)
    (w : widgets) : widgets :=
  let cleared := map (fun kv => (fst kv, @nil row)) w in
  let decks :=
    fold_left
      (fun w' deck_num =>
         _populate_livestock_tab
           ("Livestock-DK" ++ str_of_int deck_num)%string
           pens pen_loadings (deck_letter_of deck_num) w')
      [1; 2; 3; 4; 5; 6; 7; 8]%Z cleared in
  _populate_all_tab pens tanks pen_loadings tank_volumes
    (_populate_tank_tabs tanks tank_volumes decks).

(** The weight column of a row. *)
Definition weight_cell (r : row) : option cell := nth_error r 9.

End ConditionTable.

(* ------------------------------------------------------------------ *)
(** ** views/results_view.py                                           *)
(* ------------------------------------------------------------------ *)

Module ResultsView.
Import ConditionTable.

(** What the view reads of a [ValidationResult]. *)
Record ValidationResult : Type :=
  { has_errors : bool;
    has_warnings : bool;
    gm_effective : pyfloat }.

(** What the view reads of the criteria report of a result; an absent
    attribute is [None]. *)
Record CriteriaReport : Type :=
  { passed : option Z;
    failed : option Z }.

(** What the view reads of a [ConditionResults].  The attributes it
    probes with [getattr] are optional: [None] when the object does not
    carry them. *)
Record ConditionResults : Type :=
  { displacement_t : pyfloat;
    draft_m : pyfloat;
    trim_m : pyfloat;
    gm_m : pyfloat;
    kg_m : pyfloat;
    km_m : pyfloat;
    draft_aft_m : option pyfloat;
    draft_fwd_m : option pyfloat;
    heel_deg : option pyfloat;
    validation : option ValidationResult;
    criteria : option CriteriaReport }.

(** [getattr(obj, name, default)] *)
Definition getattr {A} (attribute : option A) (default : A) : A :=
  match attribute with
  | Some a => a
  | None => default
  end.

Definition draft_aft (results : ConditionResults) : pyfloat :=
  getattr (draft_aft_m results)
          (fadd (draft_m results) (fdiv (trim_m results) (Fin 2))).

Definition draft_fwd (results : ConditionResults) : pyfloat :=
  getattr (draft_fwd_m results)
          (fsub (draft_m results) (fdiv (trim_m results) (Fin 2))).

Definition heel (results : ConditionResults) : pyfloat :=
  getattr (heel_deg results) (Fin 0.0).

Definition gm_display (results : ConditionResults) : pyfloat :=
  match validation results with
  | Some v => gm_effective v
  | None => gm_m results
  end.

(** [crit_sum]: the criteria summary handed to the text report.  A
    report object is true; an absent one ([None]) is false. *)
Definition crit_sum (results : ConditionResults) : string :=
  match criteria results with
  | Some c =>
      match passed c, failed c with
      | Some p, Some f =>
          (str_of_int p ++ " passed, " ++ str_of_int f ++ " failed")%string
      | _, _ => ""
      end
  | None => ""
  end.

(** The read-only fields of the calculation summary that
    [update_results] fills from the result, and the summary of the
    report. *)
Record summary : Type :=
  { _disp_edit : cell;
    _draft_edit : cell;
    _draft_aft_edit : cell;
    _draft_fwd_edit : cell;
    _trim_edit : cell;
    _heel_edit : cell;
    _gm_edit : cell;
    _kg_edit : cell;
    _km_edit : cell;
    criteria_summary : string }.

Definition update_results (results : ConditionResults) : summary :=
  {| _disp_edit := Fixed 1 (displacement_t results);
     _draft_edit := Fixed 2 (draft_m results);
     _draft_aft_edit := Fixed 2 (draft_aft results);
     _draft_fwd_edit := Fixed 2 (draft_fwd results);
     _trim_edit := Fixed 2 (trim_m results);
     _heel_edit := Fixed 2 (heel results);
     _gm_edit := Fixed 2 (gm_display results);
     _kg_edit := Fixed 2 (kg_m results);
     _km_edit := Fixed 2 (km_m results);
     criteria_summary := crit_sum results |}.

End ResultsView.

(* ------------------------------------------------------------------ *)
(** ** views/condition_editor_view.py                                  *)
(* ------------------------------------------------------------------ *)

Module ConditionEditor.

(** A table item: its text and the tank or pen id stored under
    [Qt.ItemDataRole.UserRole] ([None] when no id was stored). *)
Record item : Type :=
  { text : string;
    data : option Z }.

(** A row of a table: its items by column; a cell without item is
    [None]. *)
Definition table_row : Type := list (option item).

(** [table.item(row, col)] *)
Definition item_at (r : table_row) (col : nat) : option item :=
  nth col r None.

(** What the editor reads of the selected ship and voyage. *)
Record Ship : Type := { ship_id : option Z }.
Record Voyage : Type := { voyage_id : option Z }.

(** The state that the two handlers read: the fields of the view, and
    whether the module global [database.SessionLocal] is set (it is
    None until the database is initialised). *)
Record view : Type :=
  { database_SessionLocal : bool;
    _current_ship : option Ship;
    _current_voyage : option Voyage;
    _current_condition : option LoadingCondition.t;
    _condition_name_edit : string;
    _tank_table : list table_row;
    _pen_table : list table_row }.

(** How a handler ends: with the condition it built (and the two dicts
    it stored in it), with a message box and no condition, with a plain
    return, or with an exception nobody catches. *)
Inductive outcome : Type :=
| Built (condition : LoadingCondition.t)
        (tank_volumes : dict Z pyfloat) (pen_loadings : dict Z Z)
| Message (title : string)
| Returned
| Uncaught (e : exn).

(** Equality of the keys of [tank_by_id]: the ids of the tanks, [None]
    for a tank that was never stored. *)
Definition opt_Z_eqb (a b : option Z) : bool :=
  match a, b with
  | Some m, Some n => (m =? n)%Z
  | None, None => true
  | _, _ => false
  end.

(** [{t.id: t for t in tanks}] *)
Definition tank_by_id_of (tanks : list Tank.t) : dict (option Z) Tank.t :=
  dict_of_pairs opt_Z_eqb (map (fun t => (Tank.id t, t)) tanks).

(** [max(0.0, min(100.0, fill_pct))] *)
Definition clamp_pct (fill_pct : pyfloat) : pyfloat :=
  py_max (Fin 0.0) (py_min (Fin 100.0) fill_pct).

(** The fill percentage read from the text of an item. *)
Definition parse_fill_pct (fill_text : string) : result pyfloat :=
  except_value_type (float_of_str fill_text) (Fin 0.0).

(** One turn of the loop over the rows of the tank table. *)
Definition tank_row_step (tank_by_id : dict (option Z) Tank.t)
    (tank_volumes : dict Z pyfloat) (r : table_row)
  : result (dict Z pyfloat) :=
  match item_at r 0, item_at r 2 with
  | Some name_item, Some fill_item =>
      match data name_item with
      | None => Ok tank_volumes
      | Some tank_id =>
          fill_pct <- parse_fill_pct (text fill_item) ;;
          let fill_pct := clamp_pct fill_pct in
          match dict_get opt_Z_eqb (Some tank_id) tank_by_id with
          | None => Ok tank_volumes
          | Some tank =>
              let vol :=
                fmul (Fin (Tank.capacity_m3 tank))
                     (fdiv fill_pct (Fin 100.0)) in
              Ok (dict_set Z.eqb tank_id vol tank_volumes)
          end
      end
  | _, _ => Ok tank_volumes
  end.

(** [for row in range(table.rowCount()): ...] with the dict the loop
    fills as accumulator; an exception of a turn ends the loop. *)
Fixpoint for_rows {A} (step : A -> table_row -> result A)
    (rows : list table_row) (acc : A) : result A :=
  match rows with
  | [] => Ok acc
  | r :: rows' => acc' <- step acc r ;; for_rows step rows' acc'
  end.

(** The loop over the tank table, from the empty [tank_volumes]. *)
Definition read_tank_table (tanks : list Tank.t) (rows : list table_row)
  : result (dict Z pyfloat) :=
  for_rows (tank_row_step (tank_by_id_of tanks)) rows [].

(** [int(float(head_item.text()))], 0 on [TypeError] or [ValueError]. *)
Definition parse_heads (head_text : string) : result Z :=
  except_value_type (x <- float_of_str head_text ;; int_of_float x) 0%Z.

(** One turn of the loop over the pen table; [clamp] is the
    [heads = max(0, heads)] that only [_on_compute] has. *)
Definition pen_row_step (clamp : bool) (pen_loadings : dict Z Z)
    (r : table_row) : result (dict Z Z) :=
  match item_at r 0, item_at r 3 with
  | Some name_item, Some head_item =>
      match data name_item with
      | None => Ok pen_loadings
      | Some pen_id =>
          heads <- parse_heads (text head_item) ;;
          let heads := if clamp then Z.max 0 heads else heads in
          if (0 <? heads)%Z
          then Ok (dict_set Z.eqb pen_id heads pen_loadings)
          else Ok pen_loadings
      end
  | _, _ => Ok pen_loadings
  end.

(** The loop over the pen table, from the empty [pen_loadings]. *)
Definition read_pen_table (clamp : bool) (rows : list table_row)
  : result (dict Z Z) :=
  for_rows (pen_row_step clamp) rows [].

(** [self._condition_name_edit.text().strip() or "Condition"] *)
Definition condition_name_of (v : view) : string :=
  str_or (strip (_condition_name_edit v)) "Condition".

(** [self._current_condition.id if self._current_condition else None] *)
Definition current_condition_id (v : view) : pyval :=
  match _current_condition v with
  | Some c => LoadingCondition.id c
  | None => VNone
  end.

(** The dataclass constructor, with the defaults of the fields the
    handlers do not pass. *)
Definition new_condition (id voyage_id : pyval) (name : string)
    (tank_volumes : dict Z pyfloat) (pen_loadings : dict Z Z)
  : LoadingCondition.t :=
  {| LoadingCondition.id := id;
     LoadingCondition.voyage_id := voyage_id;
     LoadingCondition.name := VStr name;
     LoadingCondition.tank_volumes_m3 := of_volumes tank_volumes;
     LoadingCondition.pen_loadings := of_loadings pen_loadings;
     LoadingCondition.displacement_t := VFloat (Fin 0.0);
     LoadingCondition.draft_m := VFloat (Fin 0.0);
     LoadingCondition.trim_m := VFloat (Fin 0.0);
     LoadingCondition.gm_m := VFloat (Fin 0.0) |}.

(** The end of a handler once both tables are read. *)
Definition finish (id voyage_id : pyval) (name : string)
    (dicts : result (dict Z pyfloat * dict Z Z)) : outcome :=
  match dicts with
  | Ok (tank_volumes, pen_loadings) =>
      Built (new_condition id voyage_id name tank_volumes pen_loadings)
            tank_volumes pen_loadings
  | Raise e => Uncaught e
  end.

(** [_on_compute], up to the condition it hands to the condition
    service; [tanks] is what the service returns for the ship once the
    session is open. *)
Definition _on_compute (tanks : list Tank.t) (v : view) : outcome :=
  match _current_ship v with
  | None => Message "No ship"
  | Some ship =>
      match ship_id ship with
      | None => Message "No ship"
      | Some _ =>
          if negb (database_SessionLocal v) then Message "Error"
          else
            finish
              (current_condition_id v)
              (match _current_voyage v with
               | Some voyage => of_opt_int (voyage_id voyage)
               | None => VNone
               end)
              (condition_name_of v)
              (tank_volumes <- read_tank_table tanks (_tank_table v) ;;
               pen_loadings <- read_pen_table true (_pen_table v) ;;
               Ok (tank_volumes, pen_loadings))
      end
  end.

(** [_on_save_condition], up to the condition it hands to the condition
    service. *)
Definition _on_save_condition (tanks : list Tank.t) (v : view) : outcome :=
  match _current_voyage v with
  | None => Message "Save"
  | Some voyage =>
      if negb (truthy (of_opt_int (voyage_id voyage))) then Message "Save"
      else
        match _current_ship v with
        | None => Returned
        | Some _ =>
            if negb (database_SessionLocal v) then Returned
            else
              finish
                (current_condition_id v)
                (of_opt_int (voyage_id voyage))
                (condition_name_of v)
                (tank_volumes <- read_tank_table tanks (_tank_table v) ;;
                 pen_loadings <- read_pen_table false (_pen_table v) ;;
                 Ok (tank_volumes, pen_loadings))
        end
  end.

(** The dicts of an outcome that built a condition. *)
Definition built_volumes (o : outcome) : dict Z pyfloat :=
  match o with
  | Built _ tank_volumes _ => tank_volumes
  | _ => []
  end.

Definition built_loadings (o : outcome) : dict Z Z :=
  match o with
  | Built _ _ pen_loadings => pen_loadings
  | _ => []
  end.

End ConditionEditor.

(** The two functions of the editor that fill its tables. *)
Module EditorTables.
Import ConditionEditor.

Section RENDER.

(** The text of [f"{x:.{places}f}"]; the decimal rendering of a float is
    a parameter of the embedding. *)
Variable fixed_text : nat -> pyfloat -> string.

Definition text_item (s : string) : option item :=
  Some {| text := s; data := None |}.

(** The row [_populate_tanks_table] inserts for a tank: the name item
    carries the id of the tank. *)
Definition tank_table_row (volumes : dict Z pyfloat) (tank : Tank.t)
  : table_row :=
  let vol := ConditionTable.volume_of volumes tank in
  let fill_pct := ConditionTable.tank_fill_pct tank vol in
  [ Some {| text := Tank.name tank; data := Tank.id tank |};
    text_item (fixed_text 2 (Fin (Tank.capacity_m3 tank)));
    text_item (fixed_text 1 fill_pct) ].

(** [_populate_tanks_table]: the rows of the tank table afterwards. *)
Definition _populate_tanks_table (tanks : list Tank.t)
    (volumes : dict Z pyfloat) : list table_row :=
  map (tank_table_row volumes) tanks.

(** The row [_populate_pens_table] inserts for a pen. *)
Definition pen_table_row (loadings : dict Z Z) (pen : LivestockPen.t)
  : table_row :=
  let heads := ConditionTable.heads_of loadings pen in
  [ Some {| text := LivestockPen.name pen; data := LivestockPen.id pen |};
    text_item (LivestockPen.deck pen);
    text_item (fixed_text 2 (Fin (LivestockPen.area_m2 pen)));
    text_item (str_of_int heads) ].

(** [_populate_pens_table]: the rows of the pen table afterwards. *)
Definition _populate_pens_table (pens : list LivestockPen.t)
    (pen_loadings : dict Z Z) : list table_row :=
  map (pen_table_row pen_loadings) pens.

End RENDER.

End EditorTables.

(* ------------------------------------------------------------------ *)
(** ** repositories/livestock_pen_repository.py                        *)
(* ------------------------------------------------------------------ *)

(** A row of the table [livestock_pens]: the primary key and the ship
    are never null. *)
Module LivestockPenORM.
Record t : Type := mk
  { id : Z;
    ship_id : Z;
    name : string;
    deck : string;
    vcg_m : Q;
    lcg_m : Q;
    tcg_m : Q;
    area_m2 : Q;
    capacity_head : Z }.
End LivestockPenORM.

Module PenRepository.

(** The table behind the session: its rows in the order they were
    inserted.  Every operation of the repository commits, so the state of
    the database after a call is the table it returns.  The integers of a
    pen are taken to be integers the database holds (64 bits), and a
    commit to succeed: the failures of the database itself (an integer
    out of range, a locked file) are not modelled, so [Raise] below is
    an exception of the repository's own code only. *)
Definition table : Type := list LivestockPenORM.t.

(** The [LivestockPen] the repository builds from a row. *)
Definition to_pen (obj : LivestockPenORM.t) : LivestockPen.t :=
  {| LivestockPen.id := Some (LivestockPenORM.id obj);
     LivestockPen.ship_id := Some (LivestockPenORM.ship_id obj);
     LivestockPen.name := LivestockPenORM.name obj;
     LivestockPen.deck := LivestockPenORM.deck obj;
     LivestockPen.vcg_m := LivestockPenORM.vcg_m obj;
     LivestockPen.lcg_m := LivestockPenORM.lcg_m obj;
     LivestockPen.tcg_m := LivestockPenORM.tcg_m obj;
     LivestockPen.area_m2 := LivestockPenORM.area_m2 obj;
     LivestockPen.capacity_head := LivestockPenORM.capacity_head obj |}.

(** [ORDER BY deck, name]: texts compare character by character. *)
Definition order_leb (a b : LivestockPenORM.t) : bool :=
  match String.compare (LivestockPenORM.deck a) (LivestockPenORM.deck b) with
  | Lt => true
  | Eq => String.leb (LivestockPenORM.name a) (LivestockPenORM.name b)
  | Gt => false
  end.

Definition row_leb_prop (a b : LivestockPenORM.t) : Prop :=
  order_leb a b = true.

Fixpoint insert_ordered (x : LivestockPenORM.t) (l : list LivestockPenORM.t)
  : list LivestockPenORM.t :=
  match l with
  | [] => [x]
  | y :: l' => if order_leb x y then x :: l else y :: insert_ordered x l'
  end.

(** The rows in the order of the query (rows equal in deck and name come
    in an order the database chooses; here the earlier row first). *)
Definition order_by (l : list LivestockPenORM.t) : list LivestockPenORM.t :=
  fold_right insert_ordered [] l.

Definition list_for_ship (ship_id : Z) (db : table) : list LivestockPen.t :=
  map to_pen
    (order_by (filter (fun obj => (LivestockPenORM.ship_id obj =? ship_id)%Z) db)).

(** [self._db.get(LivestockPenORM, pen_id)] *)
Definition db_get (pen_id : Z) (db : table) : option LivestockPenORM.t :=
  find (fun obj => (LivestockPenORM.id obj =? pen_id)%Z) db.

Definition get (pen_id : Z) (db : table) : option LivestockPen.t :=
  match db_get pen_id db with
  | None => None
  | Some obj => Some (to_pen obj)
  end.

(** The primary key the database gives a new row: one more than the
    largest key of the table, 1 for an empty table (the rule of SQLite
    for an integer primary key).  The properties below use only that the
    key is one no row has. *)
Definition next_id (db : table) : Z :=
  1 + fold_right Z.max 0%Z (map LivestockPenORM.id db).

(** [pen.id = obj.id] *)
Definition set_id (pen : LivestockPen.t) (pen_id : Z) : LivestockPen.t :=
  {| LivestockPen.id := Some pen_id;
     LivestockPen.ship_id := LivestockPen.ship_id pen;
     LivestockPen.name := LivestockPen.name pen;
     LivestockPen.deck := LivestockPen.deck pen;
     LivestockPen.vcg_m := LivestockPen.vcg_m pen;
     LivestockPen.lcg_m := LivestockPen.lcg_m pen;
     LivestockPen.tcg_m := LivestockPen.tcg_m pen;
     LivestockPen.area_m2 := LivestockPen.area_m2 pen;
     LivestockPen.capacity_head := LivestockPen.capacity_head pen |}.

(** [create]: the pen it returns (the argument with its new id) and the
    table afterwards.  The id the argument came with is not read. *)
Definition create (pen : LivestockPen.t) (db : table)
  : result (LivestockPen.t * table) :=
  match LivestockPen.ship_id pen with
  | None => Raise ValueError
  | Some ship =>
      let obj :=
        {| LivestockPenORM.id := next_id db;
           LivestockPenORM.ship_id := ship;
           LivestockPenORM.name := LivestockPen.name pen;
           LivestockPenORM.deck := LivestockPen.deck pen;
           LivestockPenORM.vcg_m := LivestockPen.vcg_m pen;
           LivestockPenORM.lcg_m := LivestockPen.lcg_m pen;
           LivestockPenORM.tcg_m := LivestockPen.tcg_m pen;
           LivestockPenORM.area_m2 := LivestockPen.area_m2 pen;
           LivestockPenORM.capacity_head := LivestockPen.capacity_head pen |} in
      Ok (set_id pen (LivestockPenORM.id obj), (db ++ [obj])%list)
  end.

(** The assignments of [update] to the row it found: every column but
    the key and the ship. *)
Definition assign (pen : LivestockPen.t) (obj : LivestockPenORM.t)
  : LivestockPenORM.t :=
  {| LivestockPenORM.id := LivestockPenORM.id obj;
     LivestockPenORM.ship_id := LivestockPenORM.ship_id obj;
     LivestockPenORM.name := LivestockPen.name pen;
     LivestockPenORM.deck := LivestockPen.deck pen;
     LivestockPenORM.vcg_m := LivestockPen.vcg_m pen;
     LivestockPenORM.lcg_m := LivestockPen.lcg_m pen;
     LivestockPenORM.tcg_m := LivestockPen.tcg_m pen;
     LivestockPenORM.area_m2 := LivestockPen.area_m2 pen;
     LivestockPenORM.capacity_head := LivestockPen.capacity_head pen |}.

(** The table with the row of a key replaced. *)
Fixpoint replace_row (pen_id : Z) (f : LivestockPenORM.t -> LivestockPenORM.t)
    (db : table) : table :=
  match db with
  | [] => []
  | obj :: db' =>
      if (LivestockPenORM.id obj =? pen_id)%Z then f obj :: db'
      else obj :: replace_row pen_id f db'
  end.

Definition update (pen : LivestockPen.t) (db : table)
  : result (LivestockPen.t * table) :=
  match LivestockPen.id pen with
  | None => Raise ValueError
  | Some pen_id =>
      match db_get pen_id db with
      | None => Raise ValueError
      | Some _ => Ok (pen, replace_row pen_id (assign pen) db)
      end
  end.

(** The table with the row of a key removed. *)
Fixpoint remove_row (pen_id : Z) (db : table) : table :=
  match db with
  | [] => []
  | obj :: db' =>
      if (LivestockPenORM.id obj =? pen_id)%Z then db'
      else obj :: remove_row pen_id db'
  end.

Definition delete (pen_id : Z) (db : table) : table :=
  match db_get pen_id db with
  | None => db
  | Some _ => remove_row pen_id db
  end.

(** The primary key is unique. *)
Definition keys_unique (db : table) : Prop :=
  NoDup (map LivestockPenORM.id db).

(** The order of the query, read on the pens returned. *)
Definition in_order (p q : LivestockPen.t) : Prop :=
  match String.compare (LivestockPen.deck p) (LivestockPen.deck q) with
  | Lt => True
  | Eq => String.leb (LivestockPen.name p) (LivestockPen.name q) = true
  | Gt => False
  end.

(** A pen as [update] leaves it in the table: the columns of the
    argument, on the ship the row already had. *)
Definition on_ship (ship : option Z) (pen : LivestockPen.t) : LivestockPen.t :=
  {| LivestockPen.id := LivestockPen.id pen;
     LivestockPen.ship_id := ship;
     LivestockPen.name := LivestockPen.name pen;
     LivestockPen.deck := LivestockPen.deck pen;
     LivestockPen.vcg_m := LivestockPen.vcg_m pen;
     LivestockPen.lcg_m := LivestockPen.lcg_m pen;
     LivestockPen.tcg_m := LivestockPen.tcg_m pen;
     LivestockPen.area_m2 := LivestockPen.area_m2 pen;
     LivestockPen.capacity_head := LivestockPen.capacity_head pen |}.

End PenRepository.

(* ------------------------------------------------------------------ *)
(** ** views/cross_section_widget.py                                   *)
(* ------------------------------------------------------------------ *)

Module CrossSection.

(** [x / y] where the divisor is not known to be non-zero: None stands
    for the ZeroDivisionError of a zero divisor. *)
Definition truediv (x y : pyfloat) : option pyfloat :=
  match y with
  | Fin b => if Qis_zero b then None else Some (fdiv x y)
  | _ => Some (fdiv x y)
  end.

(** [scale = 200.0 / max(breadth, 1.0)] *)
Definition scale (breadth : pyfloat) : option pyfloat :=
  truediv (Fin 200.0) (py_max breadth (Fin 1.0)).

(** [y_waterline = -50 - (draft * scale)]: the height at which
    [update_waterline] draws the line from x = -300 to x = 300. *)
Definition y_waterline (draft breadth : pyfloat) : option pyfloat :=
  match scale breadth with
  | None => None
  | Some s => Some (fsub (Fin (-50)) (fmul draft s))
  end.

End CrossSection.

(* ------------------------------------------------------------------ *)
(** ** views/stl_view_widget.py                                        *)
(* ------------------------------------------------------------------ *)

Module StlView.
Section ENVIRONMENT.

(** What the module finds around it: whether pyvista was imported, which
    paths exist, what [pv.read] returns for a path (None when it
    raises), and the exception with which the plotter refuses a mesh
    (pyvista raises ValueError for a mesh without points), None for a
    mesh it draws. *)
Variable mesh : Type.
Variable PYVISTA_AVAILABLE : bool.
Variable path_exists : string -> bool.
Variable pv_read : string -> option mesh.
Variable add_mesh_error : mesh -> option exn.

Definition _load_stl_mesh (path : string) : option mesh :=
  if negb PYVISTA_AVAILABLE || negb (path_exists path) then None
  else pv_read path.

(** The widget: the paths it remembers and its plotter, None when there
    is no 3D view, else the meshes the plotter shows.  The camera is not
    modelled. *)
Record widget : Type := mk
  { _paths : list string;
    _plotter : option (list mesh) }.

(** [__init__]: a plotter is made when pyvista is there and the
    interactor could be created. *)
Definition init (interactor_created : bool) : widget :=
  {| _paths := [];
     _plotter := if PYVISTA_AVAILABLE && interactor_created then Some [] else None |}.

(** [self._plotter.add_mesh(mesh, ...)] when the plotter takes the mesh,
    followed by [self._paths.append(path)] *)
Definition draw (path : string) (m : mesh) (w : widget) : widget :=
  {| _paths := (_paths w ++ [path])%list;
     _plotter := match _plotter w with
                 | Some shown => Some (shown ++ [m])%list
                 | None => None
                 end |}.

(** [self._plotter.clear()] followed by [self._paths = []] *)
Definition cleared (w : widget) : widget :=
  {| _paths := [];
     _plotter := match _plotter w with
                 | Some _ => Some []
                 | None => None
                 end |}.

Definition no_view (w : widget) : bool :=
  negb PYVISTA_AVAILABLE || match _plotter w with None => true | Some _ => false end.

(** The two calls below end with what they return or with the exception
    of [add_mesh], which nothing catches; either way the widget is left
    in the state the second component gives. *)

(** [load_stl] *)
Definition load_stl (path : option string) (w : widget)
  : result bool * widget :=
  if no_view w then (Ok false, w)
  else
    let w := cleared w in
    match path with
    | None => (Ok false, w)
    | Some path =>
        if negb (path_exists path) then (Ok false, w)
        else
          match _load_stl_mesh path with
          | None => (Ok false, w)
          | Some m =>
              match add_mesh_error m with
              | Some e => (Raise e, w)
              | None => (Ok true, draw path m w)
              end
          end
    end.

(** The body of the loop of [load_stl_paths], on [(drawn, self)]; an
    exception ends the loop. *)
Definition load_step (st : result bool * widget) (p : string)
  : result bool * widget :=
  match fst st with
  | Raise _ => st
  | Ok _ =>
      if negb (path_exists p) then st
      else
        match _load_stl_mesh p with
        | Some m =>
            match add_mesh_error m with
            | Some e => (Raise e, snd st)
            | None => (Ok true, draw p m (snd st))
            end
        | None => st
        end
  end.

Definition load_stl_paths (paths : list string) (w : widget)
  : result bool * widget :=
  if no_view w then (Ok false, w)
  else fold_left load_step paths (Ok false, cleared w).

Definition clear (w : widget) : widget := cleared w.

(** A path that the loop hands to the plotter. *)
Definition loadable (p : string) : bool :=
  path_exists p && match pv_read p with Some _ => true | None => false end.

(** The meshes of the paths of a list that the loop hands to the
    plotter. *)
Fixpoint meshes_of (paths : list string) : list mesh :=
  match paths with
  | [] => []
  | p :: paths' =>
      if path_exists p then
        match pv_read p with
        | Some m => m :: meshes_of paths'
        | None => meshes_of paths'
        end
      else meshes_of paths'
  end.

(** The plotter takes the mesh of every path of a list. *)
Definition all_drawn (paths : list string) : Prop :=
  forall p m, In p paths -> path_exists p = true -> pv_read p = Some m ->
              add_mesh_error m = None.

(** A widget with a plotter whose paths name its meshes, one for
    one. *)
Definition in_step (w : widget) : Prop :=
  exists shown,
    _plotter w = Some shown /\
    Forall2 (fun p m => pv_read p = Some m) (_paths w) shown.

(** The remembered paths name the meshes shown, one for one. *)
Definition paths_name_meshes (w : widget) : Prop :=
  match _plotter w with
  | None => _paths w = []
  | Some shown => Forall2 (fun p m => pv_read p = Some m) (_paths w) shown
  end.

End ENVIRONMENT.
End StlView.

(* ------------------------------------------------------------------ *)
(** ** The stability calculator                                        *)
(* ------------------------------------------------------------------ *)

(** The service that computes a condition ([stability_service]) is
    imported by the views but is not among the sources; the component
    below follows section 4.3 of the specification.  Its figures are
    real numbers, modelled in [Q]. *)
Module Engine.
Local Open Scope Q_scope.
Import Limits.

Definition Qlt_bool (a b : Q) : bool := negb (Qle_bool b a).

(** *** 4.3 Stability calculator *)

(** Modelled from the spec: the volume supplied for a tank by the
    [tank_volumes] argument of [compute_stability] (section 4.3; the
    stability service is not among the sources); a tank without a
    supplied volume is empty. *)
Definition supplied_volume (tank_volumes : dict Z Q) (tank : Tank.t) : Q :=
  match Tank.id tank with
  | Some k => dict_get_default Z.eqb k 0 tank_volumes
  | None => 0
  end.

(** Modelled from the spec: the fill fraction of a tank, its volume
    over its capacity (section 4.3). *)
Definition fill_fraction (tank_volumes : dict Z Q) (tank : Tank.t) : Q :=
  supplied_volume tank_volumes tank / Tank.capacity_m3 tank.

(** Modelled from the spec: a tank is slack when its fill fraction is
    strictly between 0 and 100% (section 4.3). *)
Definition is_slack (tank_volumes : dict Z Q) (tank : Tank.t) : bool :=
  Qlt_bool 0 (fill_fraction tank_volumes tank)
  && Qlt_bool (fill_fraction tank_volumes tank) 1.

(** Modelled from the spec: [compute_stability] of section 4.3, which
    returns the raw [GM = KM - KG] and [GM_effective], obtained by
    subtracting [FREE_SURFACE_FACTOR] for every slack tank. *)
Definition compute_stability (KM_m KG_m : Q) (tank_volumes : dict Z Q)
    (tanks : list Tank.t) : Q * Q :=
  let GM := KM_m - KG_m in
  (GM,
   fold_left
     (fun gm tank =>
        if is_slack tank_volumes tank then gm - FREE_SURFACE_FACTOR else gm)
     tanks GM).

(** The number of slack tanks of a loading. *)
Definition slack_count (tank_volumes : dict Z Q) (tanks : list Tank.t)
  : nat :=
  length (filter (is_slack tank_volumes) tanks).

End Engine.

(* ------------------------------------------------------------------ *)
(** ** The specification's side of the comparisons                     *)
(* ------------------------------------------------------------------ *)

Module Spec.
Local Open Scope Q_scope.

(** The default the rule table of section 4.4 of the specification
    states for each named limit, as the table writes it. *)
Definition canonical_defaults : list (string * Q) :=
  [ ("MIN_GM_M", 0.15);
    ("MIN_GM_LIVESTOCK_M", 0.20);
    ("MAX_ROLL_PERIOD_S", 15);
    ("MIN_FREEBORD_M", 0.3);
    ("MAX_TRIM_FRACTION", 0.02);
    ("MAX_DRAFT_FRACTION", 1.05);
    ("MAX_SWBM_FRACTION", 1.0);
    ("MIN_PROP_IMMERSION_PCT", 60);
    ("MIN_VISIBILITY_M", 1.0);
    ("MIN_AIR_DRAFT_M", 5.0) ]%string.

(** The limit a name is bound to in [config/limits.py] agrees with a
    stated default. *)
Definition agrees (entry : string * Q) : Prop :=
  exists v, Limits.getattr (fst entry) = Some v /\ v == snd entry.

(** Two floats denote the same value ([nan] being one value). *)
Definition same_float (x y : pyfloat) : Prop :=
  match x, y with
  | Fin a, Fin b => a == b
  | Inf m, Inf n => m = n
  | NaN, NaN => True
  | _, _ => False
  end.

(** What the tank loop of the editor may store for a tank id: for a
    tank of the ship with that id, its capacity times a percentage
    between 0 and 100. *)
Definition stored_volume_ok (tanks : list Tank.t) (tank_id : Z)
    (vol : pyfloat) : Prop :=
  exists tank p,
    In tank tanks /\ Tank.id tank = Some tank_id /\
    dict_get ConditionEditor.opt_Z_eqb (Some tank_id)
      (ConditionEditor.tank_by_id_of tanks) = Some tank /\
    0 <= p <= 100 /\
    vol = Fin (Tank.capacity_m3 tank * (p / 100.0)).

(** What the pen loop of the editor may store for a pen id: a positive
    head count, read from the head-count text of a row of that pen. *)
Definition stored_heads_ok (rows : list ConditionEditor.table_row)
    (pen_id heads : Z) : Prop :=
  (0 < heads)%Z /\
  exists row name_item head_item,
    In row rows /\
    ConditionEditor.item_at row 0 = Some name_item /\
    ConditionEditor.data name_item = Some pen_id /\
    ConditionEditor.item_at row 3 = Some head_item /\
    ConditionEditor.parse_heads (ConditionEditor.text head_item) = Ok heads.

(** The values the encoder writes as a JSON scalar. *)
Definition scalar (v : pyval) : Prop :=
  match v with
  | VList _ | VDict _ => False
  | _ => True
  end.

(** A [Dict[int, float]] and a [Dict[int, int]] as a file gives them
    back: every key is the decimal text of the number it was. *)
Definition text_keyed_volumes (d : dict Z pyfloat) : pyval :=
  VDict (map (fun kv => (KStr (str_of_int (fst kv)), VFloat (snd kv))) d).
Definition text_keyed_loadings (d : dict Z Z) : pyval :=
  VDict (map (fun kv => (KStr (str_of_int (fst kv)), VInt (snd kv))) d).

(** The number a string of decimal digits denotes, continuing [acc], and
    the number of its digits. *)
Fixpoint uint_value (acc : Z) (d : Decimal.uint) : Z :=
  match d with
  | Decimal.Nil => acc
  | Decimal.D0 l => uint_value (10 * acc + 0) l
  | Decimal.D1 l => uint_value (10 * acc + 1) l
  | Decimal.D2 l => uint_value (10 * acc + 2) l
  | Decimal.D3 l => uint_value (10 * acc + 3) l
  | Decimal.D4 l => uint_value (10 * acc + 4) l
  | Decimal.D5 l => uint_value (10 * acc + 5) l
  | Decimal.D6 l => uint_value (10 * acc + 6) l
  | Decimal.D7 l => uint_value (10 * acc + 7) l
  | Decimal.D8 l => uint_value (10 * acc + 8) l
  | Decimal.D9 l => uint_value (10 * acc + 9) l
  end.

(** A row of the pen table whose head-count text reads as an infinity,
    in a row that carries a pen id. *)
Definition infinite_head_row (r : ConditionEditor.table_row) : Prop :=
  exists name_item pen_id head_item negative,
    ConditionEditor.item_at r 0 = Some name_item /\
    ConditionEditor.data name_item = Some pen_id /\
    ConditionEditor.item_at r 3 = Some head_item /\
    float_of_str (ConditionEditor.text head_item) = Ok (Inf negative).

End Spec.

(* ------------------------------------------------------------------ *)
(** ** Sample data                                                     *)
(* ------------------------------------------------------------------ *)

Module Sample.
Local Open Scope Q_scope.

(** A pen of deck A holding up to 50 head. *)
Definition pen_a1 : LivestockPen.t :=
  {| LivestockPen.id := Some 1%Z; LivestockPen.ship_id := Some 1%Z;
     LivestockPen.name := "PEN 1-1"; LivestockPen.deck := "A";
     LivestockPen.vcg_m := 6.2; LivestockPen.lcg_m := 40.0;
     LivestockPen.tcg_m := 0.0; LivestockPen.area_m2 := 75.0;
     LivestockPen.capacity_head := 50 |}.

Definition pen_b1 : LivestockPen.t :=
  {| LivestockPen.id := Some 2%Z; LivestockPen.ship_id := Some 1%Z;
     LivestockPen.name := "PEN 2-1"; LivestockPen.deck := " b ";
     LivestockPen.vcg_m := 8.6; LivestockPen.lcg_m := 42.5;
     LivestockPen.tcg_m := 1.5; LivestockPen.area_m2 := 60.0;
     LivestockPen.capacity_head := 10 |}.

Definition pens : list LivestockPen.t := [pen_a1; pen_b1].

Definition pen_loadings : dict Z Z := [(1, 40); (2, 11)]%Z.

(** A fuel-oil tank of 200 m3 and a ballast tank of 100 m3. *)
Definition tank_fo : Tank.t :=
  {| Tank.id := Some 1%Z; Tank.ship_id := Some 1%Z;
     Tank.name := "HFO 1 P"; Tank.tank_type := "FUEL";
     Tank.capacity_m3 := 200.0; Tank.longitudinal_pos := 0.4;
     Tank.kg_m := 1.2; Tank.tcg_m := -3.0; Tank.lcg_m := 35.0 |}.

Definition tank_wb : Tank.t :=
  {| Tank.id := Some 2%Z; Tank.ship_id := Some 1%Z;
     Tank.name := "WB 1 S"; Tank.tank_type := "BALLAST";
     Tank.capacity_m3 := 100.0; Tank.longitudinal_pos := 0.8;
     Tank.kg_m := 0.9; Tank.tcg_m := 3.0; Tank.lcg_m := 70.0 |}.

Definition tanks : list Tank.t := [tank_fo; tank_wb].

Definition tank_volumes : dict Z pyfloat := [(1%Z, Fin 100.0); (2%Z, Fin 50.0)].

(** Heavy fuel oil, lighter than sea water. *)
Definition fuel_oil : Cargo.t :=
  {| Cargo.id := Some 1%Z; Cargo.name := "HFO";
     Cargo.cargo_type := "products"; Cargo.density_t_per_m3 := 0.85 |}.

(** A result without the optional attributes. *)
Definition bare_results : ResultsView.ConditionResults :=
  {| ResultsView.displacement_t := Fin 5230.4;
     ResultsView.draft_m := Fin 5.20;
     ResultsView.trim_m := Fin 0.60;
     ResultsView.gm_m := Fin 1.1;
     ResultsView.kg_m := Fin 6.4;
     ResultsView.km_m := Fin 7.5;
     ResultsView.draft_aft_m := None;
     ResultsView.draft_fwd_m := None;
     ResultsView.heel_deg := None;
     ResultsView.validation := None;
     ResultsView.criteria :=
       Some {| ResultsView.passed := Some 7%Z;
               ResultsView.failed := Some 2%Z |} |}.

(** The editor with both tables filled by the operator: the fuel tank
    at 50%, the ballast tank typed over-full, two pens loaded (the
    second beyond its capacity of 10) and one left with text that is
    not a number. *)
Definition name_item (name : string) (id : Z) : option ConditionEditor.item :=
  Some {| ConditionEditor.text := name; ConditionEditor.data := Some id |}.
Definition text_item (s : string) : option ConditionEditor.item :=
  Some {| ConditionEditor.text := s; ConditionEditor.data := None |}.

Definition view : ConditionEditor.view :=
  {| ConditionEditor.database_SessionLocal := true;
     ConditionEditor._current_ship :=
       Some {| ConditionEditor.ship_id := Some 1%Z |};
     ConditionEditor._current_voyage :=
       Some {| ConditionEditor.voyage_id := Some 3%Z |};
     ConditionEditor._current_condition := None;
     ConditionEditor._condition_name_edit := " Departure ";
     ConditionEditor._tank_table :=
       [ [name_item "HFO 1 P" 1; text_item "200.00"; text_item "50"];
         [name_item "WB 1 S" 2; text_item "100.00"; text_item "250.0"] ];
     ConditionEditor._pen_table :=
       [ [name_item "PEN 1-1" 1; text_item "A"; text_item "75.00";
          text_item "40"];
         [name_item "PEN 2-1" 2; text_item "B"; text_item "60.00";
          text_item "11"];
         [name_item "PEN 3-1" 3; text_item "C"; text_item "60.00";
          text_item "n/a"] ] |}.

(** Scenario B of the specification: one ballast tank of 100 m3 filled to
    50%, on a ship with KM = 7.5 m and KG = 6.4 m. *)
Definition scenario_b_volumes : dict Z Q := [(2%Z, 50.0)].

(** A condition as the editor builds it, with computed figures. *)
Definition condition : LoadingCondition.t :=
  {| LoadingCondition.id := VInt 12;
     LoadingCondition.voyage_id := VInt 3;
     LoadingCondition.name := VStr "Departure";
     LoadingCondition.tank_volumes_m3 := of_volumes tank_volumes;
     LoadingCondition.pen_loadings := of_loadings pen_loadings;
     LoadingCondition.displacement_t := VFloat (Fin 5230.4);
     LoadingCondition.draft_m := VFloat (Fin 5.2);
     LoadingCondition.trim_m := VFloat (Fin 0.6);
     LoadingCondition.gm_m := VFloat (Fin 1.1) |}.

(** What loading the file of [condition] returns. *)
Definition loaded_condition : LoadingCondition.t :=
  {| LoadingCondition.id := VNone;
     LoadingCondition.voyage_id := VInt 3;
     LoadingCondition.name := VStr "Departure";
     LoadingCondition.tank_volumes_m3 :=
       VDict [ (KStr "1", VFloat (Fin 100.0)); (KStr "2", VFloat (Fin 50.0)) ];
     LoadingCondition.pen_loadings :=
       VDict [ (KStr "1", VInt 40); (KStr "2", VInt 11) ];
     LoadingCondition.displacement_t := VFloat (Fin 5230.4);
     LoadingCondition.draft_m := VFloat (Fin 5.2);
     LoadingCondition.trim_m := VFloat (Fin 0.6);
     LoadingCondition.gm_m := VFloat (Fin 1.1) |}.

(** The editor with a pen whose head count was typed as "inf". *)
Definition view_with_inf : ConditionEditor.view :=
  {| ConditionEditor.database_SessionLocal := true;
     ConditionEditor._current_ship :=
       Some {| ConditionEditor.ship_id := Some 1%Z |};
     ConditionEditor._current_voyage := None;
     ConditionEditor._current_condition := None;
     ConditionEditor._condition_name_edit := "";
     ConditionEditor._tank_table := [];
     ConditionEditor._pen_table :=
       [ [name_item "PEN 1-1" 1; text_item "A"; text_item "75.00";
          text_item "40"];
         [name_item "PEN 2-1" 2; text_item "B"; text_item "60.00";
          text_item "inf"] ] |}.

(** A stand-in for the decimal rendering of floats, which shows every
    float as 50.0. *)
Definition render (places : nat) (x : pyfloat) : string := "50.0".

(** The editor as [_populate_tanks_table] and [_populate_pens_table]
    leave it for the sample ship and loading. *)
Definition populated_view : ConditionEditor.view :=
  {| ConditionEditor.database_SessionLocal := true;
     ConditionEditor._current_ship :=
       Some {| ConditionEditor.ship_id := Some 1%Z |};
     ConditionEditor._current_voyage :=
       Some {| ConditionEditor.voyage_id := Some 3%Z |};
     ConditionEditor._current_condition := None;
     ConditionEditor._condition_name_edit := "Arrival";
     ConditionEditor._tank_table :=
       EditorTables._populate_tanks_table render tanks tank_volumes;
     ConditionEditor._pen_table :=
       EditorTables._populate_pens_table render pens pen_loadings |}.

(** The pens table of two ships: ship 1 has a pen on deck B and one on
    deck A, ship 2 one pen. *)
Definition stored_pens : PenRepository.table :=
  [ {| LivestockPenORM.id := 1; LivestockPenORM.ship_id := 1;
       LivestockPenORM.name := "PEN 2-1"; LivestockPenORM.deck := "B";
       LivestockPenORM.vcg_m := 8.6; LivestockPenORM.lcg_m := 42.5;
       LivestockPenORM.tcg_m := 1.5; LivestockPenORM.area_m2 := 60.0;
       LivestockPenORM.capacity_head := 10 |};
    {| LivestockPenORM.id := 2; LivestockPenORM.ship_id := 2;
       LivestockPenORM.name := "PEN 1-1"; LivestockPenORM.deck := "A";
       LivestockPenORM.vcg_m := 6.0; LivestockPenORM.lcg_m := 30.0;
       LivestockPenORM.tcg_m := 0.0; LivestockPenORM.area_m2 := 50.0;
       LivestockPenORM.capacity_head := 30 |};
    {| LivestockPenORM.id := 4; LivestockPenORM.ship_id := 1;
       LivestockPenORM.name := "PEN 1-1"; LivestockPenORM.deck := "A";
       LivestockPenORM.vcg_m := 6.2; LivestockPenORM.lcg_m := 40.0;
       LivestockPenORM.tcg_m := 0.0; LivestockPenORM.area_m2 := 75.0;
       LivestockPenORM.capacity_head := 50 |} ].

(** Four files, of which three can be read as meshes (a mesh is named
    by a number here); the mesh of "empty.stl" has no points, and the
    plotter refuses it. *)
Definition stl_exists (p : string) : bool :=
  String.eqb p "hull.stl" || String.eqb p "deck_A.stl" || String.eqb p "bad.stl"
  || String.eqb p "empty.stl".

Definition stl_read (p : string) : option nat :=
  if String.eqb p "hull.stl" then Some 1%nat
  else if String.eqb p "deck_A.stl" then Some 2%nat
  else if String.eqb p "empty.stl" then Some 3%nat
  else None.

Definition stl_refused (m : nat) : option exn :=
  if Nat.eqb m 3 then Some ValueError else None.

(** A pen not stored yet, and the stored pen 4 edited and moved, on
    paper, to ship 2. *)
Definition new_pen : LivestockPen.t :=
  {| LivestockPen.id := None; LivestockPen.ship_id := Some 1%Z;
     LivestockPen.name := "PEN 1-2"; LivestockPen.deck := "A";
     LivestockPen.vcg_m := 6.2; LivestockPen.lcg_m := 45.0;
     LivestockPen.tcg_m := 0.0; LivestockPen.area_m2 := 70.0;
     LivestockPen.capacity_head := 45 |}.

Definition edited_pen : LivestockPen.t :=
  {| LivestockPen.id := Some 4%Z; LivestockPen.ship_id := Some 2%Z;
     LivestockPen.name := "PEN 1-1"; LivestockPen.deck := "A";
     LivestockPen.vcg_m := 6.2; LivestockPen.lcg_m := 40.0;
     LivestockPen.tcg_m := 0.0; LivestockPen.area_m2 := 80.0;
     LivestockPen.capacity_head := 55 |}.

End Sample.

(* ================================================================== *)
(** * Properties                                                       *)
(* ================================================================== *)

Unset Implicit Arguments.
Local Open Scope Q_scope.

(** ** The limits configuration *)

(** C4: the named limit constants of [config/limits.py] carry the default
    values of the canonical rule table of the specification: MIN_GM_M =
    0.15, MIN_GM_LIVESTOCK_M = 0.20, MAX_ROLL_PERIOD_S = 15,
    MIN_FREEBORD_M = 0.3, MAX_TRIM_FRACTION = 0.02, MAX_DRAFT_FRACTION =
    1.05, MAX_SWBM_FRACTION = 1.0, MIN_PROP_IMMERSION_PCT = 60,
    MIN_VISIBILITY_M = 1.0 and MIN_AIR_DRAFT_M = 5.0; and every entry of
    the rule table is bound to its value in the module. *)
Theorem limits_carry_canonical_defaults :
  Limits.MIN_GM_M == 15 # 100 /\
  Limits.MIN_GM_LIVESTOCK_M == 20 # 100 /\
  Limits.MAX_ROLL_PERIOD_S == 15 /\
  Limits.MIN_FREEBORD_M == 3 # 10 /\
  Limits.MAX_TRIM_FRACTION == 2 # 100 /\
  Limits.MAX_DRAFT_FRACTION == 105 # 100 /\
  Limits.MAX_SWBM_FRACTION == 1 /\
  Limits.MIN_PROP_IMMERSION_PCT == 60 /\
  Limits.MIN_VISIBILITY_M == 1 /\
  Limits.MIN_AIR_DRAFT_M == 5 /\
  Forall Spec.agrees Spec.canonical_defaults.
Proof.
  repeat split; try reflexivity.
  unfold Spec.canonical_defaults.
  repeat (constructor;
          [ eexists; split; [ vm_compute; reflexivity | reflexivity ] | ]).
  constructor.
Qed.

(** ** The condition table *)

Section CONDITION_TABLE.
Import ConditionTable.

Lemma Qcount_succ (n : nat) :
  inject_Z (Z.of_nat (S n)) == inject_Z (Z.of_nat n) + 1.
Proof.
  rewrite Nat2Z.inj_succ. unfold Z.succ. rewrite inject_Z_plus. reflexivity.
Qed.

(** The totals row of a deck carries the mass per head times the heads
    of the deck. *)
Lemma deck_total_weight pen_loadings deck_pens :
  fst (fst (deck_totals pen_loadings deck_pens))
  == MASS_PER_HEAD_T
     * inject_Z (fold_left Z.add (map (heads_of pen_loadings) deck_pens) 0%Z).
Proof.
  unfold deck_totals.
  assert (G : forall l w u a z,
             w == MASS_PER_HEAD_T * inject_Z z ->
             fst (fst (fold_left
               (fun tot pen =>
                  let '(total_weight, total_area_used, total_area) := tot in
                  let heads := heads_of pen_loadings pen in
                  (total_weight + pen_weight_mt heads,
                   total_area_used + pen_area_used pen heads,
                   total_area + LivestockPen.area_m2 pen))
               l (w, u, a)))
             == MASS_PER_HEAD_T
                * inject_Z (fold_left Z.add (map (heads_of pen_loadings) l) z)).
  { induction l as [|p l IH]; intros w u a z Hw; simpl.
    - exact Hw.
    - apply IH. unfold pen_weight_mt. rewrite inject_Z_plus, Hw. ring. }
  apply G. unfold MASS_PER_HEAD_T. reflexivity.
Qed.

End CONDITION_TABLE.

(** ** The results view *)

(** C7: when the result object carries no [draft_aft_m] and no
    [draft_fwd_m], the aft draft shown is [draft_m + trim_m / 2] and the
    forward draft shown is [draft_m - trim_m / 2] (each rendered with two
    decimals). *)
Theorem drafts_default_to_mean_plus_minus_half_trim :
  forall results : ResultsView.ConditionResults,
    ResultsView.draft_aft_m results = None ->
    ResultsView.draft_fwd_m results = None ->
    ResultsView._draft_aft_edit (ResultsView.update_results results)
    = ConditionTable.Fixed 2
        (fadd (ResultsView.draft_m results)
              (fdiv (ResultsView.trim_m results) (Fin 2))) /\
    ResultsView._draft_fwd_edit (ResultsView.update_results results)
    = ConditionTable.Fixed 2
        (fsub (ResultsView.draft_m results)
              (fdiv (ResultsView.trim_m results) (Fin 2))) /\
    (forall d t,
        ResultsView.draft_m results = Fin d ->
        ResultsView.trim_m results = Fin t ->
        ResultsView.draft_aft results = Fin (d + t / 2) /\
        ResultsView.draft_fwd results = Fin (d - t / 2)).
Proof.
  intros results Haft Hfwd.
  unfold ResultsView.update_results, ResultsView.draft_aft,
    ResultsView.draft_fwd; simpl.
  rewrite Haft, Hfwd; simpl.
  split; [reflexivity | split; [reflexivity |]].
  intros d t Hd Ht. rewrite Hd, Ht. split; reflexivity.
Qed.

Lemma drafts_default_to_mean_plus_minus_half_trim_witness :
  ResultsView.draft_aft Sample.bare_results = Fin (5.20 + 0.60 / 2) /\
  ResultsView.draft_fwd Sample.bare_results = Fin (5.20 - 0.60 / 2).
Proof.
  exact (proj2 (proj2
    (drafts_default_to_mean_plus_minus_half_trim
       Sample.bare_results eq_refl eq_refl)) _ _ eq_refl eq_refl).
Defined.

(** C8: for every result whose criteria report carries the counts
    [passed] and [failed], the criteria summary rendered with the result
    is exactly "{passed} passed, {failed} failed", the two counts in
    decimal and in that order. *)
Theorem criteria_summary_format :
  forall (results : ResultsView.ConditionResults) report p f,
    ResultsView.criteria results = Some report ->
    ResultsView.passed report = Some p ->
    ResultsView.failed report = Some f ->
    ResultsView.criteria_summary (ResultsView.update_results results)
    = (str_of_int p ++ " passed, " ++ str_of_int f ++ " failed")%string.
Proof.
  intros results report p f Hc Hp Hf.
  unfold ResultsView.update_results, ResultsView.crit_sum; simpl.
  rewrite Hc, Hp, Hf. reflexivity.
Qed.

Lemma criteria_summary_format_witness :
  ResultsView.criteria_summary (ResultsView.update_results Sample.bare_results)
  = "7 passed, 2 failed"%string.
Proof.
  exact (criteria_summary_format Sample.bare_results _ 7%Z 2%Z
           eq_refl eq_refl eq_refl).
Defined.

(** C5 as stated fails on the code: with a fuel oil of density 0.85 t/m3
    in a tank holding 100 m3, the weight shown is 102.5 t, not 85 t. *)
Lemma tank_weight_ignores_cargo_density :
  ~ (forall (cargo_of : Tank.t -> Cargo.t) tank_volumes tank w,
        feqb (ConditionTable.volume_of tank_volumes tank) (Fin 0) = false ->
        ConditionTable.weight_cell (ConditionTable.tank_row tank_volumes tank)
        = Some (ConditionTable.Fixed 2 w) ->
        Spec.same_float w
          (fmul (ConditionTable.volume_of tank_volumes tank)
                (Fin (Cargo.density_t_per_m3 (cargo_of tank))))).
Proof.
  intros H.
  specialize (H (fun _ => Sample.fuel_oil) Sample.tank_volumes Sample.tank_fo
                (Fin (100.0 * 1.025)) eq_refl eq_refl).
  vm_compute in H. discriminate H.
Qed.

(** ** Dictionaries *)

Section DICT_FACTS.
Variables (K V : Type) (eqb : K -> K -> bool).
Hypothesis eqb_eq : forall a b, eqb a b = true <-> a = b.

Lemma eqb_refl (a : K) : eqb a a = true.
Proof. apply eqb_eq. reflexivity. Qed.

Lemma dict_get_In (k : K) (v : V) (d : dict K V) :
  dict_get eqb k d = Some v -> In (k, v) d.
Proof.
  induction d as [|[k' v'] d IH]; simpl; [discriminate |].
  destruct (eqb k k') eqn:E.
  - intros [= ->]. apply eqb_eq in E. subst. left. reflexivity.
  - intros H. right. exact (IH H).
Qed.

Lemma dict_get_set_same (k : K) (v : V) (d : dict K V) :
  dict_get eqb k (dict_set eqb k v d) = Some v.
Proof.
  induction d as [|[k' v'] d IH]; simpl.
  - rewrite eqb_refl. reflexivity.
  - destruct (eqb k k') eqn:E; simpl; rewrite E; [reflexivity | exact IH].
Qed.

Lemma dict_get_set_other (k k0 : K) (v : V) (d : dict K V) :
  k <> k0 -> dict_get eqb k (dict_set eqb k0 v d) = dict_get eqb k d.
Proof.
  intros Hne.
  assert (E : eqb k k0 = false).
  { destruct (eqb k k0) eqn:E; [apply eqb_eq in E; contradiction | reflexivity]. }
  induction d as [|[k' v'] d IH]; simpl.
  - rewrite E. reflexivity.
  - destruct (eqb k0 k') eqn:E0; simpl.
    + apply eqb_eq in E0. subst k'. rewrite E. reflexivity.
    + rewrite IH. reflexivity.
Qed.

Lemma dict_set_In (k k0 : K) (v v0 : V) (d : dict K V) :
  In (k, v) (dict_set eqb k0 v0 d) -> (k, v) = (k0, v0) \/ In (k, v) d.
Proof.
  induction d as [|[k' v'] d IH]; simpl.
  - intros [H | []]. left. symmetry. exact H.
  - destruct (eqb k0 k') eqn:E; simpl.
    + apply eqb_eq in E. subst k'. intros [H | H]; [left | right; right];
        [symmetry; exact H | exact H].
    + intros [H | H]; [right; left; exact H |].
      destruct (IH H) as [H' | H']; [left | right; right]; exact H'.
Qed.

Lemma dict_of_pairs_In (kv : K * V) (l : list (K * V)) :
  In kv (dict_of_pairs eqb l) -> In kv l.
Proof.
  unfold dict_of_pairs.
  assert (G : forall l d, In kv (fold_left
              (fun d kv => dict_set eqb (fst kv) (snd kv) d) l d) ->
            In kv d \/ In kv l).
  { clear l. induction l as [|[k0 v0] l IH]; intros d; simpl.
    - intros H. left. exact H.
    - intros H. destruct (IH _ H) as [H' | H']; [| right; right; exact H'].
      destruct kv as [k v]. apply dict_set_In in H'.
      destruct H' as [H' | H']; [right; left; symmetry | left]; exact H'. }
  intros H. destruct (G l [] H) as [[] | H']. exact H'.
Qed.

(** A list of pairs with distinct keys is the dict it builds. *)
Lemma dict_set_fresh (k : K) (v : V) (d : dict K V) :
  ~ In k (map fst d) -> dict_set eqb k v d = (d ++ [(k, v)])%list.
Proof.
  induction d as [|[k' v'] d IH]; simpl; intros Hn; [reflexivity |].
  destruct (eqb k k') eqn:E.
  - apply eqb_eq in E. subst k'. exfalso. apply Hn. left. reflexivity.
  - rewrite IH; [reflexivity |]. intros H. apply Hn. right. exact H.
Qed.

Lemma dict_of_pairs_NoDup (l : list (K * V)) :
  NoDup (map fst l) -> dict_of_pairs eqb l = l.
Proof.
  unfold dict_of_pairs.
  assert (G : forall l d, NoDup (map fst (d ++ l)) ->
            fold_left (fun (d : dict K V) kv =>
                         dict_set eqb (fst kv) (snd kv) d) l d
            = (d ++ l)%list).
  { clear l. induction l as [|[k v] l IH]; intros d Hnd; simpl.
    - rewrite app_nil_r. reflexivity.
    - rewrite dict_set_fresh.
      + rewrite IH; rewrite <- app_assoc; [reflexivity | exact Hnd].
      + rewrite map_app in Hnd. simpl in Hnd.
        apply NoDup_remove_2 in Hnd. intros H. apply Hnd.
        apply in_or_app. left. exact H. }
  intros H. apply (G l []). exact H.
Qed.

End DICT_FACTS.

Lemma opt_Z_eqb_eq (a b : option Z) :
  ConditionEditor.opt_Z_eqb a b = true <-> a = b.
Proof.
  destruct a as [m|], b as [n|]; simpl; split;
    try discriminate; try reflexivity.
  - intros H. apply Z.eqb_eq in H. subst. reflexivity.
  - intros [= ->]. apply Z.eqb_refl.
Qed.

(** ** The condition editor *)

Section EDITOR_FACTS.
Import ConditionEditor.

Lemma Qle_bool_false (a b : Q) : Qle_bool a b = false -> b < a.
Proof.
  intros H. apply Qnot_le_lt. intros Hle.
  apply Qle_bool_iff in Hle. congruence.
Qed.

(** [float(text)] returns a float or raises [ValueError]. *)
Lemma float_of_str_cases (s : string) :
  (exists x, float_of_str s = Ok x) \/ float_of_str s = Raise ValueError.
Proof.
  unfold float_of_str.
  destruct (sign (float_strip (chars s))) as [neg body].
  destruct (_ || _); [left; eexists; reflexivity |].
  destruct (String.eqb _ _); [left; eexists; reflexivity |].
  destruct (number body) as [[[m fd] rest]|]; [| right; reflexivity].
  destruct (exponent rest); [left; eexists; reflexivity | right; reflexivity].
Qed.

Lemma parse_fill_pct_returns (s : string) :
  exists x, parse_fill_pct s = Ok x /\
            (float_of_str s = Raise ValueError -> x = Fin 0.0).
Proof.
  unfold parse_fill_pct.
  destruct (float_of_str_cases s) as [[x H] | H]; rewrite H; simpl.
  - exists x. split; [reflexivity | discriminate].
  - exists (Fin 0.0). split; reflexivity.
Qed.

(** The clamp yields a finite percentage between 0 and 100, for every
    float, [nan] and the infinities included. *)
Lemma clamp_pct_range (x : pyfloat) :
  exists p, clamp_pct x = Fin p /\ 0 <= p <= 100.
Proof.
  unfold clamp_pct, py_max, py_min, fgt.
  destruct x as [q | [|] |]; simpl.
  - destruct (Qle_bool 100.0 q) eqn:E1; simpl.
    + exists 100.0. split; [reflexivity | lra].
    + apply Qle_bool_false in E1.
      destruct (Qle_bool q 0.0) eqn:E2; simpl.
      * exists 0.0. split; [reflexivity | lra].
      * apply Qle_bool_false in E2. exists q. split; [reflexivity | lra].
  - exists 0.0. split; [reflexivity | lra].
  - exists 100.0. split; [reflexivity | lra].
  - exists 100.0. split; [reflexivity | lra].
Qed.

(** A percentage of a non-negative capacity lies between 0 and the
    capacity. *)
Lemma volume_bounds (capacity p : Q) :
  0 <= p <= 100 -> 0 <= capacity ->
  0 <= capacity * (p / 100.0) <= capacity.
Proof.
  intros [H0 H100] Hc.
  assert (E : capacity * (p / 100.0) == capacity * p * (1 # 100))
    by (field; discriminate).
  rewrite E. split; nra.
Qed.

(** An invariant of a loop over the rows of a table. *)
Lemma for_rows_invariant (A : Type) (P : A -> Prop)
    (step : A -> table_row -> result A) (rows : list table_row) :
  (forall acc r acc', In r rows -> P acc -> step acc r = Ok acc' -> P acc') ->
  forall acc acc', P acc -> for_rows step rows acc = Ok acc' -> P acc'.
Proof.
  induction rows as [|r rows IH]; intros Hstep acc acc' HP; simpl.
  - intros [= <-]. exact HP.
  - destruct (step acc r) as [acc1|e] eqn:E; simpl; [| discriminate].
    apply IH.
    + intros a r0 a' Hin. apply Hstep. right. exact Hin.
    + apply (Hstep acc r acc1); [left; reflexivity | exact HP | exact E].
Qed.

(** A loop whose turns all return, returns. *)
Lemma for_rows_returns (A : Type)
    (step : A -> table_row -> result A) (rows : list table_row) :
  (forall acc r, In r rows -> exists acc', step acc r = Ok acc') ->
  forall acc, exists acc', for_rows step rows acc = Ok acc'.
Proof.
  induction rows as [|r rows IH]; intros Hstep acc; simpl.
  - eexists; reflexivity.
  - destruct (Hstep acc r (or_introl eq_refl)) as [acc1 E]. rewrite E. simpl.
    apply IH. intros a r0 Hin. apply Hstep. right. exact Hin.
Qed.

Lemma tank_by_id_In (tanks : list Tank.t) (k : Z) (tank : Tank.t) :
  dict_get opt_Z_eqb (Some k) (tank_by_id_of tanks) = Some tank ->
  In tank tanks /\ Tank.id tank = Some k.
Proof.
  intros H. apply (dict_get_In _ _ _ opt_Z_eqb_eq) in H.
  apply (dict_of_pairs_In _ _ _ opt_Z_eqb_eq) in H. apply in_map_iff in H.
  destruct H as (t & [= Hid <-] & Hin). split; [exact Hin | exact Hid].
Qed.

Lemma tank_row_step_returns tanks d r :
  exists d', tank_row_step (tank_by_id_of tanks) d r = Ok d'.
Proof.
  unfold tank_row_step.
  destruct (item_at r 0) as [name_item|]; [| eexists; reflexivity].
  destruct (item_at r 2) as [fill_item|]; [| eexists; reflexivity].
  destruct (data name_item) as [tank_id|]; [| eexists; reflexivity].
  destruct (parse_fill_pct_returns (text fill_item)) as (x & -> & _); simpl.
  destruct (dict_get _ _ _); eexists; reflexivity.
Qed.

Lemma tank_row_step_invariant tanks d r d' :
  (forall k vol, dict_get Z.eqb k d = Some vol -> Spec.stored_volume_ok tanks k vol) ->
  tank_row_step (tank_by_id_of tanks) d r = Ok d' ->
  forall k vol, dict_get Z.eqb k d' = Some vol -> Spec.stored_volume_ok tanks k vol.
Proof.
  intros Hd. unfold tank_row_step.
  destruct (item_at r 0) as [name_item|]; [| intros [= <-]; exact Hd].
  destruct (item_at r 2) as [fill_item|]; [| intros [= <-]; exact Hd].
  destruct (data name_item) as [tank_id|]; [| intros [= <-]; exact Hd].
  destruct (parse_fill_pct_returns (text fill_item)) as (x & -> & _); simpl.
  destruct (dict_get opt_Z_eqb (Some tank_id) (tank_by_id_of tanks))
    as [tank|] eqn:Et; [| intros [= <-]; exact Hd].
  intros [= <-] k vol.
  destruct (Z.eq_dec k tank_id) as [-> | Hne].
  - rewrite (dict_get_set_same _ _ _ Z.eqb_eq). intros [= <-].
    destruct (clamp_pct_range x) as (p & -> & Hp).
    destruct (tank_by_id_In _ _ _ Et) as [Hin Hid].
    exists tank, p. repeat split; try assumption; apply Hp.
  - rewrite (dict_get_set_other _ _ _ Z.eqb_eq) by exact Hne. apply Hd.
Qed.

Lemma read_tank_table_returns tanks rows :
  exists d, read_tank_table tanks rows = Ok d.
Proof.
  unfold read_tank_table. apply for_rows_returns.
  intros acc r _. apply tank_row_step_returns.
Qed.

Lemma read_tank_table_invariant tanks rows d :
  read_tank_table tanks rows = Ok d ->
  forall k vol, dict_get Z.eqb k d = Some vol -> Spec.stored_volume_ok tanks k vol.
Proof.
  unfold read_tank_table. intros H.
  refine (for_rows_invariant _
            (fun d => forall k vol, dict_get Z.eqb k d = Some vol ->
                                    Spec.stored_volume_ok tanks k vol)
            _ rows _ [] d _ H).
  - intros acc r acc' _ Hacc Hs. exact (tank_row_step_invariant _ _ _ _ Hacc Hs).
  - intros k vol. discriminate.
Qed.

End EDITOR_FACTS.

Section EDITOR_PENS.
Import ConditionEditor.

(** [int(float(text))] under the handler of the loop returns a count or
    raises [OverflowError]. *)
Lemma parse_heads_cases (s : string) :
  (exists h, parse_heads s = Ok h) \/ parse_heads s = Raise OverflowError.
Proof.
  unfold parse_heads.
  destruct (float_of_str_cases s) as [[x H] | H]; rewrite H; simpl.
  - destruct x as [q | neg |]; simpl.
    + left. eexists; reflexivity.
    + right. reflexivity.
    + left. eexists; reflexivity.
  - left. eexists; reflexivity.
Qed.

Lemma parse_heads_unparsable (s : string) :
  float_of_str s = Raise ValueError -> parse_heads s = Ok 0%Z.
Proof. unfold parse_heads. intros ->. reflexivity. Qed.

Lemma pen_row_step_invariant clamp rows d r d' :
  In r rows ->
  (forall k h, dict_get Z.eqb k d = Some h -> Spec.stored_heads_ok rows k h) ->
  pen_row_step clamp d r = Ok d' ->
  forall k h, dict_get Z.eqb k d' = Some h -> Spec.stored_heads_ok rows k h.
Proof.
  intros Hin Hd. unfold pen_row_step.
  destruct (item_at r 0) as [name_item|] eqn:E0; [| intros [= <-]; exact Hd].
  destruct (item_at r 3) as [head_item|] eqn:E3; [| intros [= <-]; exact Hd].
  destruct (data name_item) as [pen_id|] eqn:Ed; [| intros [= <-]; exact Hd].
  destruct (parse_heads (text head_item)) as [heads|e] eqn:Ep; simpl;
    [| discriminate].
  destruct (0 <? (if clamp then Z.max 0 heads else heads))%Z eqn:Epos;
    [| intros [= <-]; exact Hd].
  apply Z.ltb_lt in Epos.
  assert (Eh : (if clamp then Z.max 0 heads else heads) = heads)
    by (destruct clamp; lia).
  rewrite Eh in *.
  intros [= <-] k h.
  destruct (Z.eq_dec k pen_id) as [-> | Hne].
  - rewrite (dict_get_set_same _ _ _ Z.eqb_eq). intros [= <-].
    split; [exact Epos |].
    exists r, name_item, head_item. repeat split; assumption.
  - rewrite (dict_get_set_other _ _ _ Z.eqb_eq) by exact Hne. apply Hd.
Qed.

Lemma read_pen_table_invariant clamp rows d :
  read_pen_table clamp rows = Ok d ->
  forall k h, dict_get Z.eqb k d = Some h -> Spec.stored_heads_ok rows k h.
Proof.
  unfold read_pen_table. intros H.
  refine (for_rows_invariant _
            (fun d => forall k h, dict_get Z.eqb k d = Some h ->
                                  Spec.stored_heads_ok rows k h)
            _ rows _ [] d _ H).
  - intros acc r acc' Hin Hacc Hs.
    exact (pen_row_step_invariant _ _ _ _ _ Hin Hacc Hs).
  - intros k h. discriminate.
Qed.

(** A row whose head-count text is not a number, or is a number that
    truncates to zero or less, leaves the dict as it is. *)
Lemma pen_row_step_no_entry clamp d r head_item :
  item_at r 3 = Some head_item ->
  (float_of_str (text head_item) = Raise ValueError \/
   exists h, parse_heads (text head_item) = Ok h /\ (h <= 0)%Z) ->
  pen_row_step clamp d r = Ok d.
Proof.
  intros E3 H. unfold pen_row_step. rewrite E3.
  destruct (item_at r 0) as [name_item|]; [| reflexivity].
  destruct (data name_item) as [pen_id|]; [| reflexivity].
  assert (Hp : exists h, parse_heads (text head_item) = Ok h /\ (h <= 0)%Z).
  { destruct H as [H | H]; [| exact H].
    exists 0%Z. split; [apply parse_heads_unparsable; exact H | lia]. }
  destruct Hp as (h & -> & Hle). simpl.
  replace (0 <? (if clamp then Z.max 0 h else h))%Z with false; [reflexivity |].
  symmetry. apply Z.ltb_ge. destruct clamp; lia.
Qed.

(** A positive head count is stored whatever the capacity of the pen. *)
Lemma pen_row_step_over_capacity clamp r name_item head_item pen_id heads :
  item_at r 0 = Some name_item -> data name_item = Some pen_id ->
  item_at r 3 = Some head_item ->
  parse_heads (text head_item) = Ok heads -> (0 < heads)%Z ->
  read_pen_table clamp [r] = Ok [(pen_id, heads)].
Proof.
  intros E0 Ed E3 Ep Hpos.
  unfold read_pen_table, for_rows, pen_row_step.
  rewrite E0, E3, Ed, Ep. simpl.
  replace (if clamp then Z.max 0 heads else heads) with heads
    by (destruct clamp; lia).
  apply Z.ltb_lt in Hpos. rewrite Hpos. reflexivity.
Qed.

(** A handler that builds a condition has read both tables. *)
Lemma built_cases tanks v condition tank_volumes pen_loadings :
  _on_compute tanks v = Built condition tank_volumes pen_loadings \/
  _on_save_condition tanks v = Built condition tank_volumes pen_loadings ->
  exists clamp id voyage,
    read_tank_table tanks (_tank_table v) = Ok tank_volumes /\
    read_pen_table clamp (_pen_table v) = Ok pen_loadings /\
    condition = new_condition id voyage (condition_name_of v)
                  tank_volumes pen_loadings.
Proof.
  assert (F : forall id voyage clamp,
             finish id voyage (condition_name_of v)
               (tv <- read_tank_table tanks (_tank_table v) ;;
                pl <- read_pen_table clamp (_pen_table v) ;;
                Ok (tv, pl)) = Built condition tank_volumes pen_loadings ->
             read_tank_table tanks (_tank_table v) = Ok tank_volumes /\
             read_pen_table clamp (_pen_table v) = Ok pen_loadings /\
             condition = new_condition id voyage (condition_name_of v)
                           tank_volumes pen_loadings).
  { intros id voyage clamp. unfold finish.
    destruct (read_tank_table tanks (_tank_table v)) as [tv|e]; simpl;
      [| discriminate].
    destruct (read_pen_table clamp (_pen_table v)) as [pl|e]; simpl;
      [| discriminate].
    intros [= <- <- <-]. repeat split. }
  intros [H | H].
  - unfold _on_compute in H.
    destruct (_current_ship v) as [ship|]; [| discriminate].
    destruct (ship_id ship); [| discriminate].
    destruct (negb (database_SessionLocal v)); [discriminate |].
    exists true. eexists. eexists. apply F. exact H.
  - unfold _on_save_condition in H.
    destruct (_current_voyage v) as [voyage|]; [| discriminate].
    destruct (negb _); [discriminate |].
    destruct (_current_ship v); [| discriminate].
    destruct (negb (database_SessionLocal v)); [discriminate |].
    exists false. eexists. eexists. apply F. exact H.
Qed.

(** [_on_compute] builds a condition for a selected ship, once the
    database is initialised, unless a head-count text reads as an
    infinity. *)
Lemma on_compute_builds tanks v ship k :
  _current_ship v = Some ship -> ship_id ship = Some k ->
  database_SessionLocal v = true ->
  (forall r head_item neg, In r (_pen_table v) ->
     item_at r 3 = Some head_item ->
     float_of_str (text head_item) <> Ok (Inf neg)) ->
  exists condition tank_volumes pen_loadings,
    _on_compute tanks v = Built condition tank_volumes pen_loadings.
Proof.
  intros Hs Hk Hdb Hfin. unfold _on_compute. rewrite Hs, Hk, Hdb.
  cbn [negb].
  destruct (read_tank_table_returns tanks (_tank_table v)) as [tv ->]. simpl.
  assert (Hp : exists pl, read_pen_table true (_pen_table v) = Ok pl).
  { unfold read_pen_table. apply for_rows_returns.
    intros acc r Hin. unfold pen_row_step.
    destruct (item_at r 0) as [name_item|]; [| eexists; reflexivity].
    destruct (item_at r 3) as [head_item|] eqn:E3; [| eexists; reflexivity].
    destruct (data name_item); [| eexists; reflexivity].
    assert (Hh : exists h, parse_heads (text head_item) = Ok h).
    { unfold parse_heads.
      destruct (float_of_str_cases (text head_item)) as [[x H] | H].
      - rewrite H. simpl. destruct x as [q | neg |]; simpl.
        + eexists; reflexivity.
        + exfalso. exact (Hfin r head_item neg Hin E3 H).
        + eexists; reflexivity.
      - rewrite H. simpl. eexists; reflexivity. }
    destruct Hh as [h ->]. simpl.
    destruct (0 <? Z.max 0 h)%Z; eexists; reflexivity. }
  destruct Hp as [pl ->]. simpl. eexists. eexists. eexists. reflexivity.
Qed.

End EDITOR_PENS.

(** C9: in the condition editor every fill percentage read from the tank
    table is clamped to [0, 100] (text that is not a number counts as 0)
    before it becomes a volume [capacity_m3 * pct / 100], so in the
    condition that [_on_compute] or [_on_save_condition] builds, the
    volume stored for a tank of capacity [capacity_m3 >= 0] satisfies
    [0 <= volume <= capacity_m3]; a pen, in contrast, stores any positive
    head count, also one above its capacity. *)
Theorem tank_volumes_within_capacity :
  forall tanks v condition tank_volumes pen_loadings,
    ConditionEditor._on_compute tanks v
      = ConditionEditor.Built condition tank_volumes pen_loadings \/
    ConditionEditor._on_save_condition tanks v
      = ConditionEditor.Built condition tank_volumes pen_loadings ->
    LoadingCondition.tank_volumes_m3 condition = of_volumes tank_volumes /\
    (forall tank_id vol,
        dict_get Z.eqb tank_id tank_volumes = Some vol ->
        exists tank p,
          In tank tanks /\ Tank.id tank = Some tank_id /\
          dict_get ConditionEditor.opt_Z_eqb (Some tank_id)
            (ConditionEditor.tank_by_id_of tanks) = Some tank /\
          0 <= p <= 100 /\
          vol = Fin (Tank.capacity_m3 tank * (p / 100.0)) /\
          (0 <= Tank.capacity_m3 tank ->
           0 <= Tank.capacity_m3 tank * (p / 100.0) <= Tank.capacity_m3 tank)) /\
    (forall fill_text,
        exists p,
          (x <- ConditionEditor.parse_fill_pct fill_text ;;
           Ok (ConditionEditor.clamp_pct x)) = Ok (Fin p) /\
          0 <= p <= 100 /\
          (float_of_str fill_text = Raise ValueError -> p == 0)) /\
    (forall clamp (pen : LivestockPen.t) pen_id r name_item head_item heads,
        LivestockPen.id pen = Some pen_id ->
        ConditionEditor.item_at r 0 = Some name_item ->
        ConditionEditor.data name_item = Some pen_id ->
        ConditionEditor.item_at r 3 = Some head_item ->
        ConditionEditor.parse_heads (ConditionEditor.text head_item) = Ok heads ->
        (0 < heads)%Z -> (LivestockPen.capacity_head pen < heads)%Z ->
        ConditionEditor.read_pen_table clamp [r] = Ok [(pen_id, heads)]).
Proof.
  intros tanks v condition tank_volumes pen_loadings H.
  destruct (built_cases _ _ _ _ _ H) as (clamp & id & voyage & Ht & Hp & ->).
  split; [reflexivity | split; [| split]].
  - intros tank_id vol Hg.
    destruct (read_tank_table_invariant _ _ _ Ht _ _ Hg)
      as (tank & p & Hin & Hid & Hby & Hr & ->).
    exists tank, p.
    split; [exact Hin |]. split; [exact Hid |]. split; [exact Hby |].
    split; [exact Hr |]. split; [reflexivity |].
    intros Hc. apply volume_bounds; assumption.
  - intros fill_text.
    destruct (parse_fill_pct_returns fill_text) as (x & -> & Hx). simpl.
    destruct (float_of_str_cases fill_text) as [[y Hy] | Hy].
    + destruct (clamp_pct_range x) as (p & -> & Hr).
      exists p. split; [reflexivity | split; [exact Hr |]].
      rewrite Hy. discriminate.
    + rewrite (Hx Hy). exists 0.0.
      split; [reflexivity | split; [lra | intros _; reflexivity]].
  - intros clamp0 pen pen_id r name_item head_item heads _ E0 Ed E3 Ep Hpos _.
    exact (pen_row_step_over_capacity _ _ _ _ _ _ E0 Ed E3 Ep Hpos).
Qed.

Lemma tank_volumes_within_capacity_witness :
  ConditionEditor.built_volumes
    (ConditionEditor._on_compute Sample.tanks Sample.view)
  = [(1%Z, Fin (200.0 * (50 / 100.0))); (2%Z, Fin (100.0 * (100.0 / 100.0)))] /\
  exists tank p,
    In tank Sample.tanks /\ Tank.id tank = Some 2%Z /\
    dict_get ConditionEditor.opt_Z_eqb (Some 2%Z)
      (ConditionEditor.tank_by_id_of Sample.tanks) = Some tank /\
    0 <= p <= 100 /\
    Fin (100.0 * (100.0 / 100.0)) = Fin (Tank.capacity_m3 tank * (p / 100.0)) /\
    (0 <= Tank.capacity_m3 tank ->
     0 <= Tank.capacity_m3 tank * (p / 100.0) <= Tank.capacity_m3 tank).
Proof.
  split; [vm_compute; reflexivity |].
  refine (proj1 (proj2
    (tank_volumes_within_capacity Sample.tanks Sample.view
       (ConditionEditor.new_condition VNone (VInt 3) "Departure"
          [(1%Z, Fin (200.0 * (50 / 100.0))); (2%Z, Fin (100.0 * (100.0 / 100.0)))]
          [(1, 40); (2, 11)]%Z)
       [(1%Z, Fin (200.0 * (50 / 100.0))); (2%Z, Fin (100.0 * (100.0 / 100.0)))]
       [(1, 40); (2, 11)]%Z (or_introl _)))
    2%Z (Fin (100.0 * (100.0 / 100.0))) eq_refl).
  vm_compute. reflexivity.
Defined.

(** C10: the [pen_loadings] of every condition the editor builds holds an
    entry only for a pen whose head-count text reads as a strictly
    positive count: every stored value is a positive integer read from a
    row of that pen, and a row whose text is not a number, or reads as
    zero or less, adds no entry. *)
Theorem pen_loadings_hold_positive_heads_only :
  forall tanks v condition tank_volumes pen_loadings,
    ConditionEditor._on_compute tanks v
      = ConditionEditor.Built condition tank_volumes pen_loadings \/
    ConditionEditor._on_save_condition tanks v
      = ConditionEditor.Built condition tank_volumes pen_loadings ->
    LoadingCondition.pen_loadings condition = of_loadings pen_loadings /\
    (forall pen_id heads,
        dict_get Z.eqb pen_id pen_loadings = Some heads ->
        (0 < heads)%Z /\
        exists r name_item head_item,
          In r (ConditionEditor._pen_table v) /\
          ConditionEditor.item_at r 0 = Some name_item /\
          ConditionEditor.data name_item = Some pen_id /\
          ConditionEditor.item_at r 3 = Some head_item /\
          ConditionEditor.parse_heads (ConditionEditor.text head_item)
          = Ok heads) /\
    (forall clamp d r head_item,
        ConditionEditor.item_at r 3 = Some head_item ->
        float_of_str (ConditionEditor.text head_item) = Raise ValueError \/
        (exists h, ConditionEditor.parse_heads (ConditionEditor.text head_item)
                   = Ok h /\ (h <= 0)%Z) ->
        ConditionEditor.pen_row_step clamp d r = Ok d).
Proof.
  intros tanks v condition tank_volumes pen_loadings H.
  destruct (built_cases _ _ _ _ _ H) as (clamp & id & voyage & Ht & Hp & ->).
  split; [reflexivity | split].
  - intros pen_id heads Hg.
    exact (read_pen_table_invariant _ _ _ Hp _ _ Hg).
  - intros clamp0 d r head_item E3 Hno.
    exact (pen_row_step_no_entry clamp0 d r head_item E3 Hno).
Qed.

Lemma pen_loadings_hold_positive_heads_only_witness :
  ConditionEditor.built_loadings
    (ConditionEditor._on_compute Sample.tanks Sample.view)
  = [(1, 40); (2, 11)]%Z /\
  (0 < 11)%Z.
Proof.
  split; [vm_compute; reflexivity |].
  refine (proj1 (proj1 (proj2
    (pen_loadings_hold_positive_heads_only Sample.tanks Sample.view
       (ConditionEditor.new_condition VNone (VInt 3) "Departure"
          [(1%Z, Fin (200.0 * (50 / 100.0))); (2%Z, Fin (100.0 * (100.0 / 100.0)))]
          [(1, 40); (2, 11)]%Z)
       [(1%Z, Fin (200.0 * (50 / 100.0))); (2%Z, Fin (100.0 * (100.0 / 100.0)))]
       [(1, 40); (2, 11)]%Z (or_introl _))) 2%Z 11%Z eq_refl)).
  vm_compute. reflexivity.
Defined.

(** ** The stability calculator *)

Section STABILITY.
Import Engine.

Lemma Qlt_bool_iff (a b : Q) : Qlt_bool a b = true <-> a < b.
Proof.
  unfold Qlt_bool. split.
  - intros H. apply Qle_bool_false. destruct (Qle_bool b a); [discriminate | reflexivity].
  - intros H. destruct (Qle_bool b a) eqn:E; [| reflexivity].
    apply Qle_bool_iff in E. lra.
Qed.

Lemma is_slack_iff tank_volumes tank :
  is_slack tank_volumes tank = true <->
  0 < fill_fraction tank_volumes tank /\ fill_fraction tank_volumes tank < 1.
Proof.
  unfold is_slack. rewrite andb_true_iff, !Qlt_bool_iff. reflexivity.
Qed.

(** One turn of the correction loop either keeps GM or takes one factor
    off, so the loop takes off the factor once per slack tank. *)
Lemma correction_loop tank_volumes tanks :
  forall gm,
    fold_left
      (fun gm tank =>
         if is_slack tank_volumes tank
         then gm - Limits.FREE_SURFACE_FACTOR else gm)
      tanks gm
    == gm - Limits.FREE_SURFACE_FACTOR
            * inject_Z (Z.of_nat (slack_count tank_volumes tanks)).
Proof.
  unfold slack_count.
  induction tanks as [|tank tanks IH]; intros gm; simpl.
  - ring.
  - rewrite IH. destruct (is_slack tank_volumes tank); simpl length.
    + rewrite Qcount_succ. ring.
    + reflexivity.
Qed.

Lemma empty_or_full_not_slack tank_volumes tank :
  supplied_volume tank_volumes tank == 0 \/
  supplied_volume tank_volumes tank == Tank.capacity_m3 tank ->
  is_slack tank_volumes tank = false.
Proof.
  intros H. destruct (is_slack tank_volumes tank) eqn:E; [| reflexivity].
  exfalso. apply is_slack_iff in E. destruct E as [E0 E1].
  unfold fill_fraction in *.
  destruct H as [H | H].
  - rewrite H in E0. unfold Qdiv in E0. rewrite Qmult_0_l in E0. lra.
  - rewrite H in E0, E1.
    destruct (Qeq_dec (Tank.capacity_m3 tank) 0) as [Hz | Hnz].
    + rewrite Hz in E0. unfold Qdiv in E0. rewrite Qmult_0_l in E0. lra.
    + unfold Qdiv in E1. rewrite Qmult_inv_r in E1 by exact Hnz. lra.
Qed.

Lemma partly_filled_is_slack tank_volumes tank :
  0 < supplied_volume tank_volumes tank ->
  supplied_volume tank_volumes tank < Tank.capacity_m3 tank ->
  is_slack tank_volumes tank = true.
Proof.
  intros H0 H1. apply is_slack_iff. unfold fill_fraction.
  assert (Hc : 0 < Tank.capacity_m3 tank) by lra.
  split.
  - apply Qlt_shift_div_l; [exact Hc | lra].
  - apply Qlt_shift_div_r; [exact Hc | lra].
Qed.

End STABILITY.

(** C2: for every loading, GM_effective is the raw GM minus
    FREE_SURFACE_FACTOR times the number of tanks whose fill fraction is
    strictly between 0 and 100%; the factor is 0.5; a tank filled to
    exactly 0% or exactly 100% of its capacity is not counted, and every
    tank filled strictly between is counted once, whatever its fill
    fraction. *)
Theorem gm_effective_subtracts_factor_per_slack_tank :
  forall KM_m KG_m tank_volumes tanks,
    fst (Engine.compute_stability KM_m KG_m tank_volumes tanks) == KM_m - KG_m /\
    snd (Engine.compute_stability KM_m KG_m tank_volumes tanks)
    == fst (Engine.compute_stability KM_m KG_m tank_volumes tanks)
       - Limits.FREE_SURFACE_FACTOR
         * inject_Z (Z.of_nat (Engine.slack_count tank_volumes tanks)) /\
    Limits.FREE_SURFACE_FACTOR == 1 # 2 /\
    (forall tank,
        Engine.supplied_volume tank_volumes tank == 0 \/
        Engine.supplied_volume tank_volumes tank == Tank.capacity_m3 tank ->
        Engine.is_slack tank_volumes tank = false /\
        snd (Engine.compute_stability KM_m KG_m tank_volumes (tank :: tanks))
        == snd (Engine.compute_stability KM_m KG_m tank_volumes tanks)) /\
    (forall tank,
        0 < Engine.supplied_volume tank_volumes tank ->
        Engine.supplied_volume tank_volumes tank < Tank.capacity_m3 tank ->
        Engine.is_slack tank_volumes tank = true /\
        snd (Engine.compute_stability KM_m KG_m tank_volumes (tank :: tanks))
        == snd (Engine.compute_stability KM_m KG_m tank_volumes tanks)
           - Limits.FREE_SURFACE_FACTOR).
Proof.
  intros KM_m KG_m tank_volumes tanks.
  unfold Engine.compute_stability. cbn [fst snd].
  split; [reflexivity |]. split; [apply correction_loop |].
  split; [reflexivity |]. split.
  - intros tank H. pose proof (empty_or_full_not_slack _ _ H) as E.
    split; [exact E |]. rewrite !correction_loop.
    unfold Engine.slack_count. simpl filter. rewrite E. reflexivity.
  - intros tank H0 H1. pose proof (partly_filled_is_slack _ _ H0 H1) as E.
    split; [exact E |]. rewrite !correction_loop.
    unfold Engine.slack_count. simpl filter. rewrite E. simpl length.
    rewrite Qcount_succ. ring.
Qed.

Lemma gm_effective_subtracts_factor_per_slack_tank_witness :
  Engine.is_slack Sample.scenario_b_volumes Sample.tank_wb = true /\
  snd (Engine.compute_stability 7.5 6.4 Sample.scenario_b_volumes
         [Sample.tank_wb])
  == snd (Engine.compute_stability 7.5 6.4 Sample.scenario_b_volumes [])
     - Limits.FREE_SURFACE_FACTOR.
Proof.
  refine (proj2 (proj2 (proj2 (proj2
    (gm_effective_subtracts_factor_per_slack_tank
       7.5 6.4 Sample.scenario_b_volumes []))))
    Sample.tank_wb _ _); vm_compute; reflexivity.
Defined.

(** ** The file service *)

Section FILE_SERVICE.
Import Json FileService.

Lemma pykey_eqb_eq (a b : pykey) : pykey_eqb a b = true <-> a = b.
Proof.
  destruct a as [m | s], b as [n | t]; simpl; split;
    try discriminate.
  - intros H. apply Z.eqb_eq in H. subst. reflexivity.
  - intros [= ->]. apply Z.eqb_refl.
  - intros H. apply String.eqb_eq in H. subst. reflexivity.
  - intros [= ->]. apply String.eqb_refl.
Qed.

Lemma to_int_not_nil (n : Z) :
  Z.to_int n <> Decimal.Pos Decimal.Nil /\
  Z.to_int n <> Decimal.Neg Decimal.Nil.
Proof.
  destruct n as [| p | p]; simpl; split; intros H; try discriminate H;
    injection H as H; exact (DecimalPos.Unsigned.to_uint_nonnil p H).
Qed.

(** Distinct integers have distinct decimal texts. *)
Lemma str_of_int_inj (m n : Z) : str_of_int m = str_of_int n -> m = n.
Proof.
  unfold str_of_int. intros H.
  destruct (to_int_not_nil m) as [Hm1 Hm2].
  destruct (to_int_not_nil n) as [Hn1 Hn2].
  pose proof (NilZero.isi (Z.to_int m) Hm1 Hm2) as Em.
  pose proof (NilZero.isi (Z.to_int n) Hn1 Hn2) as En.
  rewrite H in Em. rewrite Em in En. injection En as En.
  apply DecimalZ.to_int_inj. exact En.
Qed.

Lemma load_dump_scalar (v : pyval) : Spec.scalar v -> load (dump v) = v.
Proof. destruct v; simpl; intros H; try reflexivity; destruct H. Qed.

Lemma text_keys_NoDup (A : Type) (f : Z * A -> pyval) (d : dict Z A) :
  NoDup (map fst d) ->
  NoDup (map fst (map (fun kv => (KStr (str_of_int (fst kv)), f kv)) d)).
Proof.
  rewrite map_map. simpl.
  induction d as [|[k a] d IH]; simpl; intros Hnd; [constructor |].
  inversion Hnd as [| ? ? Hnotin Hnd']; subst.
  constructor; [| exact (IH Hnd')].
  intros Hin. apply in_map_iff in Hin.
  destruct Hin as ([k' a'] & [= Hk] & Hin). simpl in Hk.
  apply str_of_int_inj in Hk. subst k'.
  apply Hnotin. apply in_map_iff. exists (k, a'). split; [reflexivity | exact Hin].
Qed.

(** What a file gives back for a dict with integer keys. *)
Lemma load_dump_of_volumes (tv : dict Z pyfloat) :
  NoDup (map fst tv) ->
  load (dump (of_volumes tv)) = Spec.text_keyed_volumes tv.
Proof.
  intros Hnd. unfold of_volumes, Spec.text_keyed_volumes. simpl.
  rewrite !map_map. simpl.
  rewrite (dict_of_pairs_NoDup _ _ _ pykey_eqb_eq); [reflexivity |].
  exact (text_keys_NoDup _ (fun kv => VFloat (snd kv)) tv Hnd).
Qed.

Lemma load_dump_of_loadings (pl : dict Z Z) :
  NoDup (map fst pl) ->
  load (dump (of_loadings pl)) = Spec.text_keyed_loadings pl.
Proof.
  intros Hnd. unfold of_loadings, Spec.text_keyed_loadings. simpl.
  rewrite !map_map. simpl.
  rewrite (dict_of_pairs_NoDup _ _ _ pykey_eqb_eq); [reflexivity |].
  exact (text_keys_NoDup _ (fun kv => VInt (snd kv)) pl Hnd).
Qed.

Lemma of_loadings_or_empty (pl : dict Z Z) :
  py_or (of_loadings pl) (VDict []) = of_loadings pl.
Proof. destruct pl; reflexivity. Qed.

Lemma read_back (path : string) (f : file) (fs : filesystem) :
  write path f fs path = Some f.
Proof. unfold write. rewrite String.eqb_refl. reflexivity. Qed.

(** Saving and loading a condition of the editor: the name and the
    voyage come back as they were; the two dicts come back with every
    integer key turned into its decimal text. *)
Lemma save_then_load (path : string) (c : LoadingCondition.t)
    (fs : filesystem) (tv : dict Z pyfloat) (pl : dict Z Z) :
  Spec.scalar (LoadingCondition.name c) ->
  Spec.scalar (LoadingCondition.voyage_id c) ->
  LoadingCondition.tank_volumes_m3 c = of_volumes tv -> NoDup (map fst tv) ->
  LoadingCondition.pen_loadings c = of_loadings pl -> NoDup (map fst pl) ->
  exists loaded,
    load_condition_from_file path (save_condition_to_file path c fs)
    = Ok loaded /\
    LoadingCondition.name loaded = LoadingCondition.name c /\
    LoadingCondition.voyage_id loaded = LoadingCondition.voyage_id c /\
    LoadingCondition.tank_volumes_m3 loaded = Spec.text_keyed_volumes tv /\
    LoadingCondition.pen_loadings loaded = Spec.text_keyed_loadings pl.
Proof.
  intros Hname Hvoy Htv Hndt Hpl Hndp.
  unfold load_condition_from_file, save_condition_to_file.
  rewrite read_back. rewrite Htv, Hpl, of_loadings_or_empty.
  cbn [dump map fst snd key_text].
  cbn [load map fst snd].
  fold (dump (of_volumes tv)). fold (dump (of_loadings pl)).
  fold (load (dump (of_volumes tv))). fold (load (dump (of_loadings pl))).
  rewrite (load_dump_scalar _ Hname), (load_dump_scalar _ Hvoy).
  rewrite (load_dump_of_volumes _ Hndt), (load_dump_of_loadings _ Hndp).
  eexists. split; [reflexivity |].
  repeat split; reflexivity.
Qed.

(** A dict that came back from a file has no integer key. *)
Lemma text_keyed_has_no_int_key (k : Z) (tv : dict Z pyfloat) :
  get (KInt k) (items (Spec.text_keyed_volumes tv)) = None.
Proof.
  unfold Spec.text_keyed_volumes, items, get.
  induction tv as [|[k' x] tv IH]; simpl; [reflexivity | exact IH].
Qed.

(** The dicts of a condition that holds a tank volume do not survive the
    file. *)
Lemma text_keyed_differs (tv : dict Z pyfloat) :
  tv <> [] -> Spec.text_keyed_volumes tv <> of_volumes tv.
Proof.
  destruct tv as [|[k x] tv]; [intros H; contradiction H; reflexivity |].
  intros _. unfold Spec.text_keyed_volumes, of_volumes. simpl. discriminate.
Qed.

End FILE_SERVICE.

(** C1 fails on the code: saving the condition named "Departure" of
    voyage 3, with tank volumes {1: 100.0, 2: 50.0} and pen loadings
    {1: 40, 2: 11}, and loading the file gives back the same name and
    voyage, but the two dicts come back keyed by the texts "1" and "2":
    they differ from the dicts that were saved, and a lookup by the
    integer id of a tank or pen, which found the value before the save,
    finds nothing after the load. *)
Theorem saved_condition_loads_with_text_keys :
  FileService.load_condition_from_file "departure.json"
    (FileService.save_condition_to_file "departure.json" Sample.condition
       FileService.empty_fs)
  = Ok Sample.loaded_condition /\
  LoadingCondition.name Sample.loaded_condition
  = LoadingCondition.name Sample.condition /\
  LoadingCondition.voyage_id Sample.loaded_condition
  = LoadingCondition.voyage_id Sample.condition /\
  LoadingCondition.tank_volumes_m3 Sample.loaded_condition
  <> LoadingCondition.tank_volumes_m3 Sample.condition /\
  LoadingCondition.pen_loadings Sample.loaded_condition
  <> LoadingCondition.pen_loadings Sample.condition /\
  get (KInt 1) (items (LoadingCondition.tank_volumes_m3 Sample.condition))
  = Some (VFloat (Fin 100.0)) /\
  get (KInt 1) (items (LoadingCondition.tank_volumes_m3 Sample.loaded_condition))
  = None /\
  get (KInt 2) (items (LoadingCondition.pen_loadings Sample.condition))
  = Some (VInt 11) /\
  get (KInt 2) (items (LoadingCondition.pen_loadings Sample.loaded_condition))
  = None.
Proof.
  split; [vm_compute; reflexivity |].
  split; [reflexivity |]. split; [reflexivity |].
  split; [simpl; discriminate |]. split; [simpl; discriminate |].
  repeat split; reflexivity.
Qed.

(* ================================================================== *)
(** * Further properties of the code                                   *)
(* ================================================================== *)

(** ** The file service: what a file gives back *)

Section FILE_SERVICE_MORE.
Import Json FileService.

Lemma dict_of_pairs_absent (K V : Type) (eqb : K -> K -> bool)
    (eqb_eq : forall a b, eqb a b = true <-> a = b)
    (k : K) (l : list (K * V)) :
  ~ In k (map fst l) -> dict_get eqb k (dict_of_pairs eqb l) = None.
Proof.
  intros Hn. destruct (dict_get eqb k (dict_of_pairs eqb l)) as [v|] eqn:E;
    [| reflexivity].
  exfalso. apply Hn.
  apply (dict_get_In _ _ _ eqb_eq) in E.
  apply (dict_of_pairs_In _ _ _ eqb_eq) in E.
  apply in_map_iff. exists (k, v). split; [reflexivity | exact E].
Qed.

(** A member a JSON object does not have is read as the default. *)
Lemma member_default (name : string) (default : pyval)
    (members : list (string * json)) :
  ~ In name (map fst members) ->
  get_default (KStr name) default
    (dict_of_pairs pykey_eqb
       (map (fun kv => (KStr (fst kv), load (snd kv))) members))
  = default.
Proof.
  intros Hn. unfold get_default, dict_get_default.
  rewrite (dict_of_pairs_absent _ _ _ pykey_eqb_eq); [reflexivity |].
  rewrite map_map. simpl. intros Hin. apply in_map_iff in Hin.
  destruct Hin as ([k j] & [= Hk] & Hin). simpl in Hk. subst k.
  apply Hn. apply in_map_iff. exists (name, j). split; [reflexivity | exact Hin].
Qed.

Lemma text_keyed_volumes_stable (tv : dict Z pyfloat) :
  NoDup (map fst tv) ->
  load (dump (Spec.text_keyed_volumes tv)) = Spec.text_keyed_volumes tv.
Proof.
  intros Hnd. unfold Spec.text_keyed_volumes. simpl.
  rewrite !map_map. simpl.
  rewrite (dict_of_pairs_NoDup _ _ _ pykey_eqb_eq); [reflexivity |].
  exact (text_keys_NoDup _ (fun kv => VFloat (snd kv)) tv Hnd).
Qed.

Lemma text_keyed_loadings_stable (pl : dict Z Z) :
  NoDup (map fst pl) ->
  load (dump (Spec.text_keyed_loadings pl)) = Spec.text_keyed_loadings pl.
Proof.
  intros Hnd. unfold Spec.text_keyed_loadings. simpl.
  rewrite !map_map. simpl.
  rewrite (dict_of_pairs_NoDup _ _ _ pykey_eqb_eq); [reflexivity |].
  exact (text_keys_NoDup _ (fun kv => VInt (snd kv)) pl Hnd).
Qed.

Lemma text_keyed_loadings_or_empty (pl : dict Z Z) :
  py_or (Spec.text_keyed_loadings pl) (VDict []) = Spec.text_keyed_loadings pl.
Proof. destruct pl; reflexivity. Qed.

End FILE_SERVICE_MORE.

(** X1: for every condition as the editor builds it (a text name, a
    voyage id or None, a [Dict[int, float]] and a [Dict[int, int]] with
    distinct keys), saving it and loading the file returns a condition
    with the same name and voyage id, with [id] None, and with the two
    dicts holding the same values in the same order under keys that are
    the decimal texts of the saved integer keys; so no integer key finds
    a value in the loaded dicts. *)
Theorem saved_condition_loads_text_keyed :
  forall path c fs tv pl,
    Spec.scalar (LoadingCondition.name c) ->
    Spec.scalar (LoadingCondition.voyage_id c) ->
    LoadingCondition.tank_volumes_m3 c = of_volumes tv ->
    NoDup (map fst tv) ->
    LoadingCondition.pen_loadings c = of_loadings pl ->
    NoDup (map fst pl) ->
    exists loaded,
      FileService.load_condition_from_file path
        (FileService.save_condition_to_file path c fs) = Ok loaded /\
      LoadingCondition.id loaded = VNone /\
      LoadingCondition.name loaded = LoadingCondition.name c /\
      LoadingCondition.voyage_id loaded = LoadingCondition.voyage_id c /\
      LoadingCondition.tank_volumes_m3 loaded = Spec.text_keyed_volumes tv /\
      LoadingCondition.pen_loadings loaded = Spec.text_keyed_loadings pl /\
      (forall k,
          get (KInt k) (items (LoadingCondition.tank_volumes_m3 loaded)) = None).
Proof.
  intros path c fs tv pl Hn Hv Htv Hndt Hpl Hndp.
  destruct (save_then_load path c fs tv pl Hn Hv Htv Hndt Hpl Hndp)
    as (loaded & Hl & H1 & H2 & H3 & H4).
  exists loaded. split; [exact Hl |].
  split.
  - unfold FileService.load_condition_from_file in Hl.
    destruct (FileService.save_condition_to_file path c fs path)
      as [[doc| |]|]; try discriminate.
    destruct (Json.load doc); try discriminate.
    injection Hl as <-. reflexivity.
  - repeat (split; [assumption |]).
    intros k. rewrite H3. apply text_keyed_has_no_int_key.
Qed.

Lemma saved_condition_loads_text_keyed_witness :
  exists loaded,
    FileService.load_condition_from_file "departure.json"
      (FileService.save_condition_to_file "departure.json" Sample.condition
         FileService.empty_fs) = Ok loaded /\
    LoadingCondition.name loaded = VStr "Departure" /\
    LoadingCondition.tank_volumes_m3 loaded
    = Spec.text_keyed_volumes Sample.tank_volumes /\
    get (KInt 1) (items (LoadingCondition.tank_volumes_m3 loaded)) = None.
Proof.
  destruct (saved_condition_loads_text_keyed "departure.json" Sample.condition
              FileService.empty_fs Sample.tank_volumes Sample.pen_loadings)
    as (loaded & Hl & _ & Hn & _ & Ht & _ & Hk).
  - exact I.
  - exact I.
  - reflexivity.
  - repeat constructor; simpl; intuition discriminate.
  - reflexivity.
  - repeat constructor; simpl; intuition discriminate.
  - exists loaded. repeat split; [exact Hl | exact Hn | exact Ht | apply Hk].
Defined.

(** X2: loading a file whose JSON object lacks a member gives the
    default of that member: the name "Loaded Condition", no voyage, empty
    dicts and 0.0 for the four figures; the [id] of a loaded condition is
    always None. *)
Theorem load_fills_missing_members_with_defaults :
  forall path fs members,
    fs path = Some (FileService.JsonText (Json.JObject members)) ->
    exists c,
      FileService.load_condition_from_file path fs = Ok c /\
      LoadingCondition.id c = VNone /\
      (~ In "name"%string (map fst members) ->
       LoadingCondition.name c = VStr "Loaded Condition") /\
      (~ In "voyage_id"%string (map fst members) ->
       LoadingCondition.voyage_id c = VNone) /\
      (~ In "tank_volumes_m3"%string (map fst members) ->
       LoadingCondition.tank_volumes_m3 c = VDict []) /\
      (~ In "pen_loadings"%string (map fst members) ->
       LoadingCondition.pen_loadings c = VDict []) /\
      (~ In "displacement_t"%string (map fst members) ->
       LoadingCondition.displacement_t c = VFloat (Fin 0.0)) /\
      (~ In "draft_m"%string (map fst members) ->
       LoadingCondition.draft_m c = VFloat (Fin 0.0)) /\
      (~ In "trim_m"%string (map fst members) ->
       LoadingCondition.trim_m c = VFloat (Fin 0.0)) /\
      (~ In "gm_m"%string (map fst members) ->
       LoadingCondition.gm_m c = VFloat (Fin 0.0)).
Proof.
  intros path fs members Hfs.
  unfold FileService.load_condition_from_file. rewrite Hfs.
  cbn [Json.load]. eexists. split; [reflexivity |].
  cbn [LoadingCondition.id LoadingCondition.name LoadingCondition.voyage_id
       LoadingCondition.tank_volumes_m3 LoadingCondition.pen_loadings
       LoadingCondition.displacement_t LoadingCondition.draft_m
       LoadingCondition.trim_m LoadingCondition.gm_m].
  split; [reflexivity |].
  repeat split; intros Hn; apply member_default; exact Hn.
Qed.

Lemma load_fills_missing_members_with_defaults_witness :
  exists c,
    FileService.load_condition_from_file "empty.json"
      (FileService.write "empty.json"
         (FileService.JsonText (Json.JObject [])) FileService.empty_fs) = Ok c /\
    LoadingCondition.name c = VStr "Loaded Condition" /\
    LoadingCondition.tank_volumes_m3 c = VDict [].
Proof.
  destruct (load_fills_missing_members_with_defaults "empty.json"
              (FileService.write "empty.json"
                 (FileService.JsonText (Json.JObject [])) FileService.empty_fs)
              [] eq_refl)
    as (c & Hc & _ & Hn & _ & Ht & _).
  exists c. split; [exact Hc |].
  split; [apply Hn | apply Ht]; intros [].
Defined.

(** X5: a condition that came from a file survives the file: when the
    two dicts are keyed by decimal texts (as a load returns them), saving
    and loading again returns the same name, voyage id and dicts. *)
Theorem loaded_condition_round_trips :
  forall path c fs tv pl,
    Spec.scalar (LoadingCondition.name c) ->
    Spec.scalar (LoadingCondition.voyage_id c) ->
    LoadingCondition.tank_volumes_m3 c = Spec.text_keyed_volumes tv ->
    NoDup (map fst tv) ->
    LoadingCondition.pen_loadings c = Spec.text_keyed_loadings pl ->
    NoDup (map fst pl) ->
    exists loaded,
      FileService.load_condition_from_file path
        (FileService.save_condition_to_file path c fs) = Ok loaded /\
      LoadingCondition.name loaded = LoadingCondition.name c /\
      LoadingCondition.voyage_id loaded = LoadingCondition.voyage_id c /\
      LoadingCondition.tank_volumes_m3 loaded
      = LoadingCondition.tank_volumes_m3 c /\
      LoadingCondition.pen_loadings loaded = LoadingCondition.pen_loadings c.
Proof.
  intros path c fs tv pl Hname Hvoy Htv Hndt Hpl Hndp.
  unfold FileService.load_condition_from_file,
    FileService.save_condition_to_file.
  rewrite read_back. rewrite Htv, Hpl, text_keyed_loadings_or_empty.
  cbn [Json.dump map fst snd Json.key_text].
  cbn [Json.load map fst snd].
  fold (Json.dump (Spec.text_keyed_volumes tv)).
  fold (Json.dump (Spec.text_keyed_loadings pl)).
  fold (Json.load (Json.dump (Spec.text_keyed_volumes tv))).
  fold (Json.load (Json.dump (Spec.text_keyed_loadings pl))).
  rewrite (load_dump_scalar _ Hname), (load_dump_scalar _ Hvoy).
  rewrite (text_keyed_volumes_stable _ Hndt), (text_keyed_loadings_stable _ Hndp).
  eexists. split; [reflexivity |].
  repeat split; reflexivity.
Qed.

Lemma loaded_condition_round_trips_witness :
  exists loaded,
    FileService.load_condition_from_file "departure.json"
      (FileService.save_condition_to_file "departure.json"
         Sample.loaded_condition FileService.empty_fs) = Ok loaded /\
    LoadingCondition.tank_volumes_m3 loaded
    = LoadingCondition.tank_volumes_m3 Sample.loaded_condition /\
    LoadingCondition.pen_loadings loaded
    = LoadingCondition.pen_loadings Sample.loaded_condition.
Proof.
  destruct (loaded_condition_round_trips "departure.json"
              Sample.loaded_condition FileService.empty_fs
              Sample.tank_volumes Sample.pen_loadings)
    as (loaded & Hl & _ & _ & Ht & Hp).
  - exact I.
  - exact I.
  - reflexivity.
  - repeat constructor; simpl; intuition discriminate.
  - reflexivity.
  - repeat constructor; simpl; intuition discriminate.
  - exists loaded. repeat split; assumption.
Defined.

(** X6: for a condition as the editor builds it, the file returns the
    tank volumes (the pen loadings) exactly as saved if and only if the
    condition holds no tank volume (no pen loading). *)
Theorem round_trip_exact_iff_empty :
  forall path c fs tv pl loaded,
    Spec.scalar (LoadingCondition.name c) ->
    Spec.scalar (LoadingCondition.voyage_id c) ->
    LoadingCondition.tank_volumes_m3 c = of_volumes tv ->
    NoDup (map fst tv) ->
    LoadingCondition.pen_loadings c = of_loadings pl ->
    NoDup (map fst pl) ->
    FileService.load_condition_from_file path
      (FileService.save_condition_to_file path c fs) = Ok loaded ->
    (LoadingCondition.tank_volumes_m3 loaded
     = LoadingCondition.tank_volumes_m3 c <-> tv = []) /\
    (LoadingCondition.pen_loadings loaded
     = LoadingCondition.pen_loadings c <-> pl = []).
Proof.
  intros path c fs tv pl loaded Hn Hv Htv Hndt Hpl Hndp Hl.
  destruct (save_then_load path c fs tv pl Hn Hv Htv Hndt Hpl Hndp)
    as (loaded' & Hl' & _ & _ & H3 & H4).
  rewrite Hl in Hl'. injection Hl' as <-.
  rewrite H3, H4, Htv, Hpl. split; split.
  - destruct tv as [|[k x] tv]; [reflexivity |].
    unfold Spec.text_keyed_volumes, of_volumes. simpl. discriminate.
  - intros ->. reflexivity.
  - destruct pl as [|[k x] pl]; [reflexivity |].
    unfold Spec.text_keyed_loadings, of_loadings. simpl. discriminate.
  - intros ->. reflexivity.
Qed.

Lemma round_trip_exact_iff_empty_witness :
  LoadingCondition.tank_volumes_m3 Sample.loaded_condition
  = LoadingCondition.tank_volumes_m3 Sample.condition
  <-> Sample.tank_volumes = [].
Proof.
  refine (proj1 (round_trip_exact_iff_empty "departure.json" Sample.condition
            FileService.empty_fs Sample.tank_volumes Sample.pen_loadings
            Sample.loaded_condition I I eq_refl _ eq_refl _ _)).
  - repeat constructor; simpl; intuition discriminate.
  - repeat constructor; simpl; intuition discriminate.
  - vm_compute. reflexivity.
Defined.

(** ** Decimal texts: what [float] reads of what [str] wrote *)

Section DECIMAL_TEXT.

(** A character that is a digit is no sign, no point, no exponent mark,
    no underscore, no white space and no letter. *)
Lemma digit_char (c : ascii) (v : Z) :
  digit_val c = Some v ->
  (48 <= N_of_ascii c <= 57)%N.
Proof.
  unfold digit_val.
  destruct ((48 <=? N_of_ascii c) && (N_of_ascii c <=? 57))%N eqn:E;
    [| discriminate].
  intros _. apply andb_true_iff in E. destruct E as [E1 E2].
  apply N.leb_le in E1. apply N.leb_le in E2. lia.
Qed.

Lemma digit_not_char (c : ascii) (v : Z) (n : N) :
  digit_val c = Some v -> (n < 48 \/ 57 < n)%N -> is_char n c = false.
Proof.
  intros Hd Hn. apply digit_char in Hd. unfold is_char.
  apply N.eqb_neq. lia.
Qed.

Lemma digit_not_space (c : ascii) (v : Z) :
  digit_val c = Some v -> is_space c = false.
Proof.
  intros Hd. apply digit_char in Hd. unfold is_space.
  repeat match goal with
  | |- context [(?a <=? ?b)%N] =>
      let E := fresh in destruct (a <=? b)%N eqn:E;
      [apply N.leb_le in E | apply N.leb_gt in E]
  | |- context [(?a =? ?b)%N] =>
      let E := fresh in destruct (a =? b)%N eqn:E;
      [apply N.eqb_eq in E | apply N.eqb_neq in E]
  end; simpl; try reflexivity; lia.
Qed.

Lemma digit_lower (c : ascii) (v : Z) :
  digit_val c = Some v -> lower_char c = c.
Proof.
  intros Hd. apply digit_char in Hd. unfold lower_char.
  destruct ((65 <=? N_of_ascii c) && (N_of_ascii c <=? 90))%N eqn:E;
    [| reflexivity].
  apply andb_true_iff in E. destruct E as [E1 _]. apply N.leb_le in E1. lia.
Qed.

(** The characters of the decimal text of a number are digits. *)
Lemma uint_chars_digits (d : Decimal.uint) :
  Forall (fun c => exists v, digit_val c = Some v)
         (chars (NilEmpty.string_of_uint d)).
Proof.
  induction d; simpl; constructor; try exact IHd; eexists; reflexivity.
Qed.

(** Reading the decimal text of a number gives the number. *)
Lemma digits_tail_uint (d : Decimal.uint) (acc : Z) (cnt : nat) :
  exists n,
    digits_tail acc cnt (chars (NilEmpty.string_of_uint d))
    = (Spec.uint_value acc d, n, []).
Proof.
  revert acc cnt. induction d; intros acc cnt; simpl;
    try (eexists; reflexivity); apply IHd.
Qed.

Lemma uint_value_acc (d : Decimal.uint) (a : positive) :
  Spec.uint_value (Zpos a) d = Zpos (Pos.of_uint_acc d a).
Proof.
  revert a. induction d; intros a;
    cbn [Spec.uint_value Pos.of_uint_acc]; try reflexivity;
    rewrite <- IHd; f_equal; lia.
Qed.

Lemma uint_value_of_uint (d : Decimal.uint) :
  Spec.uint_value 0 d = Z.of_N (Pos.of_uint d).
Proof.
  induction d; cbn [Spec.uint_value Pos.of_uint]; try reflexivity;
    try (rewrite <- IHd; f_equal; lia);
    change (10 * 0 + 1)%Z with 1%Z; change (10 * 0 + 2)%Z with 2%Z;
    change (10 * 0 + 3)%Z with 3%Z; change (10 * 0 + 4)%Z with 4%Z;
    change (10 * 0 + 5)%Z with 5%Z; change (10 * 0 + 6)%Z with 6%Z;
    change (10 * 0 + 7)%Z with 7%Z; change (10 * 0 + 8)%Z with 8%Z;
    change (10 * 0 + 9)%Z with 9%Z; apply uint_value_acc.
Qed.

Lemma uint_value_to_uint (p : positive) :
  Spec.uint_value 0 (Pos.to_uint p) = Zpos p.
Proof. rewrite uint_value_of_uint, DecimalPos.Unsigned.of_to. reflexivity. Qed.

Lemma uint_chars_head (d : Decimal.uint) :
  d <> Decimal.Nil ->
  exists c rest v,
    chars (NilEmpty.string_of_uint d) = c :: rest /\ digit_val c = Some v.
Proof.
  destruct d; [intros H; contradiction H; reflexivity | ..]; intros _; simpl;
    do 3 eexists; split; reflexivity.
Qed.

(** The white space of [float] is white space of [str.strip]. *)
Lemma float_space_is_space (c : ascii) :
  is_space c = false -> is_float_space c = false.
Proof.
  unfold is_space, is_float_space.
  destruct (N_of_ascii c) as [|n]; [reflexivity |].
  intros H.
  destruct ((9 <=? N.pos n) && (N.pos n <=? 13))%N; [discriminate |].
  destruct (N.pos n =? 133)%N; [rewrite !orb_true_r in H; discriminate |].
  destruct (N.pos n =? 160)%N; [rewrite !orb_true_r in H; discriminate |].
  destruct (N.eqb_spec (N.pos n) 32) as [E | E]; [rewrite E in H; discriminate |].
  reflexivity.
Qed.

Lemma float_lstrip_no_space (l : list ascii) :
  Forall (fun c => is_space c = false) l -> float_lstrip l = l.
Proof.
  destruct 1 as [| c l Hc Hl]; simpl;
    [| rewrite (float_space_is_space _ Hc)]; reflexivity.
Qed.

(** [float] strips nothing from a text without white space. *)
Lemma float_strip_no_space (l : list ascii) :
  Forall (fun c => is_space c = false) l -> float_strip l = l.
Proof.
  intros H. unfold float_strip.
  rewrite (float_lstrip_no_space _ H).
  rewrite (float_lstrip_no_space (rev l)) by (apply Forall_rev; exact H).
  apply rev_involutive.
Qed.

Lemma digits_no_space (l : list ascii) :
  Forall (fun c => exists v, digit_val c = Some v) l ->
  Forall (fun c => is_space c = false) l.
Proof.
  intros H. eapply Forall_impl; [| exact H].
  intros c [v Hv]. exact (digit_not_space _ _ Hv).
Qed.

(** A text that starts with a digit is none of the keywords of
    [float]. *)
Lemma digit_head_no_keyword (c : ascii) (v : Z) (rest : list ascii)
    (c0 : ascii) (t : string) :
  digit_val c = Some v -> digit_val c0 = None ->
  String.eqb (str (keyword (c :: rest))) (String c0 t) = false.
Proof.
  intros Hd Hn. unfold keyword, str. simpl.
  rewrite (digit_lower _ _ Hd).
  destruct (Ascii.eqb_spec c c0) as [-> | Hne]; [congruence | reflexivity].
Qed.

Lemma number_of_uint (d : Decimal.uint) :
  d <> Decimal.Nil ->
  number (chars (NilEmpty.string_of_uint d)) = Some (Spec.uint_value 0 d, O, []).
Proof.
  intros Hd.
  destruct (uint_chars_head d Hd) as (c & rest & v & Hl & Hc).
  destruct (digits_tail_uint d 0 0) as [n Hn].
  unfold number, digitpart. rewrite Hl in *. rewrite Hc.
  simpl in Hn. rewrite Hc in Hn. simpl. rewrite Hn. reflexivity.
Qed.

(** [float] reads the decimal text of a natural number, and the text
    with a minus sign before it, as that number. *)
Lemma float_of_uint_text (d : Decimal.uint) (negative : bool) :
  d <> Decimal.Nil ->
  float_of_str
    ((if negative then "-" else "") ++ NilEmpty.string_of_uint d)%string
  = Ok (finite_or_inf
          (if negative then - inject_Z (Spec.uint_value 0 d * 1)
           else inject_Z (Spec.uint_value 0 d * 1))).
Proof.
  intros Hd.
  destruct (uint_chars_head d Hd) as (c & rest & v & Hl & Hc).
  pose proof (uint_chars_digits d) as Hdig.
  assert (Hns : Forall (fun c => is_space c = false)
                  (chars ((if negative then "-" else "")
                          ++ NilEmpty.string_of_uint d)%string)).
  { destruct negative; simpl.
    - constructor; [reflexivity | apply digits_no_space; exact Hdig].
    - apply digits_no_space. exact Hdig. }
  unfold float_of_str. rewrite (float_strip_no_space _ Hns).
  assert (Hsign : sign (chars ((if negative then "-" else "")
                               ++ NilEmpty.string_of_uint d)%string)
                  = (negative, chars (NilEmpty.string_of_uint d))).
  { destruct negative; simpl; [reflexivity |].
    fold (chars (NilEmpty.string_of_uint d)). rewrite Hl. unfold sign.
    rewrite (digit_not_char _ _ 45 Hc) by lia.
    rewrite (digit_not_char _ _ 43 Hc) by lia. reflexivity. }
  rewrite Hsign. rewrite (number_of_uint d Hd). rewrite Hl.
  rewrite !(digit_head_no_keyword _ _ _ _ _ Hc) by reflexivity.
  simpl. destruct negative; reflexivity.
Qed.

(** [str] of an [int] is its decimal text, signed. *)
Lemma str_of_int_text (h : Z) :
  exists d,
    d <> Decimal.Nil /\ Spec.uint_value 0 d = Z.abs h /\
    str_of_int h
    = ((if (h <? 0)%Z then "-" else "") ++ NilEmpty.string_of_uint d)%string.
Proof.
  destruct h as [| p | p]; unfold str_of_int; simpl.
  - exists (Decimal.D0 Decimal.Nil). repeat split; discriminate.
  - exists (Pos.to_uint p).
    split; [apply DecimalPos.Unsigned.to_uint_nonnil |].
    split; [apply uint_value_to_uint |].
    unfold NilZero.string_of_uint.
    destruct (Pos.to_uint p) eqn:E; try reflexivity.
    exfalso. exact (DecimalPos.Unsigned.to_uint_nonnil p E).
  - exists (Pos.to_uint p).
    split; [apply DecimalPos.Unsigned.to_uint_nonnil |].
    split; [apply uint_value_to_uint |].
    unfold NilZero.string_of_uint.
    destruct (Pos.to_uint p) eqn:E; try reflexivity.
    exfalso. exact (DecimalPos.Unsigned.to_uint_nonnil p E).
Qed.

Lemma nearest_even_multiple (k d : Z) :
  (0 < d)%Z -> nearest_even (k * d) d = k.
Proof.
  intros Hd. unfold nearest_even.
  rewrite Z_mod_mult. rewrite Z.div_mul by lia.
  assert (E : (2 * 0 ?= d)%Z = Lt) by (apply Z.compare_lt_iff; lia).
  rewrite E. reflexivity.
Qed.

Lemma scale2_integer (n : Z) :
  (0 < n <= 2 ^ 53)%Z ->
  let e := ulp_exponent n 1 in
  scale2 (if (0 <=? e)%Z then nearest_even n (1 * 2 ^ e)
          else nearest_even (n * 2 ^ (- e)) 1) e == inject_Z n.
Proof.
  intros [Hp Hb]. unfold ulp_exponent.
  change (Z.log2 1) with 0%Z. rewrite Z.sub_0_r.
  pose proof (Z.log2_nonneg n) as Hl0.
  destruct (Z.log2_spec n Hp) as [Hlo Hhi].
  assert (Hl53 : (Z.log2 n <= 53)%Z).
  { rewrite <- (Z.log2_pow2 53) by lia. apply Z.log2_le_mono. exact Hb. }
  replace (0 <=? Z.log2 n)%Z with true by (symmetry; apply Z.leb_le; exact Hl0).
  replace (n <? 1 * 2 ^ Z.log2 n)%Z with false
    by (symmetry; apply Z.ltb_ge; lia).
  rewrite Z.max_l by lia. cbv zeta.
  destruct (0 <=? Z.log2 n - 52)%Z eqn:E.
  - apply Z.leb_le in E. unfold scale2.
    replace (0 <=? Z.log2 n - 52)%Z with true by (symmetry; apply Z.leb_le; exact E).
    assert (Hdiv : (n = n / 2 ^ (Z.log2 n - 52) * 2 ^ (Z.log2 n - 52))%Z).
    { assert (Hc : (Z.log2 n = 52 \/ Z.log2 n = 53)%Z) by lia.
      destruct Hc as [Hc | Hc]; rewrite Hc in *.
      - change (2 ^ (52 - 52))%Z with 1%Z. rewrite Z.div_1_r. lia.
      - assert (n = 2 ^ 53)%Z by lia. subst n. reflexivity. }
    rewrite Z.mul_1_l. rewrite Hdiv at 1.
    rewrite nearest_even_multiple by (apply Z.pow_pos_nonneg; lia).
    rewrite <- Hdiv. reflexivity.
  - apply Z.leb_gt in E. unfold scale2.
    replace (0 <=? Z.log2 n - 52)%Z with false by (symmetry; apply Z.leb_gt; exact E).
    replace (n * 2 ^ (- (Z.log2 n - 52)))%Z
      with ((n * 2 ^ (- (Z.log2 n - 52))) * 1)%Z by lia.
    rewrite nearest_even_multiple by lia.
    unfold Qeq, inject_Z. simpl Qnum. simpl Qden.
    rewrite Z2Pos.id by (apply Z.pow_pos_nonneg; lia). lia.
Qed.

(** A whole number of magnitude at most [2 ^ 53] is a binary64 float. *)
Lemma nearest_binary64_integer (z : Z) :
  (Z.abs z <= 2 ^ 53)%Z -> nearest_binary64 (inject_Z z) == inject_Z z.
Proof.
  intros Hb. unfold nearest_binary64, inject_Z. cbn [Qnum Qden].
  destruct (Z.eqb_spec (Z.abs z) 0) as [E | E].
  - assert (z = 0)%Z by lia. subst. reflexivity.
  - assert (Hn : (0 < Z.abs z <= 2 ^ 53)%Z) by lia.
    pose proof (scale2_integer (Z.abs z) Hn) as H. cbv zeta in H.
    destruct (z <? 0)%Z eqn:Es.
    + apply Z.ltb_lt in Es. rewrite H. unfold Qeq, inject_Z. simpl. lia.
    + apply Z.ltb_ge in Es. rewrite H. unfold Qeq, inject_Z. simpl. lia.
Qed.

Lemma finite_or_inf_integer (z : Z) :
  (Z.abs z <= 2 ^ 53)%Z -> finite_or_inf (inject_Z z) = Fin (inject_Z z).
Proof.
  intros Hb. unfold finite_or_inf.
  destruct (Qle_bool float_overflow (Qabs (inject_Z z))) eqn:E.
  - exfalso. apply Qle_bool_iff in E.
    assert (Ha : Qabs (inject_Z z) == inject_Z (Z.abs z)) by reflexivity.
    rewrite Ha in E. unfold float_overflow in E. rewrite <- Zle_Qle in E.
    assert (2 ^ 53 < 2 ^ 1024 - 2 ^ 970)%Z by (vm_compute; reflexivity).
    lia.
  - cbv zeta.
    rewrite (proj2 (Qeq_bool_iff _ _) (nearest_binary64_integer z Hb)).
    reflexivity.
Qed.

(** [int(float(str(h)))] is [h] for every integer a binary64 float holds
    exactly. *)
Lemma parse_heads_of_str (h : Z) :
  (Z.abs h <= 2 ^ 53)%Z ->
  ConditionEditor.parse_heads (str_of_int h) = Ok h.
Proof.
  intros Hb.
  destruct (str_of_int_text h) as (d & Hd & Hv & ->).
  unfold ConditionEditor.parse_heads.
  rewrite (float_of_uint_text d (h <? 0)%Z Hd). rewrite Hv.
  rewrite Z.mul_1_r.
  destruct (h <? 0)%Z eqn:Eneg.
  - apply Z.ltb_lt in Eneg.
    change (- inject_Z (Z.abs h)) with (inject_Z (- Z.abs h)).
    rewrite finite_or_inf_integer by lia.
    simpl. f_equal. rewrite Z.quot_1_r. lia.
  - apply Z.ltb_ge in Eneg.
    rewrite finite_or_inf_integer by lia.
    simpl. f_equal. rewrite Z.quot_1_r. lia.
Qed.

End DECIMAL_TEXT.

(** ** The condition editor: outcomes and tables *)

Section EDITOR_OUTCOMES.
Import ConditionEditor.

Lemma infinite_head_row_raises clamp d r :
  Spec.infinite_head_row r -> pen_row_step clamp d r = Raise OverflowError.
Proof.
  intros (name_item & pen_id & head_item & neg & E0 & Ed & E3 & Ef).
  unfold pen_row_step, parse_heads. rewrite E0, E3, Ed, Ef. reflexivity.
Qed.

Lemma pen_row_step_cases clamp d r :
  (exists d', pen_row_step clamp d r = Ok d') \/
  (pen_row_step clamp d r = Raise OverflowError /\ Spec.infinite_head_row r).
Proof.
  unfold pen_row_step.
  destruct (item_at r 0) as [name_item|] eqn:E0; [| left; eexists; reflexivity].
  destruct (item_at r 3) as [head_item|] eqn:E3; [| left; eexists; reflexivity].
  destruct (data name_item) as [pen_id|] eqn:Ed; [| left; eexists; reflexivity].
  unfold parse_heads.
  destruct (float_of_str_cases (text head_item)) as [[x H] | H]; rewrite H; simpl.
  - destruct x as [q | neg |]; simpl.
    + left. destruct (0 <? _)%Z; eexists; reflexivity.
    + right. split; [reflexivity |].
      exists name_item, pen_id, head_item, neg. repeat split; assumption.
    + left. destruct (0 <? _)%Z; eexists; reflexivity.
  - left. destruct (0 <? _)%Z; eexists; reflexivity.
Qed.

Lemma read_pen_table_raises clamp rows :
  forall acc e,
    for_rows (pen_row_step clamp) rows acc = Raise e ->
    e = OverflowError /\ exists r, In r rows /\ Spec.infinite_head_row r.
Proof.
  induction rows as [|r rows IH]; intros acc e; simpl; [discriminate |].
  destruct (pen_row_step_cases clamp acc r) as [[d' E] | [E Hinf]];
    rewrite E; simpl.
  - intros H. destruct (IH _ _ H) as (He & r' & Hin & Hr').
    split; [exact He |]. exists r'. split; [right; exact Hin | exact Hr'].
  - intros [= <-]. split; [reflexivity |].
    exists r. split; [left; reflexivity | exact Hinf].
Qed.

Lemma read_pen_table_overflows clamp rows :
  (exists r, In r rows /\ Spec.infinite_head_row r) ->
  forall acc, for_rows (pen_row_step clamp) rows acc = Raise OverflowError.
Proof.
  induction rows as [|r rows IH]; intros (r' & Hin & Hr') acc;
    [destruct Hin |].
  simpl.
  destruct (pen_row_step_cases clamp acc r) as [[d' E] | [E _]];
    rewrite E; simpl; [| reflexivity].
  destruct Hin as [<- | Hin].
  - rewrite (infinite_head_row_raises clamp acc r Hr') in E. discriminate.
  - apply IH. exists r'. split; assumption.
Qed.

(** The clamp of [_on_compute] makes no difference to what a row
    stores. *)
Lemma pen_row_step_clamp_irrelevant d r :
  pen_row_step true d r = pen_row_step false d r.
Proof.
  unfold pen_row_step.
  destruct (item_at r 0); [| reflexivity].
  destruct (item_at r 3) as [head_item|]; [| reflexivity].
  destruct (data _); [| reflexivity].
  destruct (parse_heads (text head_item)) as [h|e]; simpl; [| reflexivity].
  destruct (Z.max_spec 0 h) as [[Hlt ->] | [Hle ->]]; [reflexivity |].
  replace (0 <? 0)%Z with false by reflexivity.
  replace (0 <? h)%Z with false; [reflexivity |].
  symmetry. apply Z.ltb_ge. exact Hle.
Qed.

Lemma read_pen_table_clamp_irrelevant rows :
  read_pen_table true rows = read_pen_table false rows.
Proof.
  unfold read_pen_table. generalize (@nil (Z * Z)).
  induction rows as [|r rows IH]; intros acc; simpl; [reflexivity |].
  rewrite pen_row_step_clamp_irrelevant.
  destruct (pen_row_step false acc r); simpl; [apply IH | reflexivity].
Qed.

End EDITOR_OUTCOMES.

(** X7: with a ship selected and the database initialised (without a
    ship, or without [database.SessionLocal], [_on_compute] shows a
    message and returns before it reads a table), [_on_compute] either
    builds a condition or ends with an uncaught OverflowError, and it
    ends with the OverflowError exactly when some row of the pen table
    that carries a pen id has a head-count text that reads as an
    infinity ("inf", "-Infinity", "1e999"); text that is not a number
    never makes it fail. *)
Theorem on_compute_fails_only_on_infinite_head_count :
  forall tanks v ship k,
    ConditionEditor._current_ship v = Some ship ->
    ConditionEditor.ship_id ship = Some k ->
    ConditionEditor.database_SessionLocal v = true ->
    ((exists condition tank_volumes pen_loadings,
         ConditionEditor._on_compute tanks v
         = ConditionEditor.Built condition tank_volumes pen_loadings) \/
     ConditionEditor._on_compute tanks v
     = ConditionEditor.Uncaught OverflowError) /\
    (ConditionEditor._on_compute tanks v
     = ConditionEditor.Uncaught OverflowError <->
     exists r, In r (ConditionEditor._pen_table v) /\ Spec.infinite_head_row r).
Proof.
  intros tanks v ship k Hs Hk Hdb.
  unfold ConditionEditor._on_compute. rewrite Hs, Hk, Hdb. cbn [negb].
  destruct (read_tank_table_returns tanks (ConditionEditor._tank_table v))
    as [tv ->]. simpl.
  unfold ConditionEditor.read_pen_table.
  destruct (ConditionEditor.for_rows (ConditionEditor.pen_row_step true)
              (ConditionEditor._pen_table v) []) as [pl|e] eqn:E; simpl.
  - split; [left; do 3 eexists; reflexivity |].
    split; [discriminate |].
    intros Hex. rewrite (read_pen_table_overflows true _ Hex []) in E.
    discriminate.
  - destruct (read_pen_table_raises _ _ _ _ E) as [-> Hex].
    split; [right; reflexivity |].
    split; [intros _; exact Hex | reflexivity].
Qed.

(** X8: when [_on_compute] and [_on_save_condition] both build a
    condition from the same view, they build the same condition and hand
    the same tank volumes and pen loadings to the condition service: the
    [heads = max(0, heads)] that only [_on_compute] has makes no
    difference. *)
Theorem handlers_build_the_same_condition :
  forall tanks v c1 tv1 pl1 c2 tv2 pl2,
    ConditionEditor._on_compute tanks v = ConditionEditor.Built c1 tv1 pl1 ->
    ConditionEditor._on_save_condition tanks v
    = ConditionEditor.Built c2 tv2 pl2 ->
    c1 = c2 /\ tv1 = tv2 /\ pl1 = pl2.
Proof.
  intros tanks v c1 tv1 pl1 c2 tv2 pl2.
  unfold ConditionEditor._on_compute, ConditionEditor._on_save_condition.
  destruct (ConditionEditor._current_ship v) as [ship|]; [| discriminate].
  destruct (ConditionEditor.ship_id ship); [| discriminate].
  destruct (negb (ConditionEditor.database_SessionLocal v)); [discriminate |].
  destruct (ConditionEditor._current_voyage v) as [voyage|]; [| discriminate].
  destruct (negb _); [discriminate |].
  rewrite read_pen_table_clamp_irrelevant.
  unfold ConditionEditor.finish.
  destruct (ConditionEditor.read_tank_table tanks _) as [tv|e]; simpl;
    [| discriminate].
  destruct (ConditionEditor.read_pen_table false _) as [pl|e]; simpl;
    [| discriminate].
  intros [= <- <- <-] [= <- <- <-]. repeat split.
Qed.

Section PRESENCE.
Variables (K V : Type) (eqb : K -> K -> bool).
Hypothesis eqb_eq : forall a b, eqb a b = true <-> a = b.

Lemma dict_set_keeps (k k0 : K) (v0 : V) (d : dict K V) :
  (exists v, dict_get eqb k d = Some v) ->
  exists v, dict_get eqb k (dict_set eqb k0 v0 d) = Some v.
Proof.
  intros [v Hv]. destruct (eqb k k0) eqn:E.
  - apply eqb_eq in E. subst k0. exists v0.
    apply (dict_get_set_same _ _ _ eqb_eq).
  - exists v. rewrite (dict_get_set_other _ _ _ eqb_eq); [exact Hv |].
    intros ->. rewrite (proj2 (eqb_eq k0 k0) eq_refl) in E. discriminate.
Qed.

(** Every key of a list of pairs is a key of the dict it builds. *)
Lemma dict_of_pairs_present (k : K) (l : list (K * V)) :
  In k (map fst l) -> exists v, dict_get eqb k (dict_of_pairs eqb l) = Some v.
Proof.
  unfold dict_of_pairs.
  assert (G : forall l (d : dict K V),
             (exists v, dict_get eqb k d = Some v) \/ In k (map fst l) ->
             exists v, dict_get eqb k
               (fold_left (fun d kv => dict_set eqb (fst kv) (snd kv) d) l d)
               = Some v).
  { clear l. induction l as [|[k0 v0] l IH]; intros d [H | H]; simpl.
    - exact H.
    - destruct H.
    - apply IH. left. apply dict_set_keeps. exact H.
    - destruct H as [H | H].
      + simpl in H. subst k0. apply IH. left. exists v0.
        apply (dict_get_set_same _ _ _ eqb_eq).
      + apply IH. right. exact H. }
  intros H. apply G. right. exact H.
Qed.

End PRESENCE.

Section EDITOR_TABLES.
Import ConditionEditor EditorTables.
Variable fixed_text : nat -> pyfloat -> string.

Lemma tank_row_step_keeps tbid acc r acc' k :
  tank_row_step tbid acc r = Ok acc' ->
  (exists vol, dict_get Z.eqb k acc = Some vol) ->
  exists vol, dict_get Z.eqb k acc' = Some vol.
Proof.
  unfold tank_row_step. intros H Hk.
  destruct (item_at r 0) as [name_item|]; [| injection H as <-; exact Hk].
  destruct (item_at r 2) as [fill_item|]; [| injection H as <-; exact Hk].
  destruct (data name_item) as [tank_id|]; [| injection H as <-; exact Hk].
  destruct (parse_fill_pct_returns (text fill_item)) as (x & Hx & _).
  rewrite Hx in H. simpl in H.
  destruct (dict_get opt_Z_eqb (Some tank_id) tbid);
    injection H as <-; [| exact Hk].
  apply (dict_set_keeps _ _ _ Z.eqb_eq). exact Hk.
Qed.

Lemma tank_row_step_adds tbid acc r acc' k name_item fill_item tank :
  tank_row_step tbid acc r = Ok acc' ->
  item_at r 0 = Some name_item -> data name_item = Some k ->
  item_at r 2 = Some fill_item ->
  dict_get opt_Z_eqb (Some k) tbid = Some tank ->
  exists vol, dict_get Z.eqb k acc' = Some vol.
Proof.
  unfold tank_row_step. intros H E0 Ed E2 Et.
  rewrite E0, E2, Ed in H.
  destruct (parse_fill_pct_returns (text fill_item)) as (x & Hx & _).
  rewrite Hx in H. simpl in H. rewrite Et in H. injection H as <-.
  eexists. apply (dict_get_set_same _ _ _ Z.eqb_eq).
Qed.

Lemma read_tank_keys tbid rows :
  forall acc d k,
    for_rows (tank_row_step tbid) rows acc = Ok d ->
    (exists vol, dict_get Z.eqb k acc = Some vol) \/
    (exists r name_item fill_item tank,
        In r rows /\ item_at r 0 = Some name_item /\
        data name_item = Some k /\ item_at r 2 = Some fill_item /\
        dict_get opt_Z_eqb (Some k) tbid = Some tank) ->
    exists vol, dict_get Z.eqb k d = Some vol.
Proof.
  induction rows as [|r rows IH]; intros acc d k; simpl.
  - intros [= <-] [H | (r & _ & _ & _ & [] & _)]. exact H.
  - destruct (tank_row_step tbid acc r) as [acc1|e] eqn:E; simpl;
      [| discriminate].
    intros Hd [H | (r' & name_item & fill_item & tank & Hin & E0 & Ed & E2 & Et)].
    + apply (IH _ _ _ Hd). left. exact (tank_row_step_keeps _ _ _ _ _ E H).
    + destruct Hin as [<- | Hin].
      * apply (IH _ _ _ Hd). left.
        exact (tank_row_step_adds _ _ _ _ _ _ _ _ E E0 Ed E2 Et).
      * apply (IH _ _ _ Hd). right.
        exists r', name_item, fill_item, tank. repeat split; assumption.
Qed.

End EDITOR_TABLES.

(** X9: when the tank table was filled by [_populate_tanks_table] from
    the tanks of the ship, the tank volumes of a condition the editor
    builds have an entry for exactly the ids of those tanks, whatever the
    operator typed in the fill column. *)
Theorem populated_tank_table_yields_every_tank :
  forall fixed_text tanks volumes v condition tank_volumes pen_loadings,
    ConditionEditor._tank_table v
    = EditorTables._populate_tanks_table fixed_text tanks volumes ->
    ConditionEditor._on_compute tanks v
      = ConditionEditor.Built condition tank_volumes pen_loadings \/
    ConditionEditor._on_save_condition tanks v
      = ConditionEditor.Built condition tank_volumes pen_loadings ->
    forall k,
      (exists vol, dict_get Z.eqb k tank_volumes = Some vol) <->
      (exists tank, In tank tanks /\ Tank.id tank = Some k).
Proof.
  intros fixed_text tanks volumes v condition tank_volumes pen_loadings Ht H k.
  destruct (built_cases _ _ _ _ _ H) as (clamp & id & voyage & Hr & _ & _).
  split.
  - intros [vol Hv].
    destruct (read_tank_table_invariant _ _ _ Hr _ _ Hv)
      as (tank & p & Hin & Hid & _).
    exists tank. split; assumption.
  - intros (tank & Hin & Hid).
    unfold ConditionEditor.read_tank_table in Hr.
    apply (read_tank_keys _ _ _ _ k Hr). right.
    destruct (dict_of_pairs_present _ _ _ opt_Z_eqb_eq (Some k)
                (map (fun t => (Tank.id t, t)) tanks)) as [tank' Ht'].
    { rewrite map_map. simpl. rewrite <- Hid. apply in_map. exact Hin. }
    exists (EditorTables.tank_table_row fixed_text volumes tank).
    do 2 eexists. exists tank'.
    split; [rewrite Ht; apply in_map; exact Hin |].
    split; [reflexivity |]. split; [exact Hid |].
    split; [reflexivity | exact Ht'].
Qed.

Section EDITOR_PEN_TABLE.
Import ConditionEditor EditorTables.

Lemma pen_row_step_keeps clamp acc r acc' k :
  pen_row_step clamp acc r = Ok acc' ->
  (exists h, dict_get Z.eqb k acc = Some h) ->
  exists h, dict_get Z.eqb k acc' = Some h.
Proof.
  unfold pen_row_step. intros H Hk.
  destruct (item_at r 0) as [name_item|]; [| injection H as <-; exact Hk].
  destruct (item_at r 3) as [head_item|]; [| injection H as <-; exact Hk].
  destruct (data name_item) as [pen_id|]; [| injection H as <-; exact Hk].
  destruct (parse_heads (text head_item)) as [h|e]; simpl in H; [| discriminate].
  destruct (0 <? _)%Z; injection H as <-; [| exact Hk].
  apply (dict_set_keeps _ _ _ Z.eqb_eq). exact Hk.
Qed.

Lemma pen_row_step_adds clamp acc r acc' k name_item head_item h :
  pen_row_step clamp acc r = Ok acc' ->
  item_at r 0 = Some name_item -> data name_item = Some k ->
  item_at r 3 = Some head_item ->
  parse_heads (text head_item) = Ok h -> (0 < h)%Z ->
  dict_get Z.eqb k acc' = Some h.
Proof.
  unfold pen_row_step. intros H E0 Ed E3 Ep Hpos.
  rewrite E0, E3, Ed, Ep in H. simpl in H.
  replace (if clamp then Z.max 0 h else h) with h in H
    by (destruct clamp; lia).
  apply Z.ltb_lt in Hpos. rewrite Hpos in H. injection H as <-.
  apply (dict_get_set_same _ _ _ Z.eqb_eq).
Qed.

Lemma read_pen_keys clamp rows :
  forall acc d k,
    for_rows (pen_row_step clamp) rows acc = Ok d ->
    (exists h, dict_get Z.eqb k acc = Some h) \/
    (exists r name_item head_item h,
        In r rows /\ item_at r 0 = Some name_item /\
        data name_item = Some k /\ item_at r 3 = Some head_item /\
        parse_heads (text head_item) = Ok h /\ (0 < h)%Z) ->
    exists h, dict_get Z.eqb k d = Some h.
Proof.
  induction rows as [|r rows IH]; intros acc d k; simpl.
  - intros [= <-] [H | (r & _ & _ & _ & [] & _)]. exact H.
  - destruct (pen_row_step clamp acc r) as [acc1|e] eqn:E; simpl;
      [| discriminate].
    intros Hd [H | (r' & name_item & head_item & h & Hin & E0 & Ed & E3 & Ep & Hp)].
    + apply (IH _ _ _ Hd). left. exact (pen_row_step_keeps _ _ _ _ _ E H).
    + destruct Hin as [<- | Hin].
      * apply (IH _ _ _ Hd). left. exists h.
        exact (pen_row_step_adds _ _ _ _ _ _ _ _ E E0 Ed E3 Ep Hp).
      * apply (IH _ _ _ Hd). right.
        exists r', name_item, head_item, h. repeat split; assumption.
Qed.

(** The head count shown for a pen depends on its id only. *)
Lemma heads_of_same_id loadings pen pen' :
  LivestockPen.id pen = LivestockPen.id pen' ->
  ConditionTable.heads_of loadings pen = ConditionTable.heads_of loadings pen'.
Proof. unfold ConditionTable.heads_of. intros ->. reflexivity. Qed.

End EDITOR_PEN_TABLE.

(** X10: the head counts [_populate_pens_table] writes into the pen
    table are read back by the pen loop: for counts a float holds exactly
    (up to 2^53), the loop returns a dict in which a pen id maps to a
    count exactly when the count shown for a pen of that id is positive,
    and it never raises. *)
Theorem populated_pen_table_reads_back :
  forall fixed_text pens loadings clamp,
    (forall pen, In pen pens ->
       (Z.abs (ConditionTable.heads_of loadings pen) <= 2 ^ 53)%Z) ->
    exists pen_loadings,
      ConditionEditor.read_pen_table clamp
        (EditorTables._populate_pens_table fixed_text pens loadings)
      = Ok pen_loadings /\
      forall k h,
        dict_get Z.eqb k pen_loadings = Some h <->
        (0 < h)%Z /\
        exists pen, In pen pens /\ LivestockPen.id pen = Some k /\
                    ConditionTable.heads_of loadings pen = h.
Proof.
  intros fixed_text pens loadings clamp Hb.
  assert (Hret : exists d,
             ConditionEditor.read_pen_table clamp
               (EditorTables._populate_pens_table fixed_text pens loadings)
             = Ok d).
  { unfold ConditionEditor.read_pen_table. apply for_rows_returns.
    intros acc r Hin. apply in_map_iff in Hin. destruct Hin as (pen & <- & Hin).
    unfold ConditionEditor.pen_row_step. simpl.
    destruct (LivestockPen.id pen); [| eexists; reflexivity].
    rewrite (parse_heads_of_str _ (Hb pen Hin)). simpl.
    destruct (0 <? _)%Z; eexists; reflexivity. }
  destruct Hret as [d Hd]. exists d. split; [exact Hd |].
  assert (Hfwd : forall k h,
             dict_get Z.eqb k d = Some h ->
             (0 < h)%Z /\
             exists pen, In pen pens /\ LivestockPen.id pen = Some k /\
                         ConditionTable.heads_of loadings pen = h).
  { intros k h Hg.
    destruct (read_pen_table_invariant _ _ _ Hd _ _ Hg)
      as (Hpos & r & name_item & head_item & Hin & E0 & Ed & E3 & Ep).
    split; [exact Hpos |].
    apply in_map_iff in Hin. destruct Hin as (pen & <- & Hin).
    simpl in E0, E3. injection E0 as <-. injection E3 as <-. simpl in Ed, Ep.
    rewrite (parse_heads_of_str _ (Hb pen Hin)) in Ep. injection Ep as Ep.
    exists pen. repeat split; assumption. }
  intros k h. split; [apply Hfwd |].
  intros (Hpos & pen & Hin & Hid & Hh).
  unfold ConditionEditor.read_pen_table in Hd.
  destruct (read_pen_keys clamp _ _ _ k Hd) as [h' Hh'].
  { right. exists (EditorTables.pen_table_row fixed_text loadings pen).
    do 2 eexists. exists h.
    split; [apply in_map; exact Hin |].
    split; [reflexivity |]. split; [exact Hid |]. split; [reflexivity |].
    split; [| exact Hpos]. simpl. rewrite Hh.
    apply parse_heads_of_str. rewrite <- Hh. exact (Hb pen Hin). }
  destruct (Hfwd _ _ Hh') as (_ & pen' & _ & Hid' & Hheads').
  rewrite Hh'. f_equal. rewrite <- Hheads', <- Hh.
  apply heads_of_same_id. congruence.
Qed.

Lemma on_compute_fails_only_on_infinite_head_count_witness :
  ConditionEditor._on_compute Sample.tanks Sample.view_with_inf
  = ConditionEditor.Uncaught OverflowError.
Proof.
  apply (proj2 (on_compute_fails_only_on_infinite_head_count
                  Sample.tanks Sample.view_with_inf
                  {| ConditionEditor.ship_id := Some 1%Z |} 1%Z
                  eq_refl eq_refl eq_refl)).
  exists [Sample.name_item "PEN 2-1" 2; Sample.text_item "B";
          Sample.text_item "60.00"; Sample.text_item "inf"].
  split; [right; left; reflexivity |].
  do 3 eexists. exists false.
  repeat split; vm_compute; reflexivity.
Defined.

Lemma handlers_build_the_same_condition_witness :
  ConditionEditor.built_volumes
    (ConditionEditor._on_compute Sample.tanks Sample.view)
  = ConditionEditor.built_volumes
      (ConditionEditor._on_save_condition Sample.tanks Sample.view).
Proof.
  refine (proj1 (proj2
    (handlers_build_the_same_condition Sample.tanks Sample.view
       (ConditionEditor.new_condition VNone (VInt 3) "Departure"
          (ConditionEditor.built_volumes
             (ConditionEditor._on_compute Sample.tanks Sample.view))
          (ConditionEditor.built_loadings
             (ConditionEditor._on_compute Sample.tanks Sample.view)))
       (ConditionEditor.built_volumes
          (ConditionEditor._on_compute Sample.tanks Sample.view))
       (ConditionEditor.built_loadings
          (ConditionEditor._on_compute Sample.tanks Sample.view))
       (ConditionEditor.new_condition VNone (VInt 3) "Departure"
          (ConditionEditor.built_volumes
             (ConditionEditor._on_save_condition Sample.tanks Sample.view))
          (ConditionEditor.built_loadings
             (ConditionEditor._on_save_condition Sample.tanks Sample.view)))
       (ConditionEditor.built_volumes
          (ConditionEditor._on_save_condition Sample.tanks Sample.view))
       (ConditionEditor.built_loadings
          (ConditionEditor._on_save_condition Sample.tanks Sample.view))
       _ _))); vm_compute; reflexivity.
Defined.

Lemma populated_tank_table_yields_every_tank_witness :
  (exists vol,
      dict_get Z.eqb 2%Z
        (ConditionEditor.built_volumes
           (ConditionEditor._on_compute Sample.tanks Sample.populated_view))
      = Some vol) <->
  (exists tank, In tank Sample.tanks /\ Tank.id tank = Some 2%Z).
Proof.
  refine (populated_tank_table_yields_every_tank Sample.render Sample.tanks
            Sample.tank_volumes Sample.populated_view
            (ConditionEditor.new_condition VNone (VInt 3) "Arrival"
               (ConditionEditor.built_volumes
                  (ConditionEditor._on_compute Sample.tanks
                     Sample.populated_view))
               (ConditionEditor.built_loadings
                  (ConditionEditor._on_compute Sample.tanks
                     Sample.populated_view)))
            _ _ eq_refl (or_introl _) 2%Z).
  vm_compute. reflexivity.
Defined.

Lemma populated_pen_table_reads_back_witness :
  exists pen_loadings,
    ConditionEditor.read_pen_table true
      (EditorTables._populate_pens_table Sample.render Sample.pens
         Sample.pen_loadings)
    = Ok pen_loadings /\
    (dict_get Z.eqb 2%Z pen_loadings = Some 11%Z <->
     (0 < 11)%Z /\
     exists pen, In pen Sample.pens /\ LivestockPen.id pen = Some 2%Z /\
                 ConditionTable.heads_of Sample.pen_loadings pen = 11%Z).
Proof.
  destruct (populated_pen_table_reads_back Sample.render Sample.pens
              Sample.pen_loadings true) as (pl & Hpl & Hiff).
  - intros pen [<- | [<- | []]]; vm_compute; discriminate.
  - exists pl. split; [exact Hpl | apply Hiff].
Defined.

(** ** The condition table: what the tabs hold *)

Section WIDGET_FACTS.
Import ConditionTable.

(** Setting a key a dict has keeps the keys of the dict and their
    order. *)
Lemma dict_set_keys (V : Type) (k : string) (v v0 : V) (d : dict string V) :
  dict_get String.eqb k d = Some v0 ->
  map fst (dict_set String.eqb k v d) = map fst d.
Proof.
  induction d as [|[k' v'] d IH]; simpl; [discriminate |].
  destruct (String.eqb k k') eqn:E; simpl; [reflexivity |].
  intros H. rewrite (IH H). reflexivity.
Qed.

Lemma append_rows_keys tab_name rows (w : widgets) :
  map fst (append_rows tab_name rows w) = map fst w.
Proof.
  unfold append_rows, table_of.
  destruct (dict_get String.eqb tab_name w) as [t|] eqn:E; [| reflexivity].
  exact (dict_set_keys _ _ _ _ _ E).
Qed.

Lemma table_of_append_same tab_name rows (w : widgets) t :
  table_of tab_name w = Some t ->
  table_of tab_name (append_rows tab_name rows w) = Some (t ++ rows)%list.
Proof.
  unfold append_rows, table_of. intros E. rewrite E.
  apply (dict_get_set_same _ _ _ String.eqb_eq).
Qed.

Lemma table_of_append_other tab_name other rows (w : widgets) :
  String.eqb other tab_name = false ->
  table_of other (append_rows tab_name rows w) = table_of other w.
Proof.
  unfold append_rows, table_of. intros E.
  destruct (dict_get String.eqb tab_name w); [| reflexivity].
  apply (dict_get_set_other _ _ _ String.eqb_eq).
  intros ->. rewrite String.eqb_refl in E. discriminate.
Qed.

(** What [update_data] makes of a widget depends on its tabs only, not
    on the rows they hold. *)
Lemma update_data_keys pens tanks pl tv (w : widgets) :
  map fst (update_data pens tanks pl tv w) = map fst w.
Proof.
  unfold update_data, _populate_all_tab, _populate_tank_tabs.
  rewrite !append_rows_keys.
  assert (G : forall l (w0 : widgets),
             map fst (fold_left
               (fun w' deck_num =>
                  _populate_livestock_tab
                    ("Livestock-DK" ++ str_of_int deck_num)%string
                    pens pl (deck_letter_of deck_num) w') l w0)
             = map fst w0).
  { induction l as [|n l IH]; intros w0; simpl; [reflexivity |].
    rewrite IH. apply append_rows_keys. }
  rewrite G. rewrite map_map. reflexivity.
Qed.

Lemma cleared_by_keys (w w' : widgets) :
  map fst w = map fst w' ->
  map (fun kv => (fst kv, @nil row)) w = map (fun kv => (fst kv, @nil row)) w'.
Proof.
  revert w'. induction w as [|[k t] w IH]; intros [|[k' t'] w']; simpl;
    try discriminate; [reflexivity |].
  intros [= -> H]. rewrite (IH _ H). reflexivity.
Qed.

Lemma table_of_append_fresh tab_name rows (w : widgets) :
  table_of tab_name w = Some [] ->
  table_of tab_name (append_rows tab_name rows w) = Some rows.
Proof. intros E. rewrite (table_of_append_same _ _ _ _ E). reflexivity. Qed.

End WIDGET_FACTS.

(** Looks a tab up in a widget that a chain of [append_rows] made of the
    cleared tabs. *)
Ltac tab_lookup :=
  lazymatch goal with
  | |- ConditionTable.table_of ?n (ConditionTable.append_rows ?m ?rows ?w) = _ =>
      first
        [ rewrite (table_of_append_other m n rows w) by reflexivity; tab_lookup
        | apply table_of_append_fresh; tab_lookup ]
  | |- _ => vm_compute; reflexivity
  end.

(** X11: [update_data] does not accumulate rows: what it shows depends
    on its arguments and on the tabs of the widget only, so updating a
    widget that was updated before gives the same tables as updating it
    once. *)
Theorem update_data_does_not_accumulate :
  forall pens tanks pl tv pens' tanks' pl' tv' w,
    ConditionTable.update_data pens tanks pl tv
      (ConditionTable.update_data pens' tanks' pl' tv' w)
    = ConditionTable.update_data pens tanks pl tv w.
Proof.
  intros pens tanks pl tv pens' tanks' pl' tv' w.
  unfold ConditionTable.update_data at 1 3.
  rewrite (cleared_by_keys _ w (update_data_keys pens' tanks' pl' tv' w)).
  reflexivity.
Qed.

(** X12: after [update_data] on a widget with the tabs [_create_tabs]
    makes, the tab "Livestock-DKn" holds the rows of the pens whose deck
    is the n-th letter, "Misc. Tanks" holds one row per tank in the order
    given, whatever the type of the tank, "All" holds the loaded pens and
    tanks, and the tank-type tabs, "Dung", "Fodder Hold", "Misc.
    Weights", "Spaces" and "Selected" are empty. *)
Theorem update_data_fills_tabs :
  forall pens tanks pl tv w,
    map fst w = ConditionTable.tab_names ->
    (forall n, In n [1; 2; 3; 4; 5; 6; 7; 8]%Z ->
       ConditionTable.table_of ("Livestock-DK" ++ str_of_int n)%string
         (ConditionTable.update_data pens tanks pl tv w)
       = Some (ConditionTable.livestock_rows pens pl
                 (ConditionTable.deck_letter_of n))) /\
    ConditionTable.table_of "Misc. Tanks"
      (ConditionTable.update_data pens tanks pl tv w)
    = Some (map (ConditionTable.tank_row tv) tanks) /\
    ConditionTable.table_of "All"
      (ConditionTable.update_data pens tanks pl tv w)
    = Some (ConditionTable.all_rows pens tanks pl tv) /\
    (forall tab,
        In tab [ "Water Ballast"; "Fresh Water"; "Heavy Fuel Oil";
                 "Diesel Oil"; "Lube Oil"; "Gray Water"; "Dung";
                 "Fodder Hold"; "Misc. Weights"; "Spaces"; "Selected" ]%string ->
        ConditionTable.table_of tab
          (ConditionTable.update_data pens tanks pl tv w) = Some []).
Proof.
  intros pens tanks pl tv w Hw.
  assert (E : map (fun kv => (fst kv, @nil ConditionTable.row)) w
              = ConditionTable._create_tabs).
  { rewrite (cleared_by_keys w ConditionTable._create_tabs);
      [| rewrite Hw]; vm_compute; reflexivity. }
  unfold ConditionTable.update_data, ConditionTable._populate_all_tab,
    ConditionTable._populate_tank_tabs, ConditionTable._populate_livestock_tab.
  rewrite E. cbn [fold_left].
  split; [| split; [| split]].
  - intros n Hn. simpl in Hn.
    repeat (destruct Hn as [<- | Hn]; [tab_lookup |]).
    destruct Hn.
  - tab_lookup.
  - tab_lookup.
  - intros tab Ht. simpl in Ht.
    repeat (destruct Ht as [<- | Ht]; [tab_lookup |]).
    destruct Ht.
Qed.

Section DECK_FACTS.
Import ConditionTable.

Lemma str_length (l : list ascii) : String.length (str l) = List.length l.
Proof. induction l as [|c l IH]; simpl; [| rewrite IH]; reflexivity. Qed.

Lemma chars_length (s : string) : List.length (chars s) = String.length s.
Proof. induction s as [|c s IH]; simpl; [| rewrite IH]; reflexivity. Qed.

(** [upper] keeps the length of a text. *)
Lemma upper_length (s : string) : String.length (upper s) = String.length s.
Proof.
  unfold upper. rewrite str_length, length_map. apply chars_length.
Qed.

Lemma deck_pens_label pens deck_letter pen :
  In pen (deck_pens_of pens deck_letter) <->
  In pen pens /\ upper (strip (LivestockPen.deck pen)) = upper deck_letter.
Proof.
  unfold deck_pens_of. rewrite filter_In. unfold on_deck.
  assert (E : str_or (LivestockPen.deck pen) "" = LivestockPen.deck pen)
    by (destruct (LivestockPen.deck pen); reflexivity).
  rewrite E. rewrite String.eqb_eq. reflexivity.
Qed.

End DECK_FACTS.

(** X13: a pen is listed under the deck tab n only when its deck label,
    stripped and in upper case, is the single letter of that deck (A for
    1, ..., H for 8), and then under no other deck tab; a pen whose
    label is longer than one character, such as "DK1", is listed under
    no deck tab. *)
Theorem pen_shown_under_one_deck_at_most :
  forall pens pen n,
    In n [1; 2; 3; 4; 5; 6; 7; 8]%Z ->
    In pen (ConditionTable.deck_pens_of pens (ConditionTable.deck_letter_of n)) ->
    upper (strip (LivestockPen.deck pen)) = ConditionTable.deck_letter_of n /\
    String.length (strip (LivestockPen.deck pen)) = 1%nat /\
    (forall m, In m [1; 2; 3; 4; 5; 6; 7; 8]%Z ->
       In pen (ConditionTable.deck_pens_of pens (ConditionTable.deck_letter_of m)) ->
       m = n).
Proof.
  intros pens pen n Hn Hin.
  apply deck_pens_label in Hin. destruct Hin as [_ Hl].
  assert (Hu : upper (ConditionTable.deck_letter_of n)
               = ConditionTable.deck_letter_of n).
  { simpl in Hn.
    repeat (destruct Hn as [<- | Hn]; [reflexivity |]). destruct Hn. }
  rewrite Hu in Hl. split; [exact Hl |]. split.
  - rewrite <- upper_length, Hl. simpl in Hn.
    repeat (destruct Hn as [<- | Hn]; [reflexivity |]). destruct Hn.
  - intros m Hm Hin'. apply deck_pens_label in Hin'. destruct Hin' as [_ Hl'].
    rewrite Hl in Hl'. simpl in Hn, Hm.
    repeat (destruct Hn as [<- | Hn]; [
      repeat (destruct Hm as [<- | Hm];
              [first [reflexivity | vm_compute in Hl'; discriminate Hl'] |]);
      destruct Hm |]).
    destruct Hn.
Qed.

Section TOTALS.
Import ConditionTable.

Lemma deck_totals_sums pen_loadings deck_pens :
  forall w u a,
    let tot :=
      fold_left
        (fun tot pen =>
           let '(total_weight, total_area_used, total_area) := tot in
           let heads := heads_of pen_loadings pen in
           (total_weight + pen_weight_mt heads,
            total_area_used + pen_area_used pen heads,
            total_area + LivestockPen.area_m2 pen))
        deck_pens (w, u, a) in
    fst (fst tot)
    == w + fold_right Qplus 0
             (map (fun pen => pen_weight_mt (heads_of pen_loadings pen)) deck_pens)
    /\ snd (fst tot)
       == u + fold_right Qplus 0
                (map (fun pen => pen_area_used pen (heads_of pen_loadings pen))
                     deck_pens)
    /\ snd tot == a + fold_right Qplus 0 (map LivestockPen.area_m2 deck_pens).
Proof.
  induction deck_pens as [|pen l IH]; intros w u a; simpl.
  - repeat split; ring.
  - destruct (IH (w + pen_weight_mt (heads_of pen_loadings pen))
                 (u + pen_area_used pen (heads_of pen_loadings pen))
                 (a + LivestockPen.area_m2 pen)) as (H1 & H2 & H3).
    simpl in H1, H2, H3. rewrite H1, H2, H3. repeat split; ring.
Qed.

End TOTALS.

(** X14: a deck tab with pens ends with one totals row, after one row
    per pen of the deck: its weight is the mass per head times the heads
    of the deck, its used area the area of the pens that hold animals,
    its total area the area of all pens of the deck. *)
Theorem deck_tab_ends_with_totals :
  forall pens pen_loadings deck_letter,
    ConditionTable.deck_pens_of pens deck_letter <> [] ->
    exists total_weight total_area_used total_area,
      ConditionTable.livestock_rows pens pen_loadings deck_letter
      = (map (ConditionTable.livestock_row pen_loadings)
             (ConditionTable.deck_pens_of pens deck_letter)
         ++ [ConditionTable.totals_row deck_letter
               (total_weight, total_area_used, total_area)])%list /\
      total_weight
      == ConditionTable.MASS_PER_HEAD_T
         * inject_Z (fold_right Z.add 0%Z
                       (map (ConditionTable.heads_of pen_loadings)
                            (ConditionTable.deck_pens_of pens deck_letter))) /\
      total_area_used
      == fold_right Qplus 0
           (map (fun pen =>
                   ConditionTable.pen_area_used pen
                     (ConditionTable.heads_of pen_loadings pen))
                (ConditionTable.deck_pens_of pens deck_letter)) /\
      total_area
      == fold_right Qplus 0
           (map LivestockPen.area_m2
                (ConditionTable.deck_pens_of pens deck_letter)).
Proof.
  intros pens pen_loadings deck_letter Hne.
  unfold ConditionTable.livestock_rows.
  destruct (ConditionTable.deck_totals pen_loadings
              (ConditionTable.deck_pens_of pens deck_letter))
    as [[w u] a] eqn:Et.
  exists w, u, a.
  destruct (deck_totals_sums pen_loadings
              (ConditionTable.deck_pens_of pens deck_letter) 0.0 0.0 0.0)
    as (H1 & H2 & H3).
  unfold ConditionTable.deck_totals in Et.
  cbv zeta in Et, H1, H2, H3. rewrite Et in H1, H2, H3.
  simpl in H1, H2, H3.
  split.
  - destruct (ConditionTable.deck_pens_of pens deck_letter);
      [contradiction Hne; reflexivity | reflexivity].
  - split; [| split].
    + rewrite H1.
      generalize (ConditionTable.deck_pens_of pens deck_letter). intros l.
      induction l as [|p l IH]; simpl.
      * reflexivity.
      * unfold ConditionTable.pen_weight_mt at 1.
        rewrite inject_Z_plus.
        assert (E : 0.0 + fold_right Qplus 0
                     (map (fun pen =>
                        ConditionTable.pen_weight_mt
                          (ConditionTable.heads_of pen_loadings pen)) l)
                    == ConditionTable.MASS_PER_HEAD_T
                       * inject_Z (fold_right Z.add 0%Z
                           (map (ConditionTable.heads_of pen_loadings) l)))
          by exact IH.
        lra.
    + rewrite H2. lra.
    + rewrite H3. lra.
Qed.

(** X15: the "All" tab is empty exactly when no pen has a head count
    other than zero and no tank has a volume other than zero. *)
Theorem all_tab_empty_iff_nothing_loaded :
  forall pens tanks pen_loadings tank_volumes,
    ConditionTable.all_rows pens tanks pen_loadings tank_volumes = [] <->
    (forall pen, In pen pens ->
       ConditionTable.heads_of pen_loadings pen = 0%Z) /\
    (forall tank, In tank tanks ->
       feqb (ConditionTable.volume_of tank_volumes tank) (Fin 0.0) = true).
Proof.
  intros pens tanks pen_loadings tank_volumes.
  unfold ConditionTable.all_rows. split.
  - intros H. apply app_eq_nil in H. destruct H as [Hp Ht].
    apply map_eq_nil in Hp. apply map_eq_nil in Ht. split.
    + intros pen Hin.
      destruct (Z.eqb_spec (ConditionTable.heads_of pen_loadings pen) 0)
        as [E | E]; [exact E |].
      exfalso.
      assert (Hf : In pen (filter
                (fun pen => negb (ConditionTable.heads_of pen_loadings pen =? 0)%Z)
                pens)).
      { apply filter_In. split; [exact Hin |].
        apply Z.eqb_neq in E. rewrite E. reflexivity. }
      rewrite Hp in Hf. destruct Hf.
    + intros tank Hin.
      destruct (feqb (ConditionTable.volume_of tank_volumes tank) (Fin 0.0))
        eqn:E; [reflexivity |].
      exfalso.
      assert (Hf : In tank (filter
                (fun tank => negb (feqb (ConditionTable.volume_of tank_volumes tank)
                                        (Fin 0.0))) tanks)).
      { apply filter_In. split; [exact Hin |]. rewrite E. reflexivity. }
      rewrite Ht in Hf. destruct Hf.
  - intros [Hp Ht].
    assert (E1 : filter
              (fun pen => negb (ConditionTable.heads_of pen_loadings pen =? 0)%Z)
              pens = []).
    { induction pens as [|p l IH]; simpl; [reflexivity |].
      rewrite (Hp p (or_introl eq_refl)). simpl.
      apply IH. intros q Hq. apply Hp. right. exact Hq. }
    assert (E2 : filter
              (fun tank => negb (feqb (ConditionTable.volume_of tank_volumes tank)
                                      (Fin 0.0))) tanks = []).
    { induction tanks as [|t l IH]; simpl; [reflexivity |].
      rewrite (Ht t (or_introl eq_refl)). simpl.
      apply IH. intros q Hq. apply Ht. right. exact Hq. }
    rewrite E1, E2. reflexivity.
Qed.

Lemma update_data_fills_tabs_witness :
  ConditionTable.table_of "Misc. Tanks"
    (ConditionTable.update_data Sample.pens Sample.tanks Sample.pen_loadings
       Sample.tank_volumes ConditionTable._create_tabs)
  = Some (map (ConditionTable.tank_row Sample.tank_volumes) Sample.tanks).
Proof.
  refine (proj1 (proj2
    (update_data_fills_tabs Sample.pens Sample.tanks Sample.pen_loadings
       Sample.tank_volumes ConditionTable._create_tabs _))).
  vm_compute. reflexivity.
Defined.

Lemma pen_shown_under_one_deck_at_most_witness :
  upper (strip (LivestockPen.deck Sample.pen_b1)) = "B"%string /\
  String.length (strip (LivestockPen.deck Sample.pen_b1)) = 1%nat.
Proof.
  destruct (pen_shown_under_one_deck_at_most Sample.pens Sample.pen_b1 2%Z)
    as (H1 & H2 & _).
  - right. left. reflexivity.
  - vm_compute. left. reflexivity.
  - split; [exact H1 | exact H2].
Defined.

Lemma deck_tab_ends_with_totals_witness :
  exists total_weight total_area_used total_area,
    ConditionTable.livestock_rows Sample.pens Sample.pen_loadings "A"
    = (map (ConditionTable.livestock_row Sample.pen_loadings)
           (ConditionTable.deck_pens_of Sample.pens "A")
       ++ [ConditionTable.totals_row "A"
             (total_weight, total_area_used, total_area)])%list /\
    total_weight
    == ConditionTable.MASS_PER_HEAD_T
       * inject_Z (fold_right Z.add 0%Z
                     (map (ConditionTable.heads_of Sample.pen_loadings)
                          (ConditionTable.deck_pens_of Sample.pens "A"))).
Proof.
  destruct (deck_tab_ends_with_totals Sample.pens Sample.pen_loadings "A")
    as (w & u & a & H1 & H2 & _).
  - vm_compute. discriminate.
  - exists w, u, a. split; [exact H1 | exact H2].
Defined.

(* ------------------------------------------------------------------ *)
(** ** The condition table: the weight shown for a pen and for a tank  *)
(* ------------------------------------------------------------------ *)

Section TABS_AFTER_UPDATE.
Import ConditionTable.

(** Clearing the tabs [_create_tabs] made gives back those tabs. *)
Lemma cleared_created (w : widgets) :
  map fst w = tab_names ->
  map (fun kv => (fst kv, @nil row)) w = _create_tabs.
Proof.
  intros Hw. rewrite (cleared_by_keys w _create_tabs);
    [| rewrite Hw]; vm_compute; reflexivity.
Qed.

Lemma deck_tab_after_update pens tanks pl tv (w : widgets) n :
  map fst w = tab_names ->
  In n [1; 2; 3; 4; 5; 6; 7; 8]%Z ->
  table_of ("Livestock-DK" ++ str_of_int n)%string
    (update_data pens tanks pl tv w)
  = Some (livestock_rows pens pl (deck_letter_of n)).
Proof.
  intros Hw Hn.
  unfold update_data, _populate_all_tab, _populate_tank_tabs,
    _populate_livestock_tab.
  rewrite (cleared_created w Hw). cbn [fold_left].
  simpl in Hn.
  repeat (destruct Hn as [<- | Hn]; [tab_lookup |]).
  destruct Hn.
Qed.

Lemma tanks_tab_after_update pens tanks pl tv (w : widgets) :
  map fst w = tab_names ->
  table_of "Misc. Tanks" (update_data pens tanks pl tv w)
  = Some (map (tank_row tv) tanks).
Proof.
  intros Hw.
  unfold update_data, _populate_all_tab, _populate_tank_tabs,
    _populate_livestock_tab.
  rewrite (cleared_created w Hw). cbn [fold_left]. tab_lookup.
Qed.

Lemma all_tab_after_update pens tanks pl tv (w : widgets) :
  map fst w = tab_names ->
  table_of "All" (update_data pens tanks pl tv w)
  = Some (all_rows pens tanks pl tv).
Proof.
  intros Hw.
  unfold update_data, _populate_all_tab, _populate_tank_tabs,
    _populate_livestock_tab.
  rewrite (cleared_created w Hw). cbn [fold_left]. tab_lookup.
Qed.

(** The letters of the eight decks are capitals. *)
Lemma deck_letter_upper n :
  In n [1; 2; 3; 4; 5; 6; 7; 8]%Z ->
  upper (deck_letter_of n) = deck_letter_of n.
Proof.
  intros Hn. simpl in Hn.
  repeat (destruct Hn as [<- | Hn]; [reflexivity |]). destruct Hn.
Qed.

End TABS_AFTER_UPDATE.

(** C6: for every pen, with h the head count the loading holds for it
    (0 when it holds none), the row of the pen in the tab of its deck,
    and in the "All" tab when h is not zero, shows h in the column of
    the heads and h multiplied by the mass-per-head constant in the
    column "Weight MT"; the constant is 0.5 t/head in the widget and in
    the limits configuration, and a pen with zero heads gets zero
    weight. *)
Theorem pen_weight_is_heads_times_mass_per_head :
  forall pens tanks pen_loadings tank_volumes w pen,
    map fst w = ConditionTable.tab_names ->
    In pen pens ->
    let key := match LivestockPen.id pen with
               | Some k => if (k =? 0)%Z then (-1)%Z else k
               | None => (-1)%Z
               end in
    let heads := dict_get_default Z.eqb key 0%Z pen_loadings in
    let shown :=
      ConditionTable.update_data pens tanks pen_loadings tank_volumes w in
    (forall n,
        In n [1; 2; 3; 4; 5; 6; 7; 8]%Z ->
        upper (strip (LivestockPen.deck pen)) = ConditionTable.deck_letter_of n ->
        exists tab row,
          ConditionTable.table_of ("Livestock-DK" ++ str_of_int n)%string shown
          = Some tab /\
          In row tab /\
          nth_error row 0 = Some (ConditionTable.Text (LivestockPen.name pen)) /\
          nth_error row 2 = Some (ConditionTable.Text (str_of_int heads)) /\
          ConditionTable.weight_cell row
          = Some (ConditionTable.Fixed 2
                    (Fin (inject_Z heads * ConditionTable.MASS_PER_HEAD_T)))) /\
    (heads <> 0%Z ->
     exists tab row,
       ConditionTable.table_of "All" shown = Some tab /\
       In row tab /\
       nth_error row 0 = Some (ConditionTable.Text (LivestockPen.name pen)) /\
       nth_error row 2 = Some (ConditionTable.Text (str_of_int heads)) /\
       ConditionTable.weight_cell row
       = Some (ConditionTable.Fixed 2
                 (Fin (inject_Z heads * ConditionTable.MASS_PER_HEAD_T)))) /\
    ConditionTable.MASS_PER_HEAD_T == 1 # 2 /\
    Limits.MASS_PER_HEAD_T == 1 # 2 /\
    (heads = 0%Z -> inject_Z heads * ConditionTable.MASS_PER_HEAD_T == 0).
Proof.
  intros pens tanks pen_loadings tank_volumes w pen Hw Hin key heads shown.
  split; [| split; [| split; [| split]]].
  - intros n Hn Hdeck.
    exists (ConditionTable.livestock_rows pens pen_loadings
              (ConditionTable.deck_letter_of n)),
           (ConditionTable.livestock_row pen_loadings pen).
    split; [exact (deck_tab_after_update pens tanks pen_loadings tank_volumes
                     w n Hw Hn) |].
    split; [| repeat split].
    unfold ConditionTable.livestock_rows. apply in_or_app. left.
    apply in_map. apply deck_pens_label. split; [exact Hin |].
    rewrite (deck_letter_upper n Hn). exact Hdeck.
  - intros Hh.
    exists (ConditionTable.all_rows pens tanks pen_loadings tank_volumes),
           (ConditionTable.all_pen_row pen_loadings pen).
    split; [exact (all_tab_after_update pens tanks pen_loadings tank_volumes
                     w Hw) |].
    split; [| repeat split].
    unfold ConditionTable.all_rows. apply in_or_app. left.
    apply in_map. apply filter_In. split; [exact Hin |].
    apply negb_true_iff. apply Z.eqb_neq. exact Hh.
  - reflexivity.
  - reflexivity.
  - intros ->. reflexivity.
Qed.

Lemma pen_weight_is_heads_times_mass_per_head_witness :
  exists tab row,
    ConditionTable.table_of "Livestock-DK2"
      (ConditionTable.update_data Sample.pens Sample.tanks
         Sample.pen_loadings Sample.tank_volumes ConditionTable._create_tabs)
    = Some tab /\
    In row tab /\
    nth_error row 0 = Some (ConditionTable.Text "PEN 2-1") /\
    nth_error row 2 = Some (ConditionTable.Text "11") /\
    ConditionTable.weight_cell row
    = Some (ConditionTable.Fixed 2
              (Fin (inject_Z 11 * ConditionTable.MASS_PER_HEAD_T))).
Proof.
  assert (Hin : In Sample.pen_b1 Sample.pens) by (right; left; reflexivity).
  destruct (pen_weight_is_heads_times_mass_per_head
              Sample.pens Sample.tanks Sample.pen_loadings Sample.tank_volumes
              ConditionTable._create_tabs Sample.pen_b1 eq_refl Hin)
    as [H _].
  destruct (H 2%Z (or_intror (or_introl eq_refl)) eq_refl)
    as (tab & row & H1 & H2 & H3 & H4 & H5).
  exists tab, row. repeat split; assumption.
Defined.

(** C5, amended: for every tank, whatever its cargo, with v the volume
    supplied for it (0.0 when none is), the row of the tank in the
    "Misc. Tanks" tab, and in the "All" tab when v is not zero, shows in
    the column "Weight MT" v multiplied by the sea-water density
    1.025 t/m3, the same density for all tanks. *)
Theorem tank_weight_is_volume_times_sea_water_density :
  forall pens tanks pen_loadings tank_volumes w tank,
    map fst w = ConditionTable.tab_names ->
    In tank tanks ->
    let key := match Tank.id tank with
               | Some k => if (k =? 0)%Z then (-1)%Z else k
               | None => (-1)%Z
               end in
    let vol := dict_get_default Z.eqb key (Fin 0.0) tank_volumes in
    let shown :=
      ConditionTable.update_data pens tanks pen_loadings tank_volumes w in
    (exists tab row,
        ConditionTable.table_of "Misc. Tanks" shown = Some tab /\
        In row tab /\
        nth_error row 0 = Some (ConditionTable.Text (Tank.name tank)) /\
        ConditionTable.weight_cell row
        = Some (ConditionTable.Fixed 2 (fmul vol (Fin (1025 # 1000))))) /\
    (feqb vol (Fin 0.0) = false ->
     exists tab row,
       ConditionTable.table_of "All" shown = Some tab /\
       In row tab /\
       nth_error row 0 = Some (ConditionTable.Text (Tank.name tank)) /\
       ConditionTable.weight_cell row
       = Some (ConditionTable.Fixed 2 (fmul vol (Fin (1025 # 1000))))) /\
    (forall v, vol = Fin v ->
       fmul vol (Fin (1025 # 1000)) = Fin (v * (1025 # 1000))).
Proof.
  intros pens tanks pen_loadings tank_volumes w tank Hw Hin key vol shown.
  split; [| split].
  - exists (map (ConditionTable.tank_row tank_volumes) tanks),
           (ConditionTable.tank_row tank_volumes tank).
    split; [exact (tanks_tab_after_update pens tanks pen_loadings
                     tank_volumes w Hw) |].
    split; [apply in_map; exact Hin | split; reflexivity].
  - intros Hv.
    exists (ConditionTable.all_rows pens tanks pen_loadings tank_volumes),
           (ConditionTable.tank_row tank_volumes tank).
    split; [exact (all_tab_after_update pens tanks pen_loadings tank_volumes
                     w Hw) |].
    split; [| split; reflexivity].
    unfold ConditionTable.all_rows. apply in_or_app. right.
    apply in_map. apply filter_In. split; [exact Hin |].
    apply negb_true_iff. exact Hv.
  - intros v ->. reflexivity.
Qed.

Lemma tank_weight_is_volume_times_sea_water_density_witness :
  exists tab row,
    ConditionTable.table_of "Misc. Tanks"
      (ConditionTable.update_data Sample.pens Sample.tanks
         Sample.pen_loadings Sample.tank_volumes ConditionTable._create_tabs)
    = Some tab /\
    In row tab /\
    nth_error row 0 = Some (ConditionTable.Text "HFO 1 P") /\
    ConditionTable.weight_cell row
    = Some (ConditionTable.Fixed 2 (Fin (100.0 * (1025 # 1000)))).
Proof.
  assert (Hin : In Sample.tank_fo Sample.tanks) by (left; reflexivity).
  destruct (tank_weight_is_volume_times_sea_water_density
              Sample.pens Sample.tanks Sample.pen_loadings Sample.tank_volumes
              ConditionTable._create_tabs Sample.tank_fo eq_refl Hin)
    as [(tab & row & H1 & H2 & H3 & H4) _].
  exists tab, row. repeat split; assumption.
Defined.

(* ------------------------------------------------------------------ *)
(** ** The pens repository: what is stored, found and listed           *)
(* ------------------------------------------------------------------ *)

Section PEN_REPOSITORY.
Import PenRepository.
Local Open Scope Z_scope.

Lemma db_get_In (k : Z) (db : table) (obj : LivestockPenORM.t) :
  db_get k db = Some obj -> In obj db /\ LivestockPenORM.id obj = k.
Proof.
  unfold db_get. intros H. apply find_some in H. destruct H as [H1 H2].
  split; [exact H1 | now apply Z.eqb_eq].
Qed.

Lemma db_get_None (k : Z) (db : table) :
  db_get k db = None <-> ~ In k (map LivestockPenORM.id db).
Proof.
  unfold db_get. induction db as [|o db IH]; simpl.
  - tauto.
  - destruct (Z.eqb_spec (LivestockPenORM.id o) k) as [E|E].
    + split; [discriminate | intros H; exfalso; apply H; now left].
    + rewrite IH. tauto.
Qed.

Lemma next_id_above (db : table) (obj : LivestockPenORM.t) :
  In obj db -> LivestockPenORM.id obj < next_id db.
Proof.
  unfold next_id. induction db as [|o db IH]; cbn [In map fold_right]; [tauto|].
  intros [->|H]; [lia | specialize (IH H); lia].
Qed.

Lemma next_id_fresh (db : table) : ~ In (next_id db) (map LivestockPenORM.id db).
Proof.
  intros H. apply in_map_iff in H. destruct H as [o [E H]].
  apply next_id_above in H. lia.
Qed.

Lemma db_get_app (k : Z) (db : table) (obj : LivestockPenORM.t) :
  db_get k (db ++ [obj]) =
  match db_get k db with
  | Some o => Some o
  | None => if LivestockPenORM.id obj =? k then Some obj else None
  end.
Proof.
  unfold db_get. induction db as [|o db IH]; simpl.
  - reflexivity.
  - destruct (LivestockPenORM.id o =? k); [reflexivity | exact IH].
Qed.

Lemma db_get_replace_same (k : Z) (f : LivestockPenORM.t -> LivestockPenORM.t)
    (db : table) (obj : LivestockPenORM.t) :
  (forall o, LivestockPenORM.id (f o) = LivestockPenORM.id o) ->
  db_get k db = Some obj -> db_get k (replace_row k f db) = Some (f obj).
Proof.
  intros Hf. unfold db_get. induction db as [|o db IH]; simpl; [discriminate|].
  destruct (LivestockPenORM.id o =? k) eqn:E; simpl.
  - intros [= ->]. rewrite Hf, E. reflexivity.
  - rewrite E. exact IH.
Qed.

Lemma db_get_replace_other (k j : Z) (f : LivestockPenORM.t -> LivestockPenORM.t)
    (db : table) :
  (forall o, LivestockPenORM.id (f o) = LivestockPenORM.id o) ->
  j <> k -> db_get j (replace_row k f db) = db_get j db.
Proof.
  intros Hf Hjk. unfold db_get. induction db as [|o db IH]; simpl; [reflexivity|].
  destruct (Z.eqb_spec (LivestockPenORM.id o) k) as [E|E]; simpl.
  - rewrite Hf. destruct (Z.eqb_spec (LivestockPenORM.id o) j); [lia | reflexivity].
  - destruct (LivestockPenORM.id o =? j); [reflexivity | exact IH].
Qed.

Lemma replace_row_keys (k : Z) (f : LivestockPenORM.t -> LivestockPenORM.t)
    (db : table) :
  (forall o, LivestockPenORM.id (f o) = LivestockPenORM.id o) ->
  map LivestockPenORM.id (replace_row k f db) = map LivestockPenORM.id db.
Proof.
  intros Hf. induction db as [|o db IH]; simpl; [reflexivity|].
  destruct (LivestockPenORM.id o =? k); simpl; [now rewrite Hf | now rewrite IH].
Qed.

Lemma replace_row_ships (k : Z) (f : LivestockPenORM.t -> LivestockPenORM.t)
    (db : table) :
  (forall o, LivestockPenORM.ship_id (f o) = LivestockPenORM.ship_id o) ->
  map LivestockPenORM.ship_id (replace_row k f db) = map LivestockPenORM.ship_id db.
Proof.
  intros Hf. induction db as [|o db IH]; simpl; [reflexivity|].
  destruct (LivestockPenORM.id o =? k); simpl; [now rewrite Hf | now rewrite IH].
Qed.

Lemma remove_row_In (k : Z) (db : table) (obj : LivestockPenORM.t) :
  In obj (remove_row k db) -> In obj db.
Proof.
  induction db as [|o db IH]; simpl; [tauto|].
  destruct (LivestockPenORM.id o =? k); simpl; [tauto | intros [H|H]; auto].
Qed.

Lemma remove_row_In_iff (k : Z) (db : table) (obj : LivestockPenORM.t) :
  keys_unique db ->
  In obj (remove_row k db) <-> In obj db /\ LivestockPenORM.id obj <> k.
Proof.
  unfold keys_unique. induction db as [|o db IH]; simpl; intros Hu.
  - tauto.
  - inversion Hu as [|? ? Hn Hu']; subst.
    destruct (Z.eqb_spec (LivestockPenORM.id o) k) as [E|E]; simpl.
    + split.
      * intros H. split; [now right|]. intros E'. apply Hn.
        apply in_map_iff. exists obj. split; [congruence | exact H].
      * intros [[->|H] Hk]; [contradiction | exact H].
    + rewrite (IH Hu'). split.
      * intros [->|[H Hk]]; [split; [now left | exact E] | split; [now right | exact Hk]].
      * intros [[->|H] Hk]; [now left | right; split; assumption].
Qed.

Lemma remove_row_unique (k : Z) (db : table) :
  keys_unique db -> keys_unique (remove_row k db).
Proof.
  unfold keys_unique. induction db as [|o db IH]; simpl; intros Hu; [exact Hu|].
  inversion Hu as [|? ? Hn Hu']; subst.
  destruct (LivestockPenORM.id o =? k); simpl; [exact Hu'|].
  constructor; [|exact (IH Hu')].
  intros H. apply Hn. apply in_map_iff in H. destruct H as [x [Ex Hx]].
  apply in_map_iff. exists x. split; [exact Ex | exact (remove_row_In k db x Hx)].
Qed.

Lemma remove_row_absent (k : Z) (db : table) :
  ~ In k (map LivestockPenORM.id db) -> remove_row k db = db.
Proof.
  induction db as [|o db IH]; simpl; intros H; [reflexivity|].
  destruct (Z.eqb_spec (LivestockPenORM.id o) k) as [E|E].
  - exfalso. apply H. now left.
  - f_equal. apply IH. tauto.
Qed.

Lemma db_get_remove_other (k j : Z) (db : table) :
  j <> k -> db_get j (remove_row k db) = db_get j db.
Proof.
  intros Hjk. unfold db_get. induction db as [|o db IH]; simpl; [reflexivity|].
  destruct (Z.eqb_spec (LivestockPenORM.id o) k) as [E|E]; simpl.
  - destruct (Z.eqb_spec (LivestockPenORM.id o) j); [lia | reflexivity].
  - destruct (LivestockPenORM.id o =? j); [reflexivity | exact IH].
Qed.

Lemma db_get_remove_same (k : Z) (db : table) :
  keys_unique db -> db_get k (remove_row k db) = None.
Proof.
  intros Hu. apply db_get_None. intros H. apply in_map_iff in H.
  destruct H as [x [Ex Hx]]. apply (remove_row_In_iff k db x Hu) in Hx. tauto.
Qed.

Lemma order_leb_total (a b : LivestockPenORM.t) :
  order_leb a b = false -> order_leb b a = true.
Proof.
  unfold order_leb.
  rewrite (String.compare_antisym (LivestockPenORM.deck b) (LivestockPenORM.deck a)).
  destruct (String.compare (LivestockPenORM.deck a) (LivestockPenORM.deck b)); simpl.
  - intros H.
    destruct (String.leb_total (LivestockPenORM.name a) (LivestockPenORM.name b)) as [E|E];
      [congruence | exact E].
  - discriminate.
  - reflexivity.
Qed.

Lemma insert_ordered_perm (x : LivestockPenORM.t) (l : list LivestockPenORM.t) :
  Permutation (insert_ordered x l) (x :: l).
Proof.
  induction l as [|y l IH]; simpl; [apply Permutation_refl|].
  destruct (order_leb x y); [apply Permutation_refl|].
  eapply Permutation_trans; [apply perm_skip, IH | apply perm_swap].
Qed.

Lemma order_by_perm (l : list LivestockPenORM.t) : Permutation (order_by l) l.
Proof.
  induction l as [|x l IH]; simpl; [constructor|].
  eapply Permutation_trans; [apply insert_ordered_perm | now apply perm_skip].
Qed.

Lemma insert_ordered_sorted (x : LivestockPenORM.t) (l : list LivestockPenORM.t) :
  Sorted row_leb_prop l -> Sorted row_leb_prop (insert_ordered x l).
Proof.
  induction l as [|y l IH]; simpl; intros Hs.
  - repeat constructor.
  - destruct (order_leb x y) eqn:E.
    + constructor; [exact Hs | constructor; exact E].
    + inversion Hs as [|? ? Hs' Hh]; subst.
      constructor; [exact (IH Hs')|].
      destruct l as [|z l]; simpl.
      * constructor. exact (order_leb_total x y E).
      * destruct (order_leb x z).
        -- constructor. exact (order_leb_total x y E).
        -- inversion Hh; subst. constructor. assumption.
Qed.

Lemma order_by_sorted (l : list LivestockPenORM.t) : Sorted row_leb_prop (order_by l).
Proof.
  induction l as [|x l IH]; simpl; [constructor | now apply insert_ordered_sorted].
Qed.

Lemma to_pen_in_order (a b : LivestockPenORM.t) :
  row_leb_prop a b -> in_order (to_pen a) (to_pen b).
Proof.
  unfold row_leb_prop, order_leb, in_order. simpl.
  destruct (String.compare (LivestockPenORM.deck a) (LivestockPenORM.deck b));
    [tauto | tauto | discriminate].
Qed.

Lemma Sorted_map_to_pen (l : list LivestockPenORM.t) :
  Sorted row_leb_prop l -> Sorted in_order (map to_pen l).
Proof.
  induction 1 as [|x l Hs IH Hh]; simpl; constructor; [exact IH|].
  destruct Hh; simpl; constructor. now apply to_pen_in_order.
Qed.

Lemma to_pen_inj (a b : LivestockPenORM.t) : to_pen a = to_pen b -> a = b.
Proof.
  destruct a, b. unfold to_pen. simpl. intros H. inversion H. reflexivity.
Qed.

Lemma list_for_ship_In (ship : Z) (db : table) (p : LivestockPen.t) :
  In p (list_for_ship ship db) <->
  exists obj, In obj db /\ LivestockPenORM.ship_id obj = ship /\ p = to_pen obj.
Proof.
  unfold list_for_ship. rewrite in_map_iff. split.
  - intros [obj [E H]]. exists obj.
    apply (Permutation_in _ (order_by_perm _)) in H.
    apply filter_In in H. destruct H as [H1 H2].
    split; [exact H1 | split; [now apply Z.eqb_eq | now symmetry]].
  - intros [obj [H1 [H2 ->]]]. exists obj. split; [reflexivity|].
    apply (Permutation_in _ (Permutation_sym (order_by_perm _))).
    apply filter_In. split; [exact H1 | now apply Z.eqb_eq].
Qed.

Lemma list_for_ship_length (ship : Z) (db : table) :
  length (list_for_ship ship db) =
  length (filter (fun obj => LivestockPenORM.ship_id obj =? ship) db).
Proof.
  unfold list_for_ship. rewrite length_map.
  apply Permutation_length, order_by_perm.
Qed.

Lemma db_get_unique (k : Z) (db : table) (obj : LivestockPenORM.t) :
  keys_unique db -> In obj db -> LivestockPenORM.id obj = k ->
  db_get k db = Some obj.
Proof.
  unfold keys_unique, db_get. induction db as [|o db IH]; simpl; intros Hu Hin Hk.
  - contradiction.
  - inversion Hu as [|? ? Hn Hu']; subst.
    destruct Hin as [->|Hin].
    + now rewrite Z.eqb_refl.
    + destruct (Z.eqb_spec (LivestockPenORM.id o) (LivestockPenORM.id obj)) as [E|E].
      * exfalso. apply Hn. rewrite E. now apply in_map.
      * now apply IH.
Qed.

Lemma assign_id (pen : LivestockPen.t) (o : LivestockPenORM.t) :
  LivestockPenORM.id (assign pen o) = LivestockPenORM.id o.
Proof. reflexivity. Qed.

Lemma assign_ship (pen : LivestockPen.t) (o : LivestockPenORM.t) :
  LivestockPenORM.ship_id (assign pen o) = LivestockPenORM.ship_id o.
Proof. reflexivity. Qed.

Lemma filter_ship_length (ship : Z) (db db' : table) :
  map LivestockPenORM.ship_id db' = map LivestockPenORM.ship_id db ->
  length (filter (fun obj => LivestockPenORM.ship_id obj =? ship) db') =
  length (filter (fun obj => LivestockPenORM.ship_id obj =? ship) db).
Proof.
  revert db'. induction db as [|o db IH]; intros [|o' db']; simpl; try discriminate.
  - reflexivity.
  - intros [= E1 E2]. rewrite E1.
    destruct (LivestockPenORM.ship_id o =? ship); simpl; [f_equal|]; now apply IH.
Qed.


(** X16 (create, get).  A pen that names its ship is stored under a key
    no row had before, and comes back with that key: [get] of the new key
    returns exactly the pen [create] returned, whatever id the argument
    carried, and [get] of every other key answers as it did before. *)
Theorem created_pen_is_stored (pen : LivestockPen.t) (db : table) (ship : Z) :
  LivestockPen.ship_id pen = Some ship ->
  exists k db',
    create pen db = Ok (set_id pen k, db') /\
    get k db = None /\
    get k db' = Some (set_id pen k) /\
    (forall j, j <> k -> get j db' = get j db).
Proof.
  intros Hs. exists (next_id db). unfold create. rewrite Hs.
  eexists. split; [reflexivity|].
  assert (Hf : db_get (next_id db) db = None) by (apply db_get_None, next_id_fresh).
  unfold get. split; [now rewrite Hf|]. split.
  - rewrite db_get_app, Hf. simpl. rewrite Z.eqb_refl.
    unfold to_pen, set_id. simpl. now rewrite Hs.
  - intros j Hj. rewrite db_get_app.
    destruct (db_get j db); [reflexivity|]. simpl.
    destruct (Z.eqb_spec (next_id db) j); [congruence | reflexivity].
Qed.

(** X18 (update, get).  Updating a stored pen rewrites the columns of its
    row and nothing else: the row keeps its key and its ship, so [get]
    returns the argument on the ship the row already had, even when the
    argument (which [update] returns as it is) names another ship; every
    other key answers as before, and each ship lists as many pens as
    before. *)
Theorem update_keeps_key_and_ship (pen old : LivestockPen.t) (db : table) (k : Z) :
  LivestockPen.id pen = Some k ->
  get k db = Some old ->
  exists db',
    update pen db = Ok (pen, db') /\
    get k db' = Some (on_ship (LivestockPen.ship_id old) pen) /\
    (forall j, j <> k -> get j db' = get j db) /\
    (forall ship, length (list_for_ship ship db') = length (list_for_ship ship db)).
Proof.
  intros Hk Hg. unfold update, get in *. rewrite Hk.
  destruct (db_get k db) as [obj|] eqn:E; [|discriminate].
  injection Hg as <-. eexists. split; [reflexivity|]. split; [|split].
  - rewrite (db_get_replace_same k (assign pen) db obj (assign_id pen) E).
    destruct (db_get_In _ _ _ E) as [_ Hid].
    unfold to_pen, assign, on_ship. simpl. rewrite Hid, Hk. reflexivity.
  - intros j Hj.
    now rewrite (db_get_replace_other k j (assign pen) db (assign_id pen) Hj).
  - intros ship. rewrite !list_for_ship_length. apply filter_ship_length.
    apply replace_row_ships, assign_ship.
Qed.

(** X19 (delete, get).  In a table with unique keys, deleting a key makes
    [get] of it return None and leaves [get] of every other key as it
    was; deleting a key no row has changes nothing, so deleting twice is
    deleting once. *)
Theorem delete_removes_the_row (db : table) (k : Z) :
  keys_unique db ->
  get k (delete k db) = None /\
  (forall j, j <> k -> get j (delete k db) = get j db) /\
  (get k db = None -> delete k db = db) /\
  delete k (delete k db) = delete k db.
Proof.
  intros Hu.
  assert (H1 : db_get k (delete k db) = None).
  { unfold delete. destruct (db_get k db) eqn:E; [|exact E].
    now apply db_get_remove_same. }
  split; [unfold get; now rewrite H1|]. split; [|split].
  - intros j Hj. unfold get, delete.
    destruct (db_get k db); [|reflexivity]. now rewrite db_get_remove_other.
  - unfold get, delete. destruct (db_get k db); [discriminate | reflexivity].
  - unfold delete at 1. now rewrite H1.
Qed.

(** X20 (create, update, delete).  The three calls that write keep the
    primary key unique. *)
Theorem keys_stay_unique (pen : LivestockPen.t) (db : table) :
  keys_unique db ->
  (forall r db', create pen db = Ok (r, db') -> keys_unique db') /\
  (forall r db', update pen db = Ok (r, db') -> keys_unique db') /\
  (forall k, keys_unique (delete k db)).
Proof.
  intros Hu. split; [|split].
  - intros r db'. unfold create.
    destruct (LivestockPen.ship_id pen); [|discriminate].
    intros [= _ <-]. unfold keys_unique. rewrite map_app. simpl.
    apply NoDup_app; [exact Hu | repeat constructor; simpl; tauto |].
    intros x Hx [<-|[]]. exact (next_id_fresh db Hx).
  - intros r db'. unfold update.
    destruct (LivestockPen.id pen) as [k|]; [|discriminate].
    destruct (db_get k db); [|discriminate].
    intros [= _ <-]. unfold keys_unique.
    now rewrite (replace_row_keys k (assign pen) db (assign_id pen)).
  - intros k. unfold delete. destruct (db_get k db); [|exact Hu].
    now apply remove_row_unique.
Qed.

(** X21 (list_for_ship).  The list of a ship holds the pens of the rows
    of that ship, each row once, and is in the order of (deck, name):
    every pen is followed by one that does not come before it. *)
Theorem list_for_ship_is_the_ordered_selection (ship : Z) (db : table) :
  Sorted in_order (list_for_ship ship db) /\
  Permutation (list_for_ship ship db)
    (map to_pen (filter (fun obj => LivestockPenORM.ship_id obj =? ship) db)) /\
  (forall p, In p (list_for_ship ship db) -> LivestockPen.ship_id p = Some ship).
Proof.
  split; [|split].
  - unfold list_for_ship. apply Sorted_map_to_pen, order_by_sorted.
  - unfold list_for_ship. apply Permutation_map, order_by_perm.
  - intros p Hp. apply list_for_ship_In in Hp.
    destruct Hp as [obj [_ [<- ->]]]. reflexivity.
Qed.

(** X22 (list_for_ship, get).  With unique keys, the pens a ship lists are
    the pens [get] returns that are on that ship. *)
Theorem listed_pens_are_the_stored_pens (ship : Z) (db : table) (p : LivestockPen.t) :
  keys_unique db ->
  (In p (list_for_ship ship db) <->
   exists k, get k db = Some p /\ LivestockPen.ship_id p = Some ship).
Proof.
  intros Hu. rewrite list_for_ship_In. unfold get. split.
  - intros [obj [H1 [H2 ->]]]. exists (LivestockPenORM.id obj).
    rewrite (db_get_unique _ db obj Hu H1 eq_refl). simpl. now rewrite H2.
  - intros [k [Hg Hs]]. destruct (db_get k db) as [obj|] eqn:E; [|discriminate].
    injection Hg as <-. exists obj. destruct (db_get_In _ _ _ E) as [Hin _].
    simpl in Hs. injection Hs as Hs. repeat split; assumption.
Qed.

(** X23 (create, list_for_ship).  A created pen appears in the list of its
    ship, which grows by one; the lists of the other ships do not
    change. *)
Theorem created_pen_is_listed (pen : LivestockPen.t) (db : table) (ship : Z) :
  LivestockPen.ship_id pen = Some ship ->
  exists pen' db',
    create pen db = Ok (pen', db') /\
    In pen' (list_for_ship ship db') /\
    length (list_for_ship ship db') = S (length (list_for_ship ship db)) /\
    (forall other, other <> ship -> list_for_ship other db' = list_for_ship other db).
Proof.
  intros Hs. unfold create. rewrite Hs. do 2 eexists.
  split; [reflexivity|]. split; [|split].
  - apply list_for_ship_In. eexists. split; [apply in_or_app; right; left; reflexivity|].
    split; [reflexivity|]. unfold to_pen, set_id. simpl. now rewrite Hs.
  - rewrite !list_for_ship_length, filter_app, length_app. simpl.
    rewrite Z.eqb_refl. simpl. lia.
  - intros other Ho. unfold list_for_ship. rewrite filter_app. simpl.
    destruct (Z.eqb_spec ship other); [congruence|]. now rewrite app_nil_r.
Qed.

(** X24 (delete, list_for_ship).  With unique keys, deleting a key takes
    the pen of that key, and no other, out of every list. *)
Theorem deleted_pen_is_not_listed (ship k : Z) (db : table) (p : LivestockPen.t) :
  keys_unique db ->
  (In p (list_for_ship ship (delete k db)) <->
   In p (list_for_ship ship db) /\ LivestockPen.id p <> Some k).
Proof.
  intros Hu. rewrite !list_for_ship_In. unfold delete.
  destruct (db_get k db) as [o|] eqn:E.
  - split.
    + intros [obj [H1 [H2 ->]]]. apply (remove_row_In_iff k db obj Hu) in H1.
      destruct H1 as [H1 H3]. split; [exists obj; auto|]. simpl. congruence.
    + intros [[obj [H1 [H2 ->]]] H3]. exists obj. split; [|auto].
      apply (remove_row_In_iff k db obj Hu). split; [exact H1|]. simpl in H3. congruence.
  - split; [|tauto]. intros [obj [H1 [H2 ->]]]. split; [exists obj; auto|].
    simpl. intros [= H3]. apply (proj1 (db_get_None k db) E).
    rewrite <- H3. now apply in_map.
Qed.

Lemma stored_pens_keys_unique : keys_unique Sample.stored_pens.
Proof.
  unfold keys_unique. simpl. repeat constructor; simpl; intuition discriminate.
Qed.

Lemma created_pen_is_stored_witness :
  exists k db',
    create Sample.new_pen Sample.stored_pens = Ok (set_id Sample.new_pen k, db') /\
    get k db' = Some (set_id Sample.new_pen k) /\
    get 4 db' = get 4 Sample.stored_pens.
Proof.
  destruct (created_pen_is_stored Sample.new_pen Sample.stored_pens 1 eq_refl)
    as (k & db' & H1 & H2 & H3 & H4).
  exists k, db'. split; [exact H1|]. split; [exact H3|].
  apply H4. intros E. rewrite <- E in H2. vm_compute in H2. discriminate.
Defined.

Lemma update_keeps_key_and_ship_witness :
  exists db',
    update Sample.edited_pen Sample.stored_pens = Ok (Sample.edited_pen, db') /\
    get 4 db' = Some (on_ship (Some 1) Sample.edited_pen) /\
    get 1 db' = get 1 Sample.stored_pens /\
    length (list_for_ship 2 db') = length (list_for_ship 2 Sample.stored_pens).
Proof.
  destruct (update_keeps_key_and_ship Sample.edited_pen (set_id Sample.pen_a1 4)
              Sample.stored_pens 4 eq_refl eq_refl)
    as (db' & H1 & H2 & H3 & H4).
  exists db'. split; [exact H1|]. split; [exact H2|].
  split; [apply H3; lia | apply H4].
Defined.

Lemma delete_removes_the_row_witness :
  get 4 (delete 4 Sample.stored_pens) = None /\
  get 1 (delete 4 Sample.stored_pens) = get 1 Sample.stored_pens /\
  delete 4 (delete 4 Sample.stored_pens) = delete 4 Sample.stored_pens.
Proof.
  destruct (delete_removes_the_row Sample.stored_pens 4 stored_pens_keys_unique)
    as (H1 & H2 & _ & H4).
  split; [exact H1|]. split; [apply H2; lia | exact H4].
Defined.

Lemma keys_stay_unique_witness : keys_unique (delete 1 Sample.stored_pens).
Proof.
  exact (proj2 (proj2 (keys_stay_unique Sample.new_pen Sample.stored_pens
                         stored_pens_keys_unique)) 1).
Defined.

Lemma listed_pens_are_the_stored_pens_witness :
  In (set_id Sample.pen_a1 4) (list_for_ship 1 Sample.stored_pens) <->
  exists k, get k Sample.stored_pens = Some (set_id Sample.pen_a1 4) /\
            LivestockPen.ship_id (set_id Sample.pen_a1 4) = Some 1.
Proof.
  exact (listed_pens_are_the_stored_pens 1 Sample.stored_pens
           (set_id Sample.pen_a1 4) stored_pens_keys_unique).
Defined.

Lemma created_pen_is_listed_witness :
  exists pen' db',
    create Sample.new_pen Sample.stored_pens = Ok (pen', db') /\
    In pen' (list_for_ship 1 db') /\
    length (list_for_ship 1 db') = S (length (list_for_ship 1 Sample.stored_pens)) /\
    list_for_ship 2 db' = list_for_ship 2 Sample.stored_pens.
Proof.
  destruct (created_pen_is_listed Sample.new_pen Sample.stored_pens 1 eq_refl)
    as (pen' & db' & H1 & H2 & H3 & H4).
  exists pen', db'. split; [exact H1|]. split; [exact H2|].
  split; [exact H3 | apply H4; lia].
Defined.

Lemma deleted_pen_is_not_listed_witness :
  In (set_id Sample.pen_a1 4) (list_for_ship 1 (delete 1 Sample.stored_pens)) <->
  In (set_id Sample.pen_a1 4) (list_for_ship 1 Sample.stored_pens) /\
  LivestockPen.id (set_id Sample.pen_a1 4) <> Some 1.
Proof.
  exact (deleted_pen_is_not_listed 1 1 Sample.stored_pens (set_id Sample.pen_a1 4)
           stored_pens_keys_unique).
Defined.

End PEN_REPOSITORY.

(* ------------------------------------------------------------------ *)
(** ** The cross-section view: where the waterline is drawn            *)
(* ------------------------------------------------------------------ *)

Section CROSS_SECTION.
Local Open Scope Q_scope.

Lemma max_breadth_cases (breadth : pyfloat) :
  match py_max breadth (Fin 1.0) with
  | Fin m => 1 <= m /\ (forall b, breadth = Fin b -> (b <= 1 -> m == 1) /\ b <= m)
  | Inf negative => negative = false /\ breadth = Inf false
  | NaN => breadth = NaN
  end.
Proof.
  unfold py_max, fgt, flt. destruct breadth as [b | [|] |]; simpl.
  - destruct (Qle_bool 1.0 b) eqn:E; simpl.
    + apply Qle_bool_iff in E. split; [lra|]. intros b' [= <-]. split; [lra | lra].
    + assert (H : ~ 1.0 <= b) by (intros H; apply Qle_bool_iff in H; congruence).
      split; [lra|]. intros b' [= <-]. split; [reflexivity | lra].
  - split; [lra|]. intros b [=].
  - split; reflexivity.
  - reflexivity.
Qed.

(** X25 (update_waterline).  The scale of the waterline is defined for
    every draft and breadth: the divisor [max(breadth, 1.0)] is never
    zero, so no call divides by zero.  The scale is never infinite, and
    it is nan only for a breadth that is nan. *)
Theorem waterline_never_divides_by_zero (draft breadth : pyfloat) :
  exists s,
    CrossSection.scale breadth = Some s /\
    CrossSection.y_waterline draft breadth
    = Some (fsub (Fin (-50)) (fmul draft s)) /\
    (s = NaN <-> breadth = NaN) /\
    (forall negative, s <> Inf negative).
Proof.
  unfold CrossSection.y_waterline, CrossSection.scale, CrossSection.truediv.
  pose proof (max_breadth_cases breadth) as H.
  destruct (py_max breadth (Fin 1.0)) as [m | negative |] eqn:Em.
  - destruct H as [H1 H2].
    assert (E : Qis_zero m = false).
    { unfold Qis_zero. destruct (Qeq_bool m 0) eqn:E; [|reflexivity].
      apply Qeq_bool_iff in E. lra. }
    rewrite E. simpl. rewrite E. eexists. split; [reflexivity|].
    split; [reflexivity|]. split; [|discriminate].
    split; [discriminate|]. intros ->. discriminate Em.
  - destruct H as [-> ->]. simpl. eexists. split; [reflexivity|].
    split; [reflexivity|]. split; [|discriminate]. split; discriminate.
  - subst. simpl. eexists. split; [reflexivity|].
    split; [reflexivity|]. split; [tauto | discriminate].
Qed.

(** X26 (update_waterline).  For a finite breadth the scale lies in
    (0, 200]: it is 200 for a breadth of at most 1 and 200 / breadth
    above; so for a finite draft that is not negative the line is drawn
    at a height between -50 - 200 * draft and -50. *)
Theorem waterline_scale_is_bounded (d b : Q) :
  0 <= d ->
  exists s y,
    CrossSection.scale (Fin b) = Some (Fin s) /\
    0 < s /\ s <= 200 /\
    (b <= 1 -> s == 200) /\
    (1 <= b -> s * b == 200) /\
    CrossSection.y_waterline (Fin d) (Fin b) = Some (Fin y) /\
    -50 - 200 * d <= y /\ y <= -50.
Proof.
  intros Hd.
  unfold CrossSection.y_waterline, CrossSection.scale, CrossSection.truediv.
  pose proof (max_breadth_cases (Fin b)) as H.
  destruct (py_max (Fin b) (Fin 1.0)) as [m | negative |] eqn:Em;
    [| destruct H; discriminate | discriminate].
  destruct H as [H1 H2]. destruct (H2 b eq_refl) as [H3 H4].
  assert (E : Qis_zero m = false).
  { unfold Qis_zero. destruct (Qeq_bool m 0) eqn:E; [|reflexivity].
    apply Qeq_bool_iff in E. lra. }
  rewrite E. simpl. rewrite E.
  exists (200.0 / m), (-50 + - (d * (200.0 / m))).
  assert (Hm : 0 < m) by lra.
  assert (Hs : 200.0 / m * m == 200) by (field; lra).
  assert (Hp : 0 < 200.0 / m).
  { apply Qlt_shift_div_l; [exact Hm | lra]. }
  assert (Hle : 200.0 / m <= 200).
  { apply Qle_shift_div_r; [exact Hm | nra]. }
  split; [reflexivity|]. split; [exact Hp|]. split; [exact Hle|].
  split; [intros Hb; rewrite (H3 Hb); field|].
  split.
  { intros Hb. assert (Hbm : m == b).
    { unfold py_max, fgt, flt in Em. simpl in Em.
      destruct (Qle_bool 1.0 b) eqn:Eb; simpl in Em.
      - injection Em as <-. reflexivity.
      - injection Em as <-. assert (Qle_bool 1.0 b = true) by (apply Qle_bool_iff; lra).
        congruence. }
    rewrite <- Hbm. exact Hs. }
  split; [reflexivity|]. split; nra.
Qed.

End CROSS_SECTION.

Lemma waterline_scale_is_bounded_witness :
  exists s y,
    CrossSection.scale (Fin 25) = Some (Fin s) /\
    (0 < s)%Q /\ (s <= 200)%Q /\
    CrossSection.y_waterline (Fin 6) (Fin 25) = Some (Fin y) /\
    (-50 - 200 * 6 <= y)%Q /\ (y <= -50)%Q.
Proof.
  destruct (waterline_scale_is_bounded 6 25 ltac:(lra))
    as (s & y & H1 & H2 & H3 & _ & _ & H6 & H7 & H8).
  exists s, y. repeat split; assumption.
Defined.

(* ------------------------------------------------------------------ *)
(** ** The 3D view: what is shown and what is remembered               *)
(* ------------------------------------------------------------------ *)

Section STL_VIEW.
Variable mesh : Type.
Variable available : bool.
Variable path_exists : string -> bool.
Variable pv_read : string -> option mesh.
Variable add_mesh_error : mesh -> option exn.

Set Warnings "-notation-for-abbreviation".
Notation widget := (StlView.widget mesh).
Notation load_step :=
  (StlView.load_step available path_exists pv_read add_mesh_error).
Notation load_stl :=
  (StlView.load_stl available path_exists pv_read add_mesh_error).
Notation load_stl_paths :=
  (StlView.load_stl_paths available path_exists pv_read add_mesh_error).
Notation loadable := (StlView.loadable path_exists pv_read).
Notation meshes_of := (StlView.meshes_of path_exists pv_read).
Notation all_drawn := (StlView.all_drawn path_exists pv_read add_mesh_error).
Notation paths_name_meshes := (StlView.paths_name_meshes pv_read).
Notation in_step := (StlView.in_step pv_read).

(** A turn of the loop on a path whose mesh the plotter takes, or that
    has no mesh. *)
Lemma load_step_drawn (p : string) (drawn : bool) (ps : list string)
    (shown : list mesh) :
  available = true ->
  all_drawn [p] ->
  load_step (Ok drawn,
             {| StlView._paths := ps; StlView._plotter := Some shown |}) p
  = (Ok (drawn || loadable p),
     {| StlView._paths := (ps ++ filter loadable [p])%list;
        StlView._plotter := Some (shown ++ meshes_of [p])%list |}).
Proof.
  intros Ha Hd.
  unfold StlView.load_step, StlView._load_stl_mesh, StlView.loadable,
    StlView.draw.
  rewrite Ha. simpl.
  destruct (path_exists p) eqn:Ep; simpl.
  - destruct (pv_read p) as [m|] eqn:Er; simpl.
    + rewrite (Hd p m (or_introl eq_refl) Ep Er). now rewrite orb_true_r.
    + now rewrite orb_false_r, !app_nil_r.
  - now rewrite orb_false_r, !app_nil_r.
Qed.

(** A turn of the loop on a path whose mesh the plotter refuses. *)
Lemma load_step_refused (p : string) (m : mesh) (e : exn) (drawn : bool)
    (w : widget) :
  available = true ->
  path_exists p = true -> pv_read p = Some m -> add_mesh_error m = Some e ->
  load_step (Ok drawn, w) p = (Raise e, w).
Proof.
  intros Ha Ep Er Ee.
  unfold StlView.load_step, StlView._load_stl_mesh.
  rewrite Ha, Ep. simpl. rewrite Er, Ee. reflexivity.
Qed.

(** Once [add_mesh] has raised, the loop is over. *)
Lemma load_step_raised (paths : list string) (e : exn) (w : widget) :
  fold_left load_step paths (Raise e, w) = (Raise e, w).
Proof. induction paths as [|p paths IH]; simpl; [reflexivity | exact IH]. Qed.

Lemma meshes_of_app (l l' : list string) :
  meshes_of (l ++ l') = (meshes_of l ++ meshes_of l')%list.
Proof.
  induction l as [|p l IH]; simpl; [reflexivity |].
  destruct (path_exists p); [| exact IH].
  destruct (pv_read p); [simpl; f_equal |]; exact IH.
Qed.

Lemma all_drawn_cons (p : string) (paths : list string) :
  all_drawn (p :: paths) -> all_drawn [p] /\ all_drawn paths.
Proof.
  intros H. split; intros q m Hq; apply H.
  - destruct Hq as [<- | []]. left. reflexivity.
  - right. exact Hq.
Qed.

Lemma load_step_fold (paths : list string) (drawn : bool) (ps : list string)
    (shown : list mesh) :
  available = true ->
  all_drawn paths ->
  fold_left load_step paths
    (Ok drawn, {| StlView._paths := ps; StlView._plotter := Some shown |})
  = (Ok (drawn || existsb loadable paths),
     {| StlView._paths := (ps ++ filter loadable paths)%list;
        StlView._plotter := Some (shown ++ meshes_of paths)%list |}).
Proof.
  intros Ha. revert drawn ps shown.
  induction paths as [|p paths IH]; intros drawn ps shown Hd.
  - simpl. now rewrite orb_false_r, !app_nil_r.
  - destruct (all_drawn_cons p paths Hd) as [Hp Hrest].
    cbn [fold_left]. rewrite (load_step_drawn p drawn ps shown Ha Hp).
    rewrite (IH _ _ _ Hrest).
    change (p :: paths) with ([p] ++ paths)%list.
    rewrite meshes_of_app, filter_app, existsb_app.
    cbn [existsb]. rewrite orb_false_r, orb_assoc, <- !app_assoc. reflexivity.
Qed.

Lemma meshes_of_named (paths : list string) :
  Forall2 (fun p m => pv_read p = Some m) (filter loadable paths)
          (meshes_of paths).
Proof.
  induction paths as [|p paths IH]; simpl; [constructor |].
  unfold StlView.loadable at 1.
  destruct (path_exists p); simpl; [| exact IH].
  destruct (pv_read p) as [m|] eqn:E; [| exact IH].
  constructor; [exact E | exact IH].
Qed.

Lemma no_view_false (w : widget) :
  StlView.no_view available w = false ->
  available = true /\ exists shown, StlView._plotter w = Some shown.
Proof.
  unfold StlView.no_view. destruct available; simpl; [| discriminate].
  destruct (StlView._plotter w) as [shown|]; [| discriminate].
  intros _. split; [reflexivity | now exists shown].
Qed.

Lemma cleared_view (w : widget) :
  StlView.no_view available w = false ->
  StlView.cleared w
  = {| StlView._paths := []; StlView._plotter := Some [] |}.
Proof.
  intros Hv. destruct (no_view_false w Hv) as [_ [shown Hs]].
  unfold StlView.cleared. now rewrite Hs.
Qed.

Lemma filter_nil_existsb {A} (f : A -> bool) (l : list A) :
  existsb f l = true <-> filter f l <> [].
Proof.
  induction l as [|x l IH]; simpl.
  - split; [discriminate | congruence].
  - destruct (f x); simpl; [split; [discriminate | reflexivity] | exact IH].
Qed.

(** The state in which a list of paths leaves the view when the plotter
    takes all their meshes. *)
Lemma load_stl_paths_view (paths : list string) (w : widget) :
  StlView.no_view available w = false ->
  all_drawn paths ->
  load_stl_paths paths w
  = (Ok (existsb loadable paths),
     {| StlView._paths := filter loadable paths;
        StlView._plotter := Some (meshes_of paths) |}).
Proof.
  intros Hv Hd. destruct (no_view_false w Hv) as [Ha _].
  unfold StlView.load_stl_paths. rewrite Hv, (cleared_view w Hv).
  rewrite (load_step_fold paths false [] [] Ha Hd). reflexivity.
Qed.

(** X27 (load_stl_paths).  On a widget with a 3D view, [load_stl_paths]
    hands the meshes of the paths that exist and can be read to the
    plotter, in the order given, whatever the widget showed before.
    When the plotter takes them all, it shows them, the widget remembers
    exactly those paths, and the call returns True exactly when it
    remembers a path.  When the plotter refuses one, the exception of
    [add_mesh] ends the call at that path: the widget shows and
    remembers what came before it, and the paths after it are not
    read. *)
Theorem load_stl_paths_draws_the_loadable_files (paths : list string)
    (w : widget) :
  StlView.no_view available w = false ->
  (all_drawn paths ->
   fst (load_stl_paths paths w) = Ok (existsb loadable paths) /\
   StlView._paths (snd (load_stl_paths paths w)) = filter loadable paths /\
   StlView._plotter (snd (load_stl_paths paths w)) = Some (meshes_of paths) /\
   (fst (load_stl_paths paths w) = Ok true <->
    StlView._paths (snd (load_stl_paths paths w)) <> [])) /\
  (forall before p after m e,
      paths = (before ++ p :: after)%list ->
      all_drawn before ->
      path_exists p = true -> pv_read p = Some m ->
      add_mesh_error m = Some e ->
      load_stl_paths paths w
      = (Raise e,
         {| StlView._paths := filter loadable before;
            StlView._plotter := Some (meshes_of before) |})).
Proof.
  intros Hv. destruct (no_view_false w Hv) as [Ha _]. split.
  - intros Hd. rewrite (load_stl_paths_view paths w Hv Hd). simpl.
    split; [reflexivity |]. split; [reflexivity |]. split; [reflexivity |].
    rewrite <- filter_nil_existsb. split; [intros [= H]; exact H | intros ->; reflexivity].
  - intros before p after m e -> Hd Ep Er Ee.
    unfold StlView.load_stl_paths. rewrite Hv, (cleared_view w Hv).
    rewrite fold_left_app, (load_step_fold before false [] [] Ha Hd).
    cbn [fold_left].
    rewrite (load_step_refused p m e _ _ Ha Ep Er Ee).
    apply load_step_raised.
Qed.

Lemma load_stl_as_paths (path : option string) (w : widget) :
  load_stl path w
  = load_stl_paths (match path with Some p => [p] | None => [] end) w.
Proof.
  unfold StlView.load_stl, StlView.load_stl_paths.
  destruct (StlView.no_view available w); [reflexivity |].
  destruct path as [p|]; [| reflexivity].
  simpl. unfold StlView.load_step. simpl.
  destruct (path_exists p); simpl; [| reflexivity].
  destruct (StlView._load_stl_mesh available path_exists pv_read p) as [m|];
    [| reflexivity].
  destruct (add_mesh_error m); reflexivity.
Qed.

(** X28 (load_stl, load_stl_paths).  [load_stl] of a path is
    [load_stl_paths] of the list of that path alone, and [load_stl] of
    None is [load_stl_paths] of the empty list: the same answer and the
    same widget.  Without a 3D view both return False and leave the
    widget as it is. *)
Theorem load_stl_is_load_stl_paths_of_one (path : option string) (w : widget) :
  load_stl path w
  = load_stl_paths (match path with Some p => [p] | None => [] end) w /\
  (StlView.no_view available w = true -> load_stl path w = (Ok false, w)).
Proof.
  split; [apply load_stl_as_paths |].
  intros Hv. unfold StlView.load_stl. now rewrite Hv.
Qed.

(** A turn of the loop keeps the paths in step with the meshes. *)
Lemma load_step_names (st : result bool * widget) (p : string) :
  in_step (snd st) -> in_step (snd (load_step st p)).
Proof.
  intros H. unfold StlView.load_step.
  destruct (fst st); [| exact H].
  destruct (negb (path_exists p)) eqn:Ep; [exact H |].
  unfold StlView._load_stl_mesh. rewrite Ep, orb_false_r.
  destruct (negb available); [exact H |].
  destruct (pv_read p) as [m|] eqn:Er; [| exact H].
  destruct (add_mesh_error m); [exact H |].
  destruct H as (shown & Hs & Hf).
  exists (shown ++ [m])%list. unfold StlView.draw. simpl. rewrite Hs.
  split; [reflexivity |].
  apply Forall2_app; [exact Hf | constructor; [exact Er | constructor]].
Qed.

Lemma load_fold_names (paths : list string) (st : result bool * widget) :
  in_step (snd st) -> in_step (snd (fold_left load_step paths st)).
Proof.
  revert st. induction paths as [|p paths IH]; intros st H; simpl;
    [exact H | apply IH, load_step_names, H].
Qed.

Lemma in_step_names (w : widget) : in_step w -> paths_name_meshes w.
Proof.
  intros (shown & Hs & Hf). unfold StlView.paths_name_meshes.
  rewrite Hs. exact Hf.
Qed.

Lemma load_stl_paths_names (paths : list string) (w : widget) :
  paths_name_meshes w -> paths_name_meshes (snd (load_stl_paths paths w)).
Proof.
  intros Hw. unfold StlView.load_stl_paths.
  destruct (StlView.no_view available w) eqn:Hv; [exact Hw |].
  apply in_step_names, load_fold_names. rewrite (cleared_view w Hv).
  exists []. split; [reflexivity | constructor].
Qed.

(** X29 (__init__, load_stl, load_stl_paths, clear).  The paths the
    widget remembers name the meshes it shows, one for one and in order,
    and a widget without a 3D view remembers no path: this holds for a
    new widget and is kept by every call. *)
Theorem stl_paths_name_the_meshes_shown (w : widget) (path : option string)
    (paths : list string) (interactor_created : bool) :
  paths_name_meshes w ->
  paths_name_meshes (StlView.init mesh available interactor_created) /\
  paths_name_meshes (snd (load_stl path w)) /\
  paths_name_meshes (snd (load_stl_paths paths w)) /\
  paths_name_meshes (StlView.clear w).
Proof.
  intros Hw. split; [| split; [| split]].
  - unfold StlView.paths_name_meshes, StlView.init. simpl.
    destruct (available && interactor_created); [constructor | reflexivity].
  - rewrite (load_stl_as_paths path w). apply load_stl_paths_names, Hw.
  - apply load_stl_paths_names, Hw.
  - unfold StlView.paths_name_meshes, StlView.clear, StlView.cleared. simpl.
    destruct (StlView._plotter w); [constructor | reflexivity].
Qed.

End STL_VIEW.

Lemma sample_stl_all_drawn :
  StlView.all_drawn Sample.stl_exists Sample.stl_read Sample.stl_refused
    ["hull.stl"; "none.stl"; "bad.stl"; "deck_A.stl"]%string.
Proof.
  intros p m Hp He Hr. simpl in Hp.
  repeat (destruct Hp as [<- | Hp];
          [vm_compute in Hr; try discriminate Hr; injection Hr as <-;
           reflexivity |]).
  destruct Hp.
Qed.

Lemma load_stl_paths_draws_the_loadable_files_witness :
  (fst (@StlView.load_stl_paths nat true Sample.stl_exists Sample.stl_read
          Sample.stl_refused
          ["hull.stl"; "none.stl"; "bad.stl"; "deck_A.stl"]%string
          (@StlView.init nat true true)) = Ok true /\
   StlView._paths
     (snd (@StlView.load_stl_paths nat true Sample.stl_exists Sample.stl_read
             Sample.stl_refused
             ["hull.stl"; "none.stl"; "bad.stl"; "deck_A.stl"]%string
             (@StlView.init nat true true)))
   = ["hull.stl"; "deck_A.stl"]%string) /\
  @StlView.load_stl_paths nat true Sample.stl_exists Sample.stl_read
    Sample.stl_refused
    ["hull.stl"; "empty.stl"; "deck_A.stl"]%string
    (@StlView.init nat true true)
  = (Raise ValueError,
     {| StlView._paths := ["hull.stl"]%string;
        StlView._plotter := Some [1%nat] |}).
Proof.
  split.
  - destruct (proj1 (load_stl_paths_draws_the_loadable_files nat true
                Sample.stl_exists Sample.stl_read Sample.stl_refused
                ["hull.stl"; "none.stl"; "bad.stl"; "deck_A.stl"]%string
                (@StlView.init nat true true) eq_refl)
                sample_stl_all_drawn) as (H1 & H2 & _ & _).
    split; [exact H1 | exact H2].
  - refine (proj2 (load_stl_paths_draws_the_loadable_files nat true
              Sample.stl_exists Sample.stl_read Sample.stl_refused
              ["hull.stl"; "empty.stl"; "deck_A.stl"]%string
              (@StlView.init nat true true) eq_refl)
              ["hull.stl"]%string "empty.stl"%string ["deck_A.stl"]%string
              3%nat ValueError eq_refl _ eq_refl eq_refl eq_refl).
    intros p m [<- | []] _ Hr. vm_compute in Hr. injection Hr as <-.
    reflexivity.
Defined.

Lemma stl_paths_name_the_meshes_shown_witness :
  @StlView.paths_name_meshes nat Sample.stl_read
    (snd (@StlView.load_stl_paths nat true Sample.stl_exists Sample.stl_read
            Sample.stl_refused
            ["bad.stl"; "deck_A.stl"]%string
            (snd (@StlView.load_stl nat true Sample.stl_exists Sample.stl_read
                    Sample.stl_refused
                    (Some "hull.stl"%string) (@StlView.init nat true true))))).
Proof.
  refine (proj1 (proj2 (proj2
    (stl_paths_name_the_meshes_shown nat true Sample.stl_exists Sample.stl_read
       Sample.stl_refused
       (snd (@StlView.load_stl nat true Sample.stl_exists Sample.stl_read
               Sample.stl_refused
               (Some "hull.stl"%string) (@StlView.init nat true true)))
       None ["bad.stl"; "deck_A.stl"]%string true _)))).
  unfold StlView.paths_name_meshes. simpl.
  repeat constructor.
Defined.
